(** * Dose calculation and protocol schedule generation

    A shallow embedding of the computational pieces of the microdosing
    backend:

    - [MicrodoseCalculator] (services/microdoseCalculator.ts) together with
      its static tables (types/microdose.ts);
    - [generateProtocolEvents] and the handlers [POST /create] and
      [DELETE /:id] (modules/protocol/routes.ts);
    - the handler [POST /save-profile] (modules/microdose/routes.ts);
    - [NotificationService] (services/notificationService.ts).

    Modelling conventions.

    - A JavaScript [number] is a binary64 value: a finite one is given by
      its exact rational value, and every arithmetic operation rounds its
      exact result to the nearest binary64 number, ties to even, with
      overflow to the infinities.
    - A [Date] is its time value, an integer number of milliseconds since the
      epoch.  The local-time methods ([getDay], [getDate]/[setDate]) depend
      on the time zone of the process, which is a parameter of the model,
      given the way ECMA-262 gives it: the offset [LocalTZA(t, isUTC)].
    - The static tables are finite maps over their own keys; a read also
      finds the members that an object literal inherits from
      [Object.prototype].
    - [prisma.protocolEvent.create] appends a row to an explicit store and
      returns the row. *)

From Stdlib Require Import ZArith QArith Qround Qabs Qpower Lqa Lia List Ascii.
From stdpp Require Import gmap strings list fin_maps sorting.

Local Open Scope Z_scope.

(** ** JavaScript numbers *)

(** A Number is a binary64 value.  The finite ones are given by their
    exact rational value; the two zeros are one value here, as no
    operation of the source tells them apart. *)
Inductive number : Type :=
  | Fin (q : Q)
  | NaN
  | Inf (negative : bool).

(** The binary exponent of a positive rational:
    [2 ^ ilog2 q <= q < 2 ^ (ilog2 q + 1)]. *)
Definition ilog2 (q : Q) : Z :=
  let e := Z.log2 (Qnum q) - Z.log2 (Z.pos (Qden q)) in
  if Qle_bool (2 ^ e) q then e else e - 1.

(** The nearest integer, ties to the even one. *)
Definition round_half_even (x : Q) : Z :=
  let f := Qfloor x in
  match (x - inject_Z f ?= 1 # 2)%Q with
  | Lt => f
  | Gt => f + 1
  | Eq => if Z.even f then f else f + 1
  end.

(** The exponent of the unit in the last place of the binary64 numbers
    around [q] (53 significant bits, subnormal below [2 ^ -1022]), and [q]
    rounded to the nearest multiple of that unit. *)
Definition grid (q : Q) : Z := Z.max (ilog2 (Qabs q)) (-1022) - 52.

Definition nearest (q : Q) : Q :=
  (inject_Z (round_half_even (q / 2 ^ grid q)) * 2 ^ grid q)%Q.

(** The Number value of a real number (IEEE 754 roundTiesToEven): what an
    arithmetic operation returns for its exact result. *)
Definition binary64 (q : Q) : number :=
  if Qeq_bool q 0 then Fin 0
  else
    let r := nearest q in
    if Qle_bool (2 ^ 1024) r then Inf false
    else if Qle_bool r (- 2 ^ 1024) then Inf true
    else Fin (Qred r).

(** The Number value of a decimal literal of the source. *)
Definition literal (q : Q) : number := binary64 q.

Definition is_zero (a : number) : bool :=
  match a with
  | Fin x => Qeq_bool x 0
  | _ => false
  end.

Definition is_negative (a : number) : bool :=
  match a with
  | Fin x => negb (Qle_bool 0 x)
  | Inf s => s
  | NaN => false
  end.

(** [a * b] *)
Definition num_mul (a b : number) : number :=
  match a, b with
  | NaN, _ | _, NaN => NaN
  | Fin x, Fin y => binary64 (x * y)
  | _, _ =>
    if is_zero a || is_zero b then NaN
    else Inf (xorb (is_negative a) (is_negative b))
  end.

(** [a / b]; a zero divisor counts as the positive zero (the divisors of
    the source are the literals 70 and 10). *)
Definition num_div (a b : number) : number :=
  match a, b with
  | NaN, _ | _, NaN => NaN
  | Inf _, Inf _ => NaN
  | Inf s, Fin _ => Inf (xorb s (is_negative b))
  | Fin _, Inf _ => Fin 0
  | Fin x, Fin y =>
    if Qeq_bool y 0
    then (if Qeq_bool x 0 then NaN else Inf (is_negative a))
    else binary64 (x / y)
  end.

(** [a < b] and [a > b]; every comparison with [NaN] is false. *)
Definition num_lt (a b : number) : bool :=
  match a, b with
  | Fin x, Fin y => negb (Qle_bool y x)
  | Fin _, Inf t => negb t
  | Inf s, Fin _ => s
  | Inf s, Inf t => s && negb t
  | _, _ => false
  end.

Definition num_gt (a b : number) : bool := num_lt b a.

(** Truthiness of a number: [0] and [NaN] are falsy. *)
Definition num_truthy (a : number) : bool :=
  match a with
  | Fin x => negb (Qeq_bool x 0)
  | NaN => false
  | Inf _ => true
  end.

(** Truthiness of a string: only the empty string is falsy. *)
Definition str_truthy (s : string) : bool :=
  negb (String.eqb s "").

(** [Math.round]: the nearest integer, ties towards plus infinity; the
    result is exact. *)
Definition Math_round (a : number) : number :=
  match a with
  | Fin x => Fin (inject_Z (Qfloor (x + (1 # 2))%Q))
  | other => other
  end.

(** [arr.includes(s)] on an array of string literals. *)
Definition includes (arr : list string) (s : string) : bool :=
  existsb (String.eqb s) arr.

(** ** Property reads on the static tables *)

(** The tables are object literals: a read [TABLE[key]] finds the own
    properties and, behind them, the members of [Object.prototype]
    (ECMA-262, 20.1.3 and B.2.2). *)
Definition Object_prototype_names : list string :=
  [ "constructor"; "__defineGetter__"; "__defineSetter__"; "hasOwnProperty";
    "__lookupGetter__"; "__lookupSetter__"; "isPrototypeOf";
    "propertyIsEnumerable"; "toString"; "valueOf"; "__proto__";
    "toLocaleString" ].

Inductive property (A : Type) : Type :=
  | Own (a : A)
  | Inherited
  | Missing.
Arguments Own {A} a.
Arguments Inherited {A}.
Arguments Missing {A}.

(** [tbl[key]] *)
Definition get {A : Type} (tbl : gmap string A) (key : string)
    : property A :=
  match tbl !! key with
  | Some a => Own a
  | None =>
    if includes Object_prototype_names key then Inherited else Missing
  end.

(** The values that the numeric reads of the calculator produce:
    [undefined], a number, or a member of [Object.prototype] (a built-in
    function, or the prototype object itself for ["__proto__"]). *)
Inductive value : Type :=
  | undefined
  | Num (n : number)
  | Builtin.

(** The value of a read on a table of decimal literals. *)
Definition value_of (p : property Q) : value :=
  match p with
  | Own q => Num (literal q)
  | Inherited => Builtin
  | Missing => undefined
  end.

(** [ToNumber]: [undefined] gives [NaN], and so does a built-in, whose
    primitive value is a string that is no numeral. *)
Definition to_number (v : value) : number :=
  match v with
  | Num n => n
  | undefined | Builtin => NaN
  end.

Definition truthy (v : value) : bool :=
  match v with
  | undefined => false
  | Num n => num_truthy n
  | Builtin => true
  end.

(** ** types/microdose.ts *)

Inductive DoseUnit : Type := mg | ug.

(** The tables hold the decimal literals as the source writes them. *)
Record SubstanceData : Type := {
  sd_baseDose : Q;
  sd_unit : DoseUnit;
  sd_description : string
}.

Record MicrodoseCalculationParams : Type := {
  gender : string;
  weight : number;
  substance : string;
  intakeForm : string;
  sensitivity : number;
  goal : string;
  experience : option string;
  currentMedication : option string
}.

(** A piece of the [explanation] text: literal text, a value put into the
    template as it is, or a number formatted by [toFixed].  The decimal
    digits of the numbers are not modelled. *)
Inductive piece : Type :=
  | Text (s : string)
  | Shown (v : value)
  | Fixed (n : number) (digits : nat).

(** The result object.  [doseUnit] is [None] and [baseDose] is
    [undefined] when the substance read gave a member of
    [Object.prototype]. *)
Record MicrodoseCalculationResult : Type := {
  calculatedDose : number;
  doseUnit : option DoseUnit;
  baseDose : value;
  weightFactor : number;
  sensitivityFactor : number;
  goalFactor : value;
  intakeFormFactor : value;
  explanation : list piece;
  recommendations : list string
}.

Definition SUBSTANCE_BASE_DOSES : gmap string SubstanceData :=
  <["psilocybin" := {| sd_baseDose := 200; sd_unit := mg;
                       sd_description := "Dried Psilocybin mushrooms" |}]>
  (<["lsd" := {| sd_baseDose := 10; sd_unit := ug;
                 sd_description := "LSD" |}]>
  (<["amanita" := {| sd_baseDose := 100; sd_unit := mg;
                     sd_description := "Dried Amanita muscaria" |}]>
  (<["ketamine" := {| sd_baseDose := 10; sd_unit := mg;
                      sd_description := "Ketamine" |}]> ∅))).

Definition GOAL_FACTORS : gmap string Q :=
  <["sub_perceptual" := (1 # 2)%Q]>
  (<["standard" := 1%Q]>
  (<["upper_microdose" := 2%Q]> ∅)).

Definition INTAKE_FORM_FACTORS : gmap string Q :=
  <["dried_mushrooms" := 1%Q]>
  (<["fresh_mushrooms" := 10%Q]>
  (<["truffles" := 2%Q]>
  (<["pure_extract" := (1 # 100)%Q]>
  (<["blotter" := 1%Q]>
  (<["liquid" := 1%Q]>
  (<["capsules" := 1%Q]>
  (<["liquid_ketamine" := 1%Q]> ∅))))))).

(** ** services/microdoseCalculator.ts *)

(** The calculator raises nothing but TypeErrors: reading [.baseDose] of
    [undefined], and calling [.toFixed] on what is not a number. *)
Inductive completion (A : Type) : Type :=
  | Normal (a : A)
  | TypeError.
Arguments Normal {A} a.
Arguments TypeError {A}.

Definition bind {A B : Type} (c : completion A) (k : A -> completion B)
    : completion B :=
  match c with
  | Normal a => k a
  | TypeError => TypeError
  end.

Notation "'try' x <- c 'in' k" := (bind c (fun x => k))
  (at level 10, x name, c at level 100, k at level 200).

(** [INTAKE_FORM_FACTORS[intakeForm] || 1.0] *)
Definition intake_form_factor_of (form : string) : value :=
  let v := value_of (get INTAKE_FORM_FACTORS form) in
  if truthy v then v else Num (literal 1).

(** [v.toFixed(digits)]: only a number has the method. *)
Definition toFixed (v : value) (digits : nat) : completion piece :=
  match v with
  | Num n => Normal (Fixed n digits)
  | undefined | Builtin => TypeError
  end.

Definition generateExplanation (substance : string) (baseDose : value)
    (weightFactor sensitivityFactor : number)
    (goalFactor intakeFormFactor : value) (finalDose : number)
    : completion (list piece) :=
  let unit := if String.eqb substance "lsd" then "µg" else "mg" in
  try kg <- toFixed (Num (num_mul weightFactor (literal 70))) 1 in
  try wf <- toFixed (Num weightFactor) 2 in
  try sf <- toFixed (Num sensitivityFactor) 1 in
  try gf <- toFixed goalFactor 1 in
  try ff <- toFixed intakeFormFactor 1 in
  Normal
    [ Text "Berechnung für "; Text substance;
      Text "• Basis-Dosis (70kg, Standard): "; Shown baseDose; Text unit;
      Text "• Gewichtsfaktor ("; kg; Text "kg): "; wf; Text "x";
      Text "• Empfindlichkeitsfaktor: "; sf; Text "x";
      Text "• Ziel-Faktor: "; gf; Text "x";
      Text "• Einnahmeform-Faktor: "; ff; Text "x";
      Text "Ergebnis: "; Shown (Num finalDose); Text unit ].

Definition generateRecommendations
    (params : MicrodoseCalculationParams) (dose : number) : list string :=
  let r0 :=
    [ "Beginnen Sie mit der Hälfte der berechneten Dosis für den ersten Test";
      "Warten Sie mindestens 3-4 Stunden zwischen Einnahmen";
      "Führen Sie ein Tagebuch über Ihre Erfahrungen" ] in
  let r1 :=
    r0 ++
    (if String.eqb (substance params) "psilocybin" then
       [ "Nehmen Sie Psilocybin auf nüchternen Magen ein";
         "Vermeiden Sie Alkohol und andere Substanzen" ]
     else if String.eqb (substance params) "lsd" then
       [ "LSD ist sehr potent - verwenden Sie präzise Messgeräte";
         "Bewahren Sie LSD kühl und dunkel auf" ]
     else if String.eqb (substance params) "amanita" then
       [ "Amanita muscaria hat andere Wirkmechanismen als Psilocybin";
         "Seien Sie besonders vorsichtig bei der ersten Einnahme" ]
     else if String.eqb (substance params) "ketamine" then
       [ "Ketamin-Mikrodosierung sollte nur unter ärztlicher Aufsicht erfolgen";
         "Achten Sie auf mögliche Blasenprobleme bei regelmäßiger Einnahme" ]
     else []) in
  let r2 :=
    r1 ++
    (match experience params with
     | Some e => if String.eqb e "beginner" then
         [ "Als Anfänger sollten Sie besonders konservativ dosieren";
           "Informieren Sie sich gründlich über die Substanz" ]
       else []
     | None => []
     end) in
  r2 ++
  (match currentMedication params with
   | Some m => if str_truthy m then
       [ "Besprechen Sie die Einnahme mit Ihrem Arzt";
         "SSRIs können die Wirkung von Psychedelika beeinflussen" ]
     else []
   | None => []
   end).

(** Line 28: the product of the five factors, from left to right. *)
Definition dose_product (baseDose : value) (weightFactor : number)
    (sensitivityFactor : number) (goalFactor intakeFormFactor : value)
    : number :=
  num_mul (num_mul (num_mul (num_mul (to_number baseDose) weightFactor)
                            sensitivityFactor)
                   (to_number goalFactor))
          (to_number intakeFormFactor).

(** Lines 31-33: one decimal for [lsd], whole numbers otherwise. *)
Definition round_dose (substance : string) (calculatedDose : number)
    : number :=
  if String.eqb substance "lsd"
  then num_div (Math_round (num_mul calculatedDose (literal 10))) (literal 10)
  else Math_round calculatedDose.

Definition calculate (params : MicrodoseCalculationParams)
    : completion MicrodoseCalculationResult :=
  match get SUBSTANCE_BASE_DOSES (substance params) with
  | Missing => TypeError
  | substanceData =>
    let baseDose :=
      match substanceData with
      | Own sd => Num (literal (sd_baseDose sd))
      | _ => undefined
      end in
    let weightFactor := num_div (weight params) (literal 70) in
    let sensitivityFactor := sensitivity params in
    let goalFactor := value_of (get GOAL_FACTORS (goal params)) in
    let intakeFormFactor := intake_form_factor_of (intakeForm params) in
    let calculatedDose :=
      dose_product baseDose weightFactor sensitivityFactor goalFactor
        intakeFormFactor in
    let roundedDose := round_dose (substance params) calculatedDose in
    try explanation <-
      generateExplanation (substance params) baseDose weightFactor
        sensitivityFactor goalFactor intakeFormFactor roundedDose in
    Normal {| calculatedDose := roundedDose;
              doseUnit :=
                match substanceData with
                | Own sd => Some (sd_unit sd)
                | _ => None
                end;
              baseDose := baseDose;
              weightFactor := weightFactor;
              sensitivityFactor := sensitivityFactor;
              goalFactor := goalFactor;
              intakeFormFactor := intakeFormFactor;
              explanation := explanation;
              recommendations := generateRecommendations params roundedDose |}
  end.

Record ValidationResult : Type := {
  isValid : bool;
  errors : list string
}.

Definition msg_gender : string := "Geschlecht ist erforderlich".
Definition msg_weight : string := "Gewicht muss zwischen 30 und 200 kg liegen".
Definition msg_substance : string := "Substanz ist erforderlich".
Definition msg_intakeForm : string := "Einnahmeform ist erforderlich".
Definition msg_sensitivity : string :=
  "Empfindlichkeit muss zwischen 0.3 und 2.0 liegen".
Definition msg_goal : string := "Ziel ist erforderlich".

(** [if (c) errors.push(msg)] *)
Definition push_if (c : bool) (msg : string) (errors : list string)
    : list string :=
  if c then errors ++ [msg] else errors.

Definition validateParams (params : MicrodoseCalculationParams)
    : ValidationResult :=
  let errors := [] in
  let errors :=
    push_if (negb (str_truthy (gender params))
             || negb (includes ["male"; "female"; "other"] (gender params)))
            msg_gender errors in
  let errors :=
    push_if (negb (num_truthy (weight params))
             || num_lt (weight params) (Fin 30)
             || num_gt (weight params) (Fin 200))
            msg_weight errors in
  let errors :=
    push_if (negb (str_truthy (substance params))
             || negb (includes ["psilocybin"; "lsd"; "amanita"; "ketamine"]
                               (substance params)))
            msg_substance errors in
  let errors :=
    push_if (negb (str_truthy (intakeForm params)))
            msg_intakeForm errors in
  let errors :=
    push_if (negb (num_truthy (sensitivity params))
             || num_lt (sensitivity params) (literal (3 # 10))
             || num_gt (sensitivity params) (Fin 2))
            msg_sensitivity errors in
  let errors :=
    push_if (negb (str_truthy (goal params))
             || negb (includes ["sub_perceptual"; "standard"; "upper_microdose"]
                               (goal params)))
            msg_goal errors in
  {| isValid := (length errors =? 0)%nat; errors := errors |}.

(** ** Dates: ECMA-262 time values *)

Definition msPerDay : Z := 1000 * 60 * 60 * 24.

Definition Day (t : Z) : Z := t / msPerDay.
Definition TimeWithinDay (t : Z) : Z := t mod msPerDay.
Definition WeekDay (t : Z) : Z := (Day t + 4) mod 7.
Definition MakeTime (h m s ms : Z) : Z :=
  h * 3600000 + m * 60000 + s * 1000 + ms.
Definition MakeDate (day time : Z) : Z := day * msPerDay + time.

(** The time zone of the process: [LocalTZA(t, true)] is the offset in
    force at the UTC instant [t], [LocalTZA(t, false)] the offset taken for
    the local time value [t]. *)
Record TimeZone : Type := {
  LocalTZA_utc : Z -> Z;
  LocalTZA_local : Z -> Z
}.

Definition LocalTime (tz : TimeZone) (t : Z) : Z := t + LocalTZA_utc tz t.
Definition UTC (tz : TimeZone) (t : Z) : Z := t - LocalTZA_local tz t.

(** [d.getDay()], 0 = Sunday. *)
Definition getDay (tz : TimeZone) (t : Z) : Z := WeekDay (LocalTime tz t).

(** [d.setDate(d.getDate() + 1)]: the next day of the local calendar at the
    same local time of day ([MakeDay] of the local year and month with the
    local day of the month plus one is the day after [Day] of the local
    time), converted back to UTC. *)
Definition setDate_next (tz : TimeZone) (t : Z) : Z :=
  let lt := LocalTime tz t in
  UTC tz (MakeDate (Day lt + 1) (TimeWithinDay lt)).

(** [d.setUTCDate(d.getUTCDate() + n)] *)
Definition setUTCDate_add (t n : Z) : Z :=
  MakeDate (Day t + n) (TimeWithinDay t).

(** [d.setUTCHours(h, m, s, ms)] *)
Definition setUTCHours (t h m s ms : Z) : Z :=
  MakeDate (Day t) (MakeTime h m s ms).

(** [Math.floor((a - b) / (1000 * 60 * 60 * 24))] on time values. *)
Definition days_between (a b : Z) : Z := (a - b) / msPerDay.

(** The zone of a process whose offset from UTC never changes. *)
Definition fixed_zone (offset : Z) : TimeZone :=
  {| LocalTZA_utc := fun _ => offset; LocalTZA_local := fun _ => offset |}.

Definition utc_zone : TimeZone := fixed_zone 0.

(** Central European time around the change of 31 March 2024: one hour
    ahead of UTC until 01:00 UTC of that day (02:00 local), two hours
    afterwards.  A local time of the skipped hour, 02:00 to 03:00, is read
    with the offset before the change. *)
Definition cet_switch_2024 : Z := 1711846800000.

Definition europe_berlin_2024 : TimeZone :=
  {| LocalTZA_utc := fun t =>
       if t <? cet_switch_2024 then 3600000 else 7200000;
     LocalTZA_local := fun t =>
       if t <? cet_switch_2024 + 7200000 then 3600000 else 7200000 |}.

(** ** modules/protocol/routes.ts *)

Record CustomSettings : Type := {
  doseDays : option (list Z);
  customName : option string
}.

Record ProtocolSettings : Type := {
  custom : option CustomSettings
}.

Record Protocol : Type := {
  p_id : string;
  p_type : string;
  p_startDate : Z;
  p_endDate : Z;
  p_cycleLength : Z;
  p_settings : ProtocolSettings
}.

(** The fields of the stored microdose profile that the generator reads. *)
Record MicrodoseProfile : Type := {
  mp_substance : string;
  mp_calculatedDose : number;
  mp_doseUnit : string
}.

Record EventMetadata : Type := {
  dayOfWeek : Z;
  isDoseDay : bool;
  protocolType : string;
  daysSinceStart : Z
}.

Record ProtocolEvent : Type := {
  e_protocolId : string;
  e_date : Z;
  e_type : string;
  e_status : string;
  e_substance : option string;
  e_dose : option number;
  e_doseUnit : option string;
  e_metadata : EventMetadata
}.

(** The [protocolEvent] table. *)
Definition Store : Type := list ProtocolEvent.

(** [prisma.protocolEvent.create({ data })] *)
Definition prisma_create (data : ProtocolEvent) (st : Store)
    : ProtocolEvent * Store :=
  (data, st ++ [data]).

(** The part of the [/create] handler that fixes the dates of the stored
    protocol: the start at midnight UTC, the end at the last millisecond of
    the day [cycleLength * 7] days later. *)
Definition make_protocol (id type : string) (startInput cycleLength : Z)
    (settings : ProtocolSettings) : Protocol :=
  let startDate := setUTCHours startInput 0 0 0 0 in
  let endDate := startDate in
  let endDate := setUTCDate_add endDate (cycleLength * 7) in
  let endDate := setUTCHours endDate 23 59 59 999 in
  {| p_id := id; p_type := type; p_startDate := startDate;
     p_endDate := endDate; p_cycleLength := cycleLength;
     p_settings := settings |}.

Section Generator.

Variable tz : TimeZone.

(** The classification of one day, lines 344-364. *)
Definition is_dose_day (protocol : Protocol) (startDate currentDate : Z)
    : bool :=
  let dayOfWeek := getDay tz currentDate in
  if String.eqb (p_type protocol) "fadiman" then
    let daysSinceStart := days_between currentDate startDate in
    Z.rem daysSinceStart 3 =? 0
  else if String.eqb (p_type protocol) "stamets" then
    let daysSinceStart := days_between currentDate startDate in
    let dayInCycle := Z.rem daysSinceStart 7 in
    dayInCycle <? 4
  else if String.eqb (p_type protocol) "custom" then
    match custom (p_settings protocol) with
    | Some customSettings =>
      match doseDays customSettings with
      | Some days => existsb (Z.eqb dayOfWeek) days
      | None => false
      end
    | None => false
    end
  else false.

(** The row built for one day, lines 369-387. *)
Definition event_data (protocol : Protocol) (profile : MicrodoseProfile)
    (startDate currentDate : Z) : ProtocolEvent :=
  let dayOfWeek := getDay tz currentDate in
  let isDoseDay := is_dose_day protocol startDate currentDate in
  let eventDate := setUTCHours currentDate 0 0 0 0 in
  {| e_protocolId := p_id protocol;
     e_date := eventDate;
     e_type := if isDoseDay then "dose" else "pause";
     e_status := "scheduled";
     e_substance := if isDoseDay then Some (mp_substance profile) else None;
     e_dose := if isDoseDay then Some (mp_calculatedDose profile) else None;
     e_doseUnit := if isDoseDay then Some (mp_doseUnit profile) else None;
     e_metadata :=
       {| dayOfWeek := dayOfWeek;
          isDoseDay := isDoseDay;
          protocolType := p_type protocol;
          daysSinceStart := days_between currentDate startDate |} |}.

(** The [while (currentDate <= endDate)] loop; [fuel] bounds the number
    of times the condition is evaluated. *)
Fixpoint generate_loop (fuel : nat) (protocol : Protocol)
    (profile : MicrodoseProfile) (startDate endDate currentDate : Z)
    (dayCount : Z) (events : list ProtocolEvent) (st : Store)
    : option (list ProtocolEvent * Store) :=
  match fuel with
  | O => None
  | S fuel' =>
    if currentDate <=? endDate then
      let '(event, st') :=
        prisma_create (event_data protocol profile startDate currentDate)
                      st in
      generate_loop fuel' protocol profile startDate endDate
        (setDate_next tz currentDate) (dayCount + 1)
        (events ++ [event]) st'
    else Some (events, st)
  end.

Definition generateProtocolEvents (fuel : nat) (protocol : Protocol)
    (profile : MicrodoseProfile) (st : Store)
    : option (list ProtocolEvent * Store) :=
  let events := [] in
  let startDate := p_startDate protocol in
  let endDate := p_endDate protocol in
  let currentDate := startDate in
  let dayCount := 0 in
  generate_loop fuel protocol profile startDate endDate currentDate
    dayCount events st.

End Generator.

(** ** Vocabulary of the statements *)

(** Equality of JavaScript numbers as values: rationals up to [Qeq]. *)
Definition num_eq (a b : number) : Prop :=
  match a, b with
  | Fin x, Fin y => (x == y)%Q
  | NaN, NaN => True
  | Inf s, Inf t => s = t
  | _, _ => False
  end.

(** The precision of a dose unit: tenths for micrograms, units for
    milligrams. *)
Definition unit_step (u : DoseUnit) : Q :=
  match u with
  | ug => (1 # 10)%Q
  | mg => 1%Q
  end.

(** The product of the five factors in exact arithmetic, before
    rounding. *)
Definition raw_dose (base w s g f : Q) : Q :=
  (base * (w / 70) * s * g * f)%Q.

(** The dose that exact arithmetic would give: the real product rounded
    half-up to the precision of the substance. *)
Definition rounded (s : string) (x : Q) : Q :=
  if String.eqb s "lsd"
  then (inject_Z (Qfloor (x * 10 + (1 # 2))) / 10)%Q
  else inject_Z (Qfloor (x + (1 # 2))).

(** The factor of an intake form that is no member of
    [Object.prototype]: its table entry, or 1. *)
Definition table_factor (form : string) : Q :=
  match INTAKE_FORM_FACTORS !! form with
  | Some f => f
  | None => 1%Q
  end.

(** The dose of [n] rounding steps: [n] whole milligrams, or [n] tenths of
    a microgram. *)
Definition dose_of_steps (substance : string) (n : Z) : number :=
  if String.eqb substance "lsd"
  then num_div (Fin (inject_Z n)) (literal 10)
  else Fin (inject_Z n).

(** The number of rounding steps that [round_dose] finds in a finite
    product [p]: [Math.round] of [p], or of [p * 10] for [lsd]. *)
Definition steps (substance : string) (p : Q) : Z :=
  if String.eqb substance "lsd"
  then Qfloor (nearest (p * 10) + (1 # 2))
  else Qfloor (p + (1 # 2)).

(** The Number value of the literal [0.3], the lower bound of the
    sensitivity. *)
Definition sensitivity_floor : Q :=
  Eval vm_compute in Qred (nearest (3 # 10)).

(** The intake forms offered for each substance by [GET /substances]
    (modules/microdose/routes.ts). *)
Definition substance_intake_forms (s : string) : list string :=
  if String.eqb s "psilocybin" then
    ["dried_mushrooms"; "fresh_mushrooms"; "truffles"; "pure_extract"]
  else if String.eqb s "lsd" then ["blotter"; "liquid"]
  else if String.eqb s "amanita" then ["capsules"]
  else if String.eqb s "ketamine" then ["liquid"]
  else [].

Definition with_goal (g : string) (p : MicrodoseCalculationParams)
    : MicrodoseCalculationParams :=
  {| gender := gender p; weight := weight p; substance := substance p;
     intakeForm := intakeForm p; sensitivity := sensitivity p; goal := g;
     experience := experience p; currentMedication := currentMedication p |}.

Definition with_weight (w : number) (p : MicrodoseCalculationParams)
    : MicrodoseCalculationParams :=
  {| gender := gender p; weight := w; substance := substance p;
     intakeForm := intakeForm p; sensitivity := sensitivity p; goal := goal p;
     experience := experience p; currentMedication := currentMedication p |}.

(** The declared domains of the fields of the parameters. *)
Definition gender_in_domain (p : MicrodoseCalculationParams) : Prop :=
  In (gender p) ["male"; "female"; "other"].

Definition weight_in_domain (p : MicrodoseCalculationParams) : Prop :=
  exists q, weight p = Fin q /\ (30 <= q)%Q /\ (q <= 200)%Q.

Definition substance_in_domain (p : MicrodoseCalculationParams) : Prop :=
  In (substance p) ["psilocybin"; "lsd"; "amanita"; "ketamine"].

Definition intakeForm_in_domain (p : MicrodoseCalculationParams) : Prop :=
  In (intakeForm p) (substance_intake_forms (substance p)).

Definition intakeForm_present (p : MicrodoseCalculationParams) : Prop :=
  intakeForm p <> "".

Definition sensitivity_in_domain (p : MicrodoseCalculationParams) : Prop :=
  exists q, sensitivity p = Fin q /\ (sensitivity_floor <= q)%Q /\ (q <= 2)%Q.

Definition goal_in_domain (p : MicrodoseCalculationParams) : Prop :=
  In (goal p) ["sub_perceptual"; "standard"; "upper_microdose"].

Definition all_messages : list string :=
  [msg_gender; msg_weight; msg_substance; msg_intakeForm; msg_sensitivity;
   msg_goal].

(** A zone whose offsets stay within a window narrower than a day, as the
    offsets of every civil time zone do. *)
Definition zone_bounded (tz : TimeZone) : Prop :=
  exists lo hi : Z, hi - lo < msPerDay /\
    forall t, (lo <= LocalTZA_utc tz t <= hi) /\
              (lo <= LocalTZA_local tz t <= hi).

(** What the generator stamps on an event of each type: a dose event
    carries the triple of the profile, a pause event carries nothing. *)
Definition dose_fields_ok (profile : MicrodoseProfile) (e : ProtocolEvent)
    : Prop :=
  (e_type e = "dose" \/ e_type e = "pause") /\
  (e_type e = "dose" ->
   e_substance e = Some (mp_substance profile) /\
   e_dose e = Some (mp_calculatedDose profile) /\
   e_doseUnit e = Some (mp_doseUnit profile)) /\
  (e_type e = "pause" ->
   e_substance e = None /\ e_dose e = None /\ e_doseUnit e = None).

(** The classification rule of a protocol type, read off an event: [d] is
    the number of whole days from the start of the protocol to the date of
    the event, and the weekday is the calendar weekday of that date (the
    dates of the events are midnights UTC). *)
Definition rule_holds (type : string) (settings : ProtocolSettings)
    (startDate : Z) (e : ProtocolEvent) : Prop :=
  let d := days_between (e_date e) startDate in
  (e_type e = "dose" \/ e_type e = "pause") /\
  0 <= d /\
  daysSinceStart (e_metadata e) = d /\
  (type = "fadiman" -> (e_type e = "dose" <-> d mod 3 = 0)) /\
  (type = "stamets" -> (e_type e = "dose" <-> d mod 7 < 4)) /\
  (type = "custom" ->
     (e_type e = "dose" <->
      exists cs days,
        custom settings = Some cs /\ doseDays cs = Some days /\
        In (WeekDay (e_date e)) days)).

(** The custom settings carry no dose day: they are missing, or their
    dose days are missing or empty. *)
Definition no_dose_days (settings : ProtocolSettings) : Prop :=
  custom settings = None \/
  exists cs, custom settings = Some cs /\
             (doseDays cs = None \/ doseDays cs = Some []).

(** The days of a fixed-offset run: one row per day from the start. *)
Definition day_rows (tz : TimeZone) (protocol : Protocol)
    (profile : MicrodoseProfile) (startDate first : Z) (n : nat)
    : list ProtocolEvent :=
  map (fun k : nat => event_data tz protocol profile startDate
                        (first + Z.of_nat k * msPerDay))
      (seq 0 n).

(** ** Vocabulary of the further properties *)

(** The number of dose events of a list of events. *)
Definition dose_count (evs : list ProtocolEvent) : nat :=
  length (List.filter (fun e => String.eqb (e_type e) "dose") evs).

(** The [n] events that start at position [i]. *)
Definition window (i n : nat) (evs : list ProtocolEvent)
    : list ProtocolEvent :=
  firstn n (skipn i evs).




(** The dates of a list of events never go backwards. *)
Definition dates_sorted (evs : list ProtocolEvent) : Prop :=
  forall (i j : nat) e1 e2,
    (i <= j)%nat -> evs !! i = Some e1 -> evs !! j = Some e2 ->
    e_date e1 <= e_date e2.

(** What every generated row has, whatever the day. *)
Definition row_well_formed (protocol : Protocol) (e : ProtocolEvent)
    : Prop :=
  e_protocolId e = p_id protocol /\
  e_status e = "scheduled" /\
  protocolType (e_metadata e) = p_type protocol /\
  (isDoseDay (e_metadata e) = true <-> e_type e = "dose") /\
  0 <= dayOfWeek (e_metadata e) <= 6.

(** The check of the protocol settings in the [/create] handler, lines
    81-101: the [error] of the 400 response, if there is one. *)
Definition check_protocol_settings (type : string)
    (settings : ProtocolSettings) : option string :=
  if String.eqb type "fadiman" then None
  else if String.eqb type "stamets" then None
  else if String.eqb type "custom" then
    match custom settings with
    | None => Some "Custom protocol requires dose days"
    | Some customSettings =>
      match doseDays customSettings with
      | None => Some "Custom protocol requires dose days"
      | Some days =>
        if (length days =? 0)%nat
        then Some "Custom protocol requires dose days"
        else if (4 <? length days)%nat
        then Some "Too many dose days"
        else None
      end
    end
  else None.

(** ** services/notificationService.ts *)

(** [s.split(':')] *)
Fixpoint split_colon (s : string) : list string :=
  match s with
  | EmptyString => [""]
  | String c rest =>
    if Ascii.eqb c ":"%char then "" :: split_colon rest
    else match split_colon rest with
         | piece :: pieces => String c piece :: pieces
         | [] => [String c ""]
         end
  end.

(** The white space and line terminators that [parseInt] skips, strings
    being sequences of UTF-8 bytes: TAB, LF, VT, FF, CR, SP, and the
    encodings of U+00A0, U+1680, U+2000 to U+200A, U+2028, U+2029, U+202F,
    U+205F, U+3000 and U+FEFF. *)
Fixpoint trim_start (s : string) : string :=
  match s with
  | String c rest =>
    let n := nat_of_ascii c in
    if ((9 <=? n) && (n <=? 13) || (n =? 32))%nat then trim_start rest
    else
      match n, rest with
      | 194%nat, String c1 rest1 =>
        if (nat_of_ascii c1 =? 160)%nat then trim_start rest1 else s
      | 225%nat, String c1 (String c2 rest2) =>
        if ((nat_of_ascii c1 =? 154) && (nat_of_ascii c2 =? 128))%nat
        then trim_start rest2 else s
      | 226%nat, String c1 (String c2 rest2) =>
        let n1 := nat_of_ascii c1 in
        let n2 := nat_of_ascii c2 in
        if ((n1 =? 128)
            && ((128 <=? n2) && (n2 <=? 138)
                || (n2 =? 168) || (n2 =? 169) || (n2 =? 175))
            || (n1 =? 129) && (n2 =? 159))%nat
        then trim_start rest2 else s
      | 227%nat, String c1 (String c2 rest2) =>
        if ((nat_of_ascii c1 =? 128) && (nat_of_ascii c2 =? 128))%nat
        then trim_start rest2 else s
      | 239%nat, String c1 (String c2 rest2) =>
        if ((nat_of_ascii c1 =? 187) && (nat_of_ascii c2 =? 191))%nat
        then trim_start rest2 else s
      | _, _ => s
      end
  | EmptyString => s
  end.

(** The value of a character as a digit of the radix, if it is one. *)
Definition digit_value (radix : Z) (c : ascii) : option Z :=
  let n := Z.of_nat (nat_of_ascii c) in
  let v :=
    if (48 <=? n) && (n <=? 57) then Some (n - 48)
    else if (97 <=? n) && (n <=? 122) then Some (n - 87)
    else if (65 <=? n) && (n <=? 90) then Some (n - 55)
    else None in
  match v with
  | Some d => if d <? radix then Some d else None
  | None => None
  end.

(** The longest prefix of digits, as a number; [None] when it is empty. *)
Fixpoint parse_digits (radix : Z) (s : string) (acc : option Z) : option Z :=
  match s with
  | EmptyString => acc
  | String c rest =>
    match digit_value radix c with
    | Some d =>
      parse_digits radix rest
        (Some (match acc with Some a => a * radix + d | None => d end))
    | None => acc
    end
  end.

(** [parseInt(s)], no radix given. *)
Definition parseInt (s : string) : number :=
  let s := trim_start s in
  let '(sign, s) :=
    match s with
    | String "-"%char rest => (-1, rest)
    | String "+"%char rest => (1, rest)
    | _ => (1, s)
    end in
  let '(radix, s) :=
    match s with
    | String "0"%char (String "x"%char rest) => (16, rest)
    | String "0"%char (String "X"%char rest) => (16, rest)
    | _ => (10, s)
    end in
  match parse_digits radix s None with
  | Some n => Fin (inject_Z (sign * n))
  | None => NaN
  end.

(** [parseInt(pieces[i])]; a missing piece is [undefined], which is not a
    number. *)
Definition parseInt_piece (pieces : list string) (i : nat) : number :=
  match nth_error pieces i with
  | Some s => parseInt s
  | None => NaN
  end.

(** [ToIntegerOrInfinity] of a finite number: truncation. *)
Definition to_integer (q : Q) : Z := Z.quot (Qnum q) (Z.pos (Qden q)).

(** [TimeClip]: a time value out of the range of [Date] is invalid. *)
Definition TimeClip (t : Z) : option Z :=
  if Z.abs t >? 8640000000000000 then None else Some t.

(** [d.setHours(hour, min, 0, 0)] on a valid date; [None] is the invalid
    date. *)
Definition setHours (tz : TimeZone) (t : Z) (hour min : number) : option Z :=
  match hour, min with
  | Fin h, Fin m =>
    let lt := LocalTime tz t in
    let date := MakeDate (Day lt) (MakeTime (to_integer h) (to_integer m) 0 0) in
    TimeClip (UTC tz date)
  | _, _ => None
  end.

Record ReminderSetting : Type := {
  rs_enabled : bool;
  rs_time : string
}.

Record NotificationSettings : Type := {
  morningReminder : ReminderSetting;
  eveningReflection : ReminderSetting;
  channels : list string
}.

(** A row of the protocol table: the dates and settings that the generator
    reads, and the columns that the notification service and the handlers
    read. *)
Record ProtocolRow : Type := {
  pr_protocol : Protocol;
  pr_userId : string;
  pr_name : string;
  pr_status : string;
  pr_notificationSettings : NotificationSettings
}.

(** A row of the event table as the client returns it: the data with the
    id that the database gave it. *)
Record EventRow : Type := {
  row_id : string;
  row_event : ProtocolEvent
}.

(** The [metadata] of a notification; a reminder also carries the dose
    triple of its event. *)
Record NotificationMetadata : Type := {
  nm_eventId : string;
  nm_protocolId : string;
  nm_eventType : string;
  nm_dose : option (option string * option number * option string)
}.

(** A row of the notification table.  The [message] text is presentation
    only and is not modelled. *)
Record Notification : Type := {
  n_userId : string;
  n_type : string;
  n_title : string;
  n_scheduledFor : Z;
  n_status : string;
  n_metadata : NotificationMetadata
}.

(** A settled promise. *)
Inductive settled (A : Type) : Type :=
  | Fulfilled (a : A)
  | Rejected.
Arguments Fulfilled {A} a.
Arguments Rejected {A}.

(** [NotificationService.createNotification]: the row is appended to the
    notification table and returned; the client cannot store an invalid
    date and rejects. *)
Definition createNotification (userId type title : string)
    (scheduledFor : option Z) (metadata : NotificationMetadata)
    (tbl : list Notification) : settled Notification * list Notification :=
  match scheduledFor with
  | Some t =>
    let row := {| n_userId := userId; n_type := type; n_title := title;
                  n_scheduledFor := t; n_status := "scheduled";
                  n_metadata := metadata |} in
    (Fulfilled row, tbl ++ [row])
  | None => (Rejected, tbl)
  end.

(** The date of a reminder: the date of the event with the hours and
    minutes of the setting, lines 47-49 and 74-76. *)
Definition reminder_date (tz : TimeZone) (eventDate : Z) (time : string)
    : option Z :=
  let reminderTime := split_colon time in
  setHours tz eventDate (parseInt_piece reminderTime 0)
           (parseInt_piece reminderTime 1).

(** The body of the loop of [generateProtocolNotifications] for one event:
    the notifications pushed for it. *)
Definition notify_event (tz : TimeZone) (protocol : ProtocolRow)
    (event : EventRow) (tbl : list Notification)
    : settled (list Notification) * list Notification :=
  let notificationSettings := pr_notificationSettings protocol in
  let e := row_event event in
  let eventDate := e_date e in
  let '(first, tbl) :=
    if String.eqb (e_type e) "dose"
       && rs_enabled (morningReminder notificationSettings)
    then
      match createNotification (pr_userId protocol) "reminder"
              "Mikrodosis Erinnerung"
              (reminder_date tz eventDate
                 (rs_time (morningReminder notificationSettings)))
              {| nm_eventId := row_id event;
                 nm_protocolId := p_id (pr_protocol protocol);
                 nm_eventType := e_type e;
                 nm_dose := Some (e_substance e, e_dose e, e_doseUnit e) |}
              tbl with
      | (Fulfilled n, tbl') => (Fulfilled [n], tbl')
      | (Rejected, tbl') => (Rejected, tbl')
      end
    else (Fulfilled [], tbl) in
  match first with
  | Rejected => (Rejected, tbl)
  | Fulfilled pushed =>
    if String.eqb (e_type e) "dose"
       && rs_enabled (eveningReflection notificationSettings)
    then
      match createNotification (pr_userId protocol) "reflection"
              "Tagesreflexion"
              (reminder_date tz eventDate
                 (rs_time (eveningReflection notificationSettings)))
              {| nm_eventId := row_id event;
                 nm_protocolId := p_id (pr_protocol protocol);
                 nm_eventType := e_type e;
                 nm_dose := None |}
              tbl with
      | (Fulfilled n, tbl') => (Fulfilled (pushed ++ [n]), tbl')
      | (Rejected, tbl') => (Rejected, tbl')
      end
    else (Fulfilled pushed, tbl)
  end.

(** [NotificationService.generateProtocolNotifications]: the loop over the
    events, [notifications] being the rows pushed so far. *)
Fixpoint notify_events (tz : TimeZone) (protocol : ProtocolRow)
    (events : list EventRow) (notifications : list Notification)
    (tbl : list Notification)
    : settled (list Notification) * list Notification :=
  match events with
  | [] => (Fulfilled notifications, tbl)
  | event :: rest =>
    match notify_event tz protocol event tbl with
    | (Fulfilled pushed, tbl') =>
      notify_events tz protocol rest (notifications ++ pushed) tbl'
    | (Rejected, tbl') => (Rejected, tbl')
    end
  end.

Definition generateProtocolNotifications (tz : TimeZone)
    (protocol : ProtocolRow) (events : list EventRow)
    (tbl : list Notification)
    : settled (list Notification) * list Notification :=
  notify_events tz protocol events [] tbl.

(** The notifications that the service pushes for one event when every
    date is valid: a reminder, then a reflection, for a dose event and the
    enabled settings. *)
Definition notifications_of (tz : TimeZone) (protocol : ProtocolRow)
    (event : EventRow) : list (string * option Z) :=
  let s := pr_notificationSettings protocol in
  let e := row_event event in
  (if String.eqb (e_type e) "dose" && rs_enabled (morningReminder s)
   then [("reminder",
          reminder_date tz (e_date e) (rs_time (morningReminder s)))]
   else [])
  ++
  (if String.eqb (e_type e) "dose" && rs_enabled (eveningReflection s)
   then [("reflection",
          reminder_date tz (e_date e) (rs_time (eveningReflection s)))]
   else []).

(** A notification of a protocol that points at one of its dose events. *)
Definition notification_ok (protocol : ProtocolRow) (events : list EventRow)
    (n : Notification) : Prop :=
  n_userId n = pr_userId protocol /\
  n_status n = "scheduled" /\
  nm_protocolId (n_metadata n) = p_id (pr_protocol protocol) /\
  (n_type n = "reminder" \/ n_type n = "reflection") /\
  exists event,
    In event events /\
    e_type (row_event event) = "dose" /\
    nm_eventId (n_metadata n) = row_id event /\
    (n_type n = "reminder" ->
     nm_dose (n_metadata n) =
       Some (e_substance (row_event event), e_dose (row_event event),
             e_doseUnit (row_event event))).

(** The number of enabled settings. *)
Definition enabled_count (s : NotificationSettings) : nat :=
  (if rs_enabled (morningReminder s) then 1 else 0)
  + (if rs_enabled (eveningReflection s) then 1 else 0).

(** A time of day in the HH:MM format of the settings. *)
Definition two_digits (n : nat) : string :=
  String (ascii_of_nat (48 + n / 10)) (String (ascii_of_nat (48 + n mod 10)) "").

Definition hhmm (h m : nat) : string :=
  two_digits h ++ ":" ++ two_digits m.

(** ** The database and the handlers *)

Record JournalEntry : Type := {
  j_id : string;
  j_eventId : string
}.

(** A row of the activity table; the [description] text is presentation
    only and is not modelled. *)
Record Activity : Type := {
  a_userId : string;
  a_type : string;
  a_title : string;
  a_protocolId : string;
  a_protocolType : string
}.

(** The tables that the handlers touch: profiles by user id, protocols by
    id, and the event, journal, notification and activity tables in
    insertion order. *)
Record Database : Type := {
  db_profiles : gmap string MicrodoseProfile;
  db_protocols : gmap string ProtocolRow;
  db_events : list EventRow;
  db_journal : list JournalEntry;
  db_notifications : list Notification;
  db_activities : list Activity
}.

(** The body of [POST /create] after [createProtocolSchema.parse];
    [pd_startDate] is the time value of the date string. *)
Record ProtocolData : Type := {
  pd_type : string;
  pd_name : string;
  pd_startDate : Z;
  pd_cycleLength : Z;
  pd_settings : ProtocolSettings;
  pd_notificationSettings : NotificationSettings
}.

Inductive Response : Type :=
  | Json_error (status : Z) (error : string)
  | Created (protocol : ProtocolRow) (events : list EventRow)
            (notifications : list Notification)
  | Deleted
  | Saved (profile : MicrodoseProfile) (calculation : MicrodoseCalculationResult)
  | Next_error.

(** The rows of the events that the generator created, with the ids that
    the database gave them: the k-th event of the request gets the k-th
    fresh id. *)
Definition event_rows (eventIds : nat -> string) (evs : list ProtocolEvent)
    : list EventRow :=
  imap (fun k e => {| row_id := eventIds k; row_event := e |}) evs.

(** [POST /create], lines 52-158.  [user] is [req.user], [body] the outcome
    of the schema ([None] for a ZodError), [newId] and [eventIds] the ids
    that the database gives to the new rows; the result is [None] when the
    fuel of the generator loop runs out. *)
Definition create_handler (tz : TimeZone) (fuel : nat) (newId : string)
    (eventIds : nat -> string) (user : option string)
    (body : option ProtocolData) (db : Database)
    : option (Response * Database) :=
  match user with
  | None => Some (Json_error 401 "Authentication required", db)
  | Some userId =>
    if negb (str_truthy userId)
    then Some (Json_error 401 "Authentication required", db)
    else
    match db_profiles db !! userId with
    | None => Some (Json_error 400 "Microdose profile required", db)
    | Some profile =>
      match body with
      | None => Some (Json_error 400 "Validation failed", db)
      | Some data =>
        match check_protocol_settings (pd_type data) (pd_settings data) with
        | Some error => Some (Json_error 400 error, db)
        | None =>
          let protocol :=
            {| pr_protocol :=
                 make_protocol newId (pd_type data) (pd_startDate data)
                   (pd_cycleLength data) (pd_settings data);
               pr_userId := userId;
               pr_name := pd_name data;
               pr_status := "active";
               pr_notificationSettings := pd_notificationSettings data |} in
          let protocols := <[newId := protocol]> (db_protocols db) in
          match generateProtocolEvents tz fuel (pr_protocol protocol) profile
                  (map row_event (db_events db)) with
          | None => None
          | Some (evs, _) =>
            let events := event_rows eventIds evs in
            let stored := db_events db ++ events in
            match generateProtocolNotifications tz protocol events
                    (db_notifications db) with
            | (Rejected, tbl) =>
              Some (Next_error,
                    {| db_profiles := db_profiles db;
                       db_protocols := protocols;
                       db_events := stored;
                       db_journal := db_journal db;
                       db_notifications := tbl;
                       db_activities := db_activities db |})
            | (Fulfilled notifications, tbl) =>
              Some (Created protocol events notifications,
                    {| db_profiles := db_profiles db;
                       db_protocols := protocols;
                       db_events := stored;
                       db_journal := db_journal db;
                       db_notifications := tbl;
                       db_activities :=
                         db_activities db ++
                         [{| a_userId := userId;
                             a_type := "protocol_created";
                             a_title := "Protocol created";
                             a_protocolId := newId;
                             a_protocolType := pd_type data |}] |})
            end
          end
        end
      end
    end
  end.

(** [event.status === 'completed' || ... 'missed' || ... 'skipped'] *)
Definition is_started (event : EventRow) : bool :=
  let status := e_status (row_event event) in
  String.eqb status "completed" || String.eqb status "missed"
  || String.eqb status "skipped".

(** [DELETE /:id], lines 231-329. *)
Definition delete_handler (user : option string) (id : string)
    (db : Database) : Response * Database :=
  match user with
  | None => (Json_error 401 "Authentication required", db)
  | Some userId =>
    if negb (str_truthy userId)
    then (Json_error 401 "Authentication required", db)
    else
    match db_protocols db !! id with
    | None => (Json_error 404 "Protocol not found", db)
    | Some protocol =>
      if negb (String.eqb (pr_userId protocol) userId)
      then (Json_error 404 "Protocol not found", db)
      else
        let events :=
          List.filter
            (fun event => String.eqb (e_protocolId (row_event event)) id)
            (db_events db) in
        let startedEvents := List.filter is_started events in
        if (0 <? length startedEvents)%nat
        then (Json_error 400 "Cannot delete started protocol", db)
        else
          let eventIds := map row_id events in
          let journal :=
            if (0 <? length eventIds)%nat
            then List.filter
                   (fun entry => negb (includes eventIds (j_eventId entry)))
                   (db_journal db)
            else db_journal db in
          let remaining :=
            List.filter
              (fun event =>
                 negb (String.eqb (e_protocolId (row_event event)) id))
              (db_events db) in
          let notifications :=
            List.filter
              (fun n =>
                 negb (String.eqb (n_userId n) userId
                       && String.eqb (nm_protocolId (n_metadata n)) id))
              (db_notifications db) in
          (Deleted,
           {| db_profiles := db_profiles db;
              db_protocols := delete id (db_protocols db);
              db_events := remaining;
              db_journal := journal;
              db_notifications := notifications;
              db_activities :=
                db_activities db ++
                [{| a_userId := userId;
                    a_type := "protocol_deleted";
                    a_title := "Protocol deleted";
                    a_protocolId := id;
                    a_protocolType := p_type (pr_protocol protocol) |}] |})
    end
  end.

(** The name of a dose unit, as [SUBSTANCE_BASE_DOSES] spells it. *)
Definition unit_name (u : DoseUnit) : string :=
  match u with
  | mg => "mg"
  | ug => "µg"
  end.

(** [POST /save-profile] of modules/microdose/routes.ts, behind
    [requireAuth]: the authentication, the schema, the validation, the
    calculation and the upsert of the profile of the user.  [user] is
    [req.user], [None] for a request that is not authenticated, which
    [requireAuth] answers before the handler runs; [body] is the outcome
    of the schema.  The profile columns are required ones: the client
    refuses a unit that is [undefined]. *)
Definition save_profile_handler (user : option string)
    (body : option MicrodoseCalculationParams) (db : Database)
    : Response * Database :=
  match user with
  | None => (Json_error 401 "Authentication required", db)
  | Some userId =>
    match body with
    | None => (Json_error 400 "Validation failed", db)
    | Some params =>
      if negb (str_truthy userId)
      then (Json_error 401 "Authentication required", db)
      else if negb (isValid (validateParams params))
      then (Json_error 400 "Validation failed", db)
      else
        match calculate params with
        | TypeError => (Next_error, db)
        | Normal result =>
          match doseUnit result with
          | None => (Next_error, db)
          | Some unit =>
            let profile :=
              {| mp_substance := substance params;
                 mp_calculatedDose := calculatedDose result;
                 mp_doseUnit := unit_name unit |} in
            (Saved profile result,
             {| db_profiles := <[userId := profile]> (db_profiles db);
                db_protocols := db_protocols db;
                db_events := db_events db;
                db_journal := db_journal db;
                db_notifications := db_notifications db;
                db_activities := db_activities db |})
          end
        end
    end
  end.

(** No row of the database refers to the protocol id or to the event ids
    that a request is about to be given. *)
Definition ids_fresh (newId : string) (eventIds : nat -> string)
    (userId : string) (db : Database) : Prop :=
  db_protocols db !! newId = None /\
  Forall (fun event => e_protocolId (row_event event) <> newId)
         (db_events db) /\
  Forall (fun n => nm_protocolId (n_metadata n) <> newId)
         (db_notifications db) /\
  Forall (fun entry => forall k, j_eventId entry <> eventIds k)
         (db_journal db).

(** ** Example data *)

Definition example_settings : NotificationSettings :=
  {| morningReminder := {| rs_enabled := true; rs_time := "08:30" |};
     eveningReflection := {| rs_enabled := true; rs_time := "21:00" |};
     channels := ["email"] |}.

Definition example_profile : MicrodoseProfile :=
  {| mp_substance := "psilocybin"; mp_calculatedDose := Fin 200;
     mp_doseUnit := "mg" |}.

Definition example_data : ProtocolData :=
  {| pd_type := "fadiman"; pd_name := "Spring";
     pd_startDate := 1711324800000; pd_cycleLength := 2;
     pd_settings := {| custom := None |};
     pd_notificationSettings := example_settings |}.

Definition example_event_ids (k : nat) : string :=
  String.append "e" (two_digits k).

(** A database with one user, "u1", who has a profile, and a protocol "p0"
    of another user with one completed event, a journal entry and a
    notification. *)
Definition example_db : Database :=
  {| db_profiles := {[ "u1" := example_profile ]};
     db_protocols :=
       {[ "p0" :=
            {| pr_protocol := make_protocol "p0" "stamets" 0 2
                                {| custom := None |};
               pr_userId := "u0"; pr_name := "Old"; pr_status := "active";
               pr_notificationSettings := example_settings |} ]};
     db_events :=
       [ {| row_id := "x1";
            row_event :=
              {| e_protocolId := "p0"; e_date := 0; e_type := "dose";
                 e_status := "completed"; e_substance := Some "lsd";
                 e_dose := Some (Fin 10); e_doseUnit := Some "µg";
                 e_metadata := {| dayOfWeek := 4; isDoseDay := true;
                                  protocolType := "stamets";
                                  daysSinceStart := 0 |} |} |} ];
     db_journal := [ {| j_id := "j1"; j_eventId := "x1" |} ];
     db_notifications :=
       [ {| n_userId := "u0"; n_type := "reminder";
            n_title := "Mikrodosis Erinnerung"; n_scheduledFor := 30600000;
            n_status := "scheduled";
            n_metadata := {| nm_eventId := "x1"; nm_protocolId := "p0";
                             nm_eventType := "dose";
                             nm_dose := Some (Some "lsd", Some (Fin 10),
                                              Some "µg") |} |} ];
     db_activities := [] |}.

(** The database after the user "u1" has created the fadiman protocol "p1"
    of [example_data] in [example_db]. *)
Definition example_created_db : Database :=
  match create_handler utc_zone 100 "p1" example_event_ids (Some "u1")
          (Some example_data) example_db with
  | Some (_, db) => db
  | None => example_db
  end.

(** The request of [example_data] with a morning time that has no colon,
    and the database after "u1" has sent it. *)
Definition example_malformed_data : ProtocolData :=
  {| pd_type := "fadiman"; pd_name := "Spring";
     pd_startDate := 1711324800000; pd_cycleLength := 2;
     pd_settings := {| custom := None |};
     pd_notificationSettings :=
       {| morningReminder := {| rs_enabled := true; rs_time := "0830" |};
          eveningReflection := {| rs_enabled := true; rs_time := "21:00" |};
          channels := ["email"] |} |}.

Definition example_failed_db : Database :=
  match create_handler utc_zone 100 "p1" example_event_ids (Some "u1")
          (Some example_malformed_data) example_db with
  | Some (_, db) => db
  | None => example_db
  end.

(** The parameters of a request to [/save-profile]. *)
Definition example_params : MicrodoseCalculationParams :=
  {| gender := "other"; weight := Fin 62; substance := "amanita";
     intakeForm := "capsules"; sensitivity := Fin (4 # 5);
     goal := "upper_microdose"; experience := None;
     currentMedication := Some "" |}.

(** * The notification table of the service

    The rest of [NotificationService] reads the columns that the database
    fills in: the id of a row, [createdAt] and [sentAt]. *)

Record NotificationRow : Type := {
  nr_id : string;
  nr_createdAt : Z;
  nr_sentAt : option Z;
  nr_notification : Notification
}.

Definition nr_status (r : NotificationRow) : string :=
  n_status (nr_notification r).

Definition nr_scheduledFor (r : NotificationRow) : Z :=
  n_scheduledFor (nr_notification r).

(** [orderBy: { scheduledFor: 'asc' }] *)
Definition scheduled_before (a b : NotificationRow) : Prop :=
  nr_scheduledFor a <= nr_scheduledFor b.

#[global] Instance scheduled_before_dec : RelDecision scheduled_before :=
  fun a b => Z_le_dec (nr_scheduledFor a) (nr_scheduledFor b).

(** The [where] of [getPendingNotifications]; [now] is [new Date()]. *)
Definition is_pending (userId : string) (now : Z) (r : NotificationRow)
    : bool :=
  String.eqb (n_userId (nr_notification r)) userId
  && String.eqb (nr_status r) "scheduled"
  && (nr_scheduledFor r <=? now).

(** [NotificationService.getPendingNotifications], lines 104-117. *)
Definition getPendingNotifications (now : Z) (userId : string)
    (tbl : list NotificationRow) : list NotificationRow :=
  merge_sort scheduled_before (List.filter (is_pending userId now) tbl).

(** The [data] of [markAsSent] written to a row. *)
Definition sent_row (now : Z) (r : NotificationRow) : NotificationRow :=
  {| nr_id := nr_id r;
     nr_createdAt := nr_createdAt r;
     nr_sentAt := Some now;
     nr_notification :=
       {| n_userId := n_userId (nr_notification r);
          n_type := n_type (nr_notification r);
          n_title := n_title (nr_notification r);
          n_scheduledFor := n_scheduledFor (nr_notification r);
          n_status := "sent";
          n_metadata := n_metadata (nr_notification r) |} |}.

(** [NotificationService.markAsSent], lines 122-130: [update] rejects when
    no row has the id, and returns the updated row otherwise. *)
Definition markAsSent (now : Z) (notificationId : string)
    (tbl : list NotificationRow)
    : settled NotificationRow * list NotificationRow :=
  match List.find (fun r => String.eqb (nr_id r) notificationId) tbl with
  | None => (Rejected, tbl)
  | Some r =>
    (Fulfilled (sent_row now r),
     map (fun x => if String.eqb (nr_id x) notificationId
                   then sent_row now x else x) tbl)
  end.

(** [d.setDate(d.getDate() - n)]: [n] days back in the local calendar at
    the same local time of day, converted back to UTC. *)
Definition setDate_back (tz : TimeZone) (t n : Z) : Z :=
  let lt := LocalTime tz t in
  UTC tz (MakeDate (Day lt - n) (TimeWithinDay lt)).

(** The [where] of [cleanupOldNotifications]. *)
Definition is_old (cutoffDate : Z) (r : NotificationRow) : bool :=
  (nr_createdAt r <? cutoffDate)
  && includes ["sent"; "delivered"; "failed"] (nr_status r).

(** [NotificationService.cleanupOldNotifications], lines 146-160: the
    count of the deleted rows and the table that is left. *)
Definition cleanupOldNotifications (tz : TimeZone) (now daysOld : Z)
    (tbl : list NotificationRow) : nat * list NotificationRow :=
  let cutoffDate := setDate_back tz now daysOld in
  (length (List.filter (is_old cutoffDate) tbl),
   List.filter (fun r => negb (is_old cutoffDate r)) tbl).

(** A table of the service: a due reminder, a reminder sent forty days
    before [example_now], and one sent the day before. *)
Definition example_now : Z := 1711929600000.

Definition example_row (id status : string) (createdAt scheduledFor : Z)
    : NotificationRow :=
  {| nr_id := id; nr_createdAt := createdAt; nr_sentAt := None;
     nr_notification :=
       {| n_userId := "u1"; n_type := "reminder";
          n_title := "Mikrodosis Erinnerung";
          n_scheduledFor := scheduledFor; n_status := status;
          n_metadata := {| nm_eventId := "e00"; nm_protocolId := "p1";
                           nm_eventType := "dose"; nm_dose := None |} |} |}.

Definition example_rows : list NotificationRow :=
  [ example_row "n1" "scheduled" (example_now - 50 * msPerDay)
      (example_now - 3600000);
    example_row "n2" "sent" (example_now - 40 * msPerDay)
      (example_now - 39 * msPerDay);
    example_row "n3" "sent" (example_now - msPerDay) (example_now - 1000) ].

(** * Properties *)

(** ** Rounding to binary64 *)

Section Binary64.

Local Open Scope Q_scope.

(** *** Powers of two *)

Lemma pow2_pos (e : Z) : 0 < 2 ^ e.
Proof. apply Qpower_0_lt. reflexivity. Qed.

Lemma pow2_le (a b : Z) : (a <= b)%Z -> 2 ^ a <= 2 ^ b.
Proof. intros H. apply Qpower_le_compat_l; [exact H|discriminate]. Qed.

Lemma pow2_lt (a b : Z) : (a < b)%Z -> 2 ^ a < 2 ^ b.
Proof. intros H. apply Qpower_lt_compat_l; [exact H|reflexivity]. Qed.

Lemma pow2_add (a b : Z) : 2 ^ (a + b) == 2 ^ a * 2 ^ b.
Proof. apply Qpower_plus. discriminate. Qed.

Lemma pow2_succ (e : Z) : 2 ^ (e + 1) == 2 * 2 ^ e.
Proof. rewrite pow2_add. change (2 ^ 1) with 2. ring. Qed.

Lemma pow2_inject (n : Z) : (0 <= n)%Z -> inject_Z (2 ^ n) == 2 ^ n.
Proof. intros H. apply (Zpower_Qpower 2 n H). Qed.

(** *** The binary exponent of a positive rational *)

Lemma ilog2_spec (q : Q) :
  0 < q -> 2 ^ ilog2 q <= q /\ q < 2 ^ (ilog2 q + 1).
Proof.
  intros Hq. destruct q as [n d].
  assert (Hn : (0 < n)%Z).
  { unfold Qlt in Hq. simpl in Hq. lia. }
  unfold ilog2. cbn [Qnum Qden].
  set (a := Z.log2 n). set (b := Z.log2 (Z.pos d)).
  destruct (Z.log2_spec n Hn) as [Ha1 Ha2].
  destruct (Z.log2_spec (Z.pos d) ltac:(lia)) as [Hb1 Hb2].
  fold a in Ha1, Ha2. fold b in Hb1, Hb2.
  assert (Ha0 : (0 <= a)%Z) by apply Z.log2_nonneg.
  assert (Hb0 : (0 <= b)%Z) by apply Z.log2_nonneg.
  (* the four bounds as rationals *)
  assert (Qa1 : 2 ^ a <= inject_Z n).
  { rewrite <- pow2_inject by exact Ha0. rewrite <- Zle_Qle. exact Ha1. }
  assert (Qa2 : inject_Z n < 2 ^ (a + 1)).
  { rewrite <- pow2_inject by lia. rewrite <- Zlt_Qlt.
    rewrite <- Z.add_1_r in Ha2. exact Ha2. }
  assert (Qb1 : 2 ^ b <= inject_Z (Z.pos d)).
  { rewrite <- pow2_inject by exact Hb0. rewrite <- Zle_Qle. exact Hb1. }
  assert (Qb2 : inject_Z (Z.pos d) < 2 ^ (b + 1)).
  { rewrite <- pow2_inject by lia. rewrite <- Zlt_Qlt.
    rewrite <- Z.add_1_r in Hb2. exact Hb2. }
  assert (Hd : 0 < inject_Z (Z.pos d)) by reflexivity.
  assert (Hq' : (n # d) * inject_Z (Z.pos d) == inject_Z n).
  { rewrite (Qmake_Qdiv n d). field. intros H. rewrite H in Hd.
    discriminate Hd. }
  (* q < 2^(a-b+1) and 2^(a-b-1) < q *)
  assert (Hup : (n # d) < 2 ^ (a - b + 1)).
  { apply (Qmult_lt_r _ _ (inject_Z (Z.pos d)) Hd). rewrite Hq'.
    apply (Qlt_le_trans _ _ _ Qa2).
    replace (a + 1)%Z with ((a - b + 1) + b)%Z by ring.
    rewrite (pow2_add (a - b + 1) b).
    apply Qmult_le_l; [apply pow2_pos|exact Qb1]. }
  assert (Hlo : 2 ^ (a - b - 1) < (n # d)).
  { apply (Qmult_lt_r _ _ (inject_Z (Z.pos d)) Hd). rewrite Hq'.
    apply (Qlt_le_trans _ (2 ^ (a - b - 1) * 2 ^ (b + 1))).
    - apply Qmult_lt_l; [apply pow2_pos|exact Qb2].
    - rewrite <- pow2_add. replace (a - b - 1 + (b + 1))%Z with a by ring.
      exact Qa1. }
  destruct (Qle_bool (2 ^ (a - b)) (n # d)) eqn:E.
  - apply Qle_bool_iff in E. split; [exact E|exact Hup].
  - split; [apply Qlt_le_weak; exact Hlo|].
    replace (a - b - 1 + 1)%Z with (a - b)%Z by ring.
    apply Qnot_le_lt. intros H. apply Qle_bool_iff in H. congruence.
Qed.

Lemma ilog2_unique (q : Q) (e : Z) :
  2 ^ e <= q -> q < 2 ^ (e + 1) -> ilog2 q = e.
Proof.
  intros H1 H2.
  assert (Hq : 0 < q) by (eapply Qlt_le_trans; [apply pow2_pos|exact H1]).
  destruct (ilog2_spec q Hq) as [H3 H4].
  destruct (Z.lt_trichotomy (ilog2 q) e) as [Hlt|[Heq|Hgt]]; [|exact Heq|];
    exfalso.
  - assert (H : 2 ^ (ilog2 q + 1) <= 2 ^ e) by (apply pow2_le; lia). lra.
  - assert (H : 2 ^ (e + 1) <= 2 ^ ilog2 q) by (apply pow2_le; lia). lra.
Qed.

Lemma ilog2_comp (x y : Q) : x == y -> 0 < x -> ilog2 x = ilog2 y.
Proof.
  intros H Hx. destruct (ilog2_spec x Hx) as [H1 H2].
  symmetry. apply ilog2_unique; rewrite <- H; assumption.
Qed.

Lemma ilog2_mono (x y : Q) : 0 < x -> x <= y -> (ilog2 x <= ilog2 y)%Z.
Proof.
  intros Hx Hxy.
  destruct (ilog2_spec x Hx) as [H1 H2].
  destruct (ilog2_spec y ltac:(lra)) as [H3 H4].
  destruct (Z_le_gt_dec (ilog2 x) (ilog2 y)) as [H|H]; [exact H|exfalso].
  assert (H' : 2 ^ (ilog2 y + 1) <= 2 ^ ilog2 x) by (apply pow2_le; lia).
  lra.
Qed.

Lemma ilog2_double (q : Q) : 0 < q -> ilog2 (2 * q) = (ilog2 q + 1)%Z.
Proof.
  intros Hq. destruct (ilog2_spec q Hq) as [H1 H2].
  apply ilog2_unique.
  - rewrite pow2_succ. lra.
  - rewrite (pow2_succ (ilog2 q + 1)). lra.
Qed.

(** *** Rounding to the nearest integer, ties to even *)

Lemma round_half_even_comp (x y : Q) :
  x == y -> round_half_even x = round_half_even y.
Proof.
  intros H. unfold round_half_even.
  rewrite (Qfloor_comp x y H).
  assert (Hc : (x - inject_Z (Qfloor y) ?= 1 # 2)
               = (y - inject_Z (Qfloor y) ?= 1 # 2)).
  { apply Qcompare_comp; [rewrite H|]; reflexivity. }
  rewrite Hc. reflexivity.
Qed.

Lemma round_half_even_bounds (x : Q) :
  x - (1 # 2) <= inject_Z (round_half_even x) /\
  inject_Z (round_half_even x) <= x + (1 # 2).
Proof.
  unfold round_half_even.
  pose proof (Qfloor_le x) as H1. pose proof (Qlt_floor x) as H2.
  rewrite inject_Z_plus in H2. change (inject_Z 1) with 1 in H2.
  destruct (x - inject_Z (Qfloor x) ?= 1 # 2) eqn:E.
  - apply Qeq_alt in E.
    destruct (Z.even (Qfloor x)); [|rewrite inject_Z_plus;
                                     change (inject_Z 1) with 1]; lra.
  - apply Qlt_alt in E. lra.
  - apply Qgt_alt in E. rewrite inject_Z_plus. change (inject_Z 1) with 1.
    lra.
Qed.

Lemma round_half_even_Z (n : Z) : round_half_even (inject_Z n) = n.
Proof.
  unfold round_half_even. rewrite Qfloor_Z.
  assert (E : (inject_Z n - inject_Z n ?= 1 # 2) = Lt).
  { apply Qlt_alt. setoid_replace (inject_Z n - inject_Z n) with 0 using relation Qeq by ring.
    reflexivity. }
  rewrite E. reflexivity.
Qed.

Lemma round_half_even_mono (x y : Q) :
  x <= y -> (round_half_even x <= round_half_even y)%Z.
Proof.
  intros Hxy.
  destruct (Z_le_gt_dec (round_half_even x) (round_half_even y)) as [H|H];
    [exact H|exfalso].
  destruct (round_half_even_bounds x) as [_ Hx].
  destruct (round_half_even_bounds y) as [Hy _].
  assert (H1 : inject_Z (round_half_even y) + 1
               <= inject_Z (round_half_even x)).
  { change 1 with (inject_Z 1). rewrite <- inject_Z_plus, <- Zle_Qle. lia. }
  assert (Heq : x == y) by lra.
  rewrite (round_half_even_comp x y Heq) in H. lia.
Qed.

(** *** The nearest binary64 number *)

Lemma nearest_scaled (q : Q) :
  q / 2 ^ grid q * 2 ^ grid q == q.
Proof.
  field. intros H. pose proof (pow2_pos (grid q)) as Hp. rewrite H in Hp.
  discriminate Hp.
Qed.

Lemma nearest_error (q : Q) :
  Qabs (nearest q - q) <= 2 ^ grid q * (1 # 2).
Proof.
  unfold nearest. set (u := 2 ^ grid q).
  assert (Hu : 0 < u) by apply pow2_pos.
  destruct (round_half_even_bounds (q / u)) as [H1 H2].
  set (m := inject_Z (round_half_even (q / u))) in *.
  assert (Hq : q == q / u * u) by (symmetry; apply nearest_scaled).
  apply Qabs_Qle_condition.
  assert (E : m * u - q == (m - q / u) * u).
  { rewrite Hq at 1. ring. }
  rewrite E. split.
  - setoid_replace (- (u * (1 # 2))) with ((- (1 # 2)) * u) using relation Qeq by ring.
    apply Qmult_le_compat_r; lra.
  - setoid_replace (u * (1 # 2)) with ((1 # 2) * u) using relation Qeq by ring.
    apply Qmult_le_compat_r; lra.
Qed.

Lemma grid_normal (q : Q) :
  (-1022 <= ilog2 (Qabs q))%Z -> grid q = (ilog2 (Qabs q) - 52)%Z.
Proof. unfold grid. lia. Qed.

Lemma nearest_rel_error (q : Q) :
  2 ^ (-1022) <= Qabs q ->
  Qabs (nearest q - q) <= Qabs q * 2 ^ (-53).
Proof.
  intros Hn.
  assert (Hq : 0 < Qabs q).
  { eapply Qlt_le_trans; [apply (pow2_pos (-1022))|exact Hn]. }
  destruct (ilog2_spec (Qabs q) Hq) as [H1 H2].
  assert (He : (-1022 <= ilog2 (Qabs q))%Z).
  { apply (ilog2_mono (2 ^ (-1022)) (Qabs q) (pow2_pos _)) in Hn.
    rewrite (ilog2_unique (2 ^ (-1022)) (-1022)) in Hn;
      [exact Hn|apply Qle_refl|apply pow2_lt; lia]. }
  eapply Qle_trans; [apply nearest_error|].
  rewrite (grid_normal q He).
  setoid_replace (2 ^ (ilog2 (Qabs q) - 52) * (1 # 2))
    with (2 ^ ilog2 (Qabs q) * 2 ^ (-53)) using relation Qeq.
  - apply Qmult_le_compat_r; [exact H1|apply Qlt_le_weak, pow2_pos].
  - replace (ilog2 (Qabs q) - 52)%Z with (ilog2 (Qabs q) + (-53) + 1)%Z
      by ring.
    rewrite pow2_succ, pow2_add. ring.
Qed.

Lemma nearest_nonneg (q : Q) : 0 <= q -> 0 <= nearest q.
Proof.
  intros Hq. unfold nearest.
  pose proof (pow2_pos (grid q)) as Hu.
  apply Qmult_le_0_compat; [|apply Qlt_le_weak; exact Hu].
  change 0 with (inject_Z 0). rewrite <- Zle_Qle.
  rewrite <- (round_half_even_Z 0). apply round_half_even_mono.
  change (inject_Z 0) with 0. apply Qle_shift_div_l; [exact Hu|lra].
Qed.

Lemma Qabs_pos_eq (x : Q) : 0 <= x -> Qabs x = x.
Proof.
  destruct x as [n d]. unfold Qle, Qabs. simpl. intros H.
  rewrite Z.abs_eq by lia. reflexivity.
Qed.

Lemma grid_mono (x y : Q) : 0 < x -> x <= y -> (grid x <= grid y)%Z.
Proof.
  intros Hx Hxy. unfold grid.
  rewrite (Qabs_pos_eq x), (Qabs_pos_eq y) by lra.
  pose proof (ilog2_mono x y Hx Hxy). lia.
Qed.

(** A power of two that is a multiple of the unit is left alone. *)
Lemma nearest_le_pow2 (x : Q) (k : Z) :
  0 < x -> x <= 2 ^ k -> (grid x <= k)%Z -> nearest x <= 2 ^ k.
Proof.
  intros Hx Hle Hk. unfold nearest.
  pose proof (pow2_pos (grid x)) as Hu.
  assert (E : 2 ^ k == inject_Z (2 ^ (k - grid x)) * 2 ^ grid x).
  { rewrite pow2_inject by lia. rewrite <- pow2_add.
    replace (k - grid x + grid x)%Z with k by ring. reflexivity. }
  rewrite E. apply Qmult_le_compat_r; [|lra].
  rewrite <- Zle_Qle.
  rewrite <- (round_half_even_Z (2 ^ (k - grid x))).
  apply round_half_even_mono.
  apply Qle_shift_div_r; [exact Hu|]. rewrite <- E. exact Hle.
Qed.

Lemma nearest_ge_pow2 (y : Q) (k : Z) :
  2 ^ k <= y -> (grid y <= k)%Z -> 2 ^ k <= nearest y.
Proof.
  intros Hle Hk. unfold nearest.
  pose proof (pow2_pos (grid y)) as Hu.
  assert (E : 2 ^ k == inject_Z (2 ^ (k - grid y)) * 2 ^ grid y).
  { rewrite pow2_inject by lia. rewrite <- pow2_add.
    replace (k - grid y + grid y)%Z with k by ring. reflexivity. }
  rewrite E. apply Qmult_le_compat_r; [|lra].
  rewrite <- Zle_Qle.
  rewrite <- (round_half_even_Z (2 ^ (k - grid y))).
  apply round_half_even_mono.
  apply Qle_shift_div_l; [exact Hu|]. rewrite <- E. exact Hle.
Qed.

Lemma nearest_mono (x y : Q) : 0 < x -> x <= y -> nearest x <= nearest y.
Proof.
  intros Hx Hxy.
  assert (Hy : 0 < y) by lra.
  pose proof (grid_mono x y Hx Hxy) as Hg.
  destruct (Z.eq_dec (grid x) (grid y)) as [Heq|Hne].
  - unfold nearest. rewrite Heq.
    pose proof (pow2_pos (grid y)) as Hu.
    apply Qmult_le_compat_r; [|lra].
    rewrite <- Zle_Qle. apply round_half_even_mono.
    apply Qmult_le_compat_r; [exact Hxy|].
    apply Qlt_le_weak, Qinv_lt_0_compat; exact Hu.
  - (* a power of two separates the two *)
    destruct (ilog2_spec x Hx) as [_ Hx2].
    destruct (ilog2_spec y Hy) as [Hy1 _].
    unfold grid in Hg, Hne.
    rewrite (Qabs_pos_eq x), (Qabs_pos_eq y) in Hg, Hne by lra.
    set (k := (Z.max (ilog2 x) (-1022) + 1)%Z).
    assert (Hk1 : (ilog2 x + 1 <= k)%Z) by (unfold k; lia).
    assert (Hk2 : (k <= ilog2 y)%Z) by (unfold k; lia).
    apply (Qle_trans _ (2 ^ k)).
    + apply nearest_le_pow2; [exact Hx| |].
      * apply Qlt_le_weak. eapply Qlt_le_trans; [exact Hx2|].
        apply pow2_le. exact Hk1.
      * unfold grid. rewrite (Qabs_pos_eq x) by lra. unfold k. lia.
    + apply (Qle_trans _ (2 ^ ilog2 y)); [apply pow2_le; exact Hk2|].
      apply nearest_ge_pow2; [exact Hy1|].
      unfold grid. rewrite (Qabs_pos_eq y) by lra. unfold k in Hk2. lia.
Qed.

Lemma grid_comp (x y : Q) : x == y -> ~ x == 0 -> grid x = grid y.
Proof.
  intros H Hx. unfold grid. f_equal. f_equal.
  assert (Ha : 0 < Qabs x).
  { destruct (Qlt_le_dec 0 (Qabs x)) as [Hlt|Hle]; [exact Hlt|exfalso].
    apply Hx. pose proof (Qabs_nonneg x) as H0.
    assert (E : Qabs x == 0) by lra.
    revert E. apply Qabs_case; intros; lra. }
  destruct (ilog2_spec (Qabs x) Ha) as [H1 H2].
  symmetry. apply ilog2_unique; rewrite <- H; assumption.
Qed.

Lemma nearest_comp (x y : Q) : x == y -> ~ x == 0 -> nearest x == nearest y.
Proof.
  intros H Hx. unfold nearest. rewrite (grid_comp x y H Hx).
  rewrite (round_half_even_comp (x / 2 ^ grid y) (y / 2 ^ grid y)).
  - reflexivity.
  - rewrite H. reflexivity.
Qed.

Lemma nearest_double (q : Q) :
  2 ^ (-1022) <= Qabs q -> nearest (2 * q) == 2 * nearest q.
Proof.
  intros Hn.
  assert (Hq : 0 < Qabs q).
  { eapply Qlt_le_trans; [apply (pow2_pos (-1022))|exact Hn]. }
  assert (He : (-1022 <= ilog2 (Qabs q))%Z).
  { apply (ilog2_mono (2 ^ (-1022)) (Qabs q) (pow2_pos _)) in Hn.
    rewrite (ilog2_unique (2 ^ (-1022)) (-1022)) in Hn;
      [exact Hn|apply Qle_refl|apply pow2_lt; lia]. }
  assert (Hg : grid (2 * q) = (grid q + 1)%Z).
  { unfold grid.
    rewrite (ilog2_comp (Qabs (2 * q)) (2 * Qabs q)).
    - rewrite (ilog2_double _ Hq). lia.
    - rewrite Qabs_Qmult. reflexivity.
    - rewrite Qabs_Qmult. change (Qabs 2) with 2. lra. }
  unfold nearest. rewrite Hg.
  rewrite (round_half_even_comp (2 * q / 2 ^ (grid q + 1)) (q / 2 ^ grid q)).
  - rewrite pow2_succ. ring.
  - rewrite pow2_succ. field. intros H.
    pose proof (pow2_pos (grid q)) as Hp. rewrite H in Hp. discriminate Hp.
Qed.

Lemma nearest_zero (q : Q) : q == 0 -> nearest q == 0.
Proof.
  intros H. unfold nearest.
  rewrite (round_half_even_comp _ 0).
  - change (round_half_even 0) with 0%Z. ring.
  - assert (E : q / 2 ^ grid q == 0 / 2 ^ grid q)
      by (apply Qdiv_comp; [exact H|reflexivity]).
    rewrite E. unfold Qdiv. ring.
Qed.

Lemma nearest_abs_error (q : Q) :
  Qabs (nearest q - q) <= Qabs q * 2 ^ (-53) + 2 ^ (-1075).
Proof.
  destruct (Qeq_dec q 0) as [Hq0|Hq0].
  { rewrite (nearest_zero q Hq0), Hq0. vm_compute. discriminate. }
  destruct (Qlt_le_dec (Qabs q) (2 ^ (-1022))) as [Hsmall|Hnormal].
  - eapply Qle_trans; [apply nearest_error|].
    assert (Hg : grid q = (-1074)%Z).
    { unfold grid.
      destruct (Qlt_le_dec 0 (Qabs q)) as [Hpos|Hzero].
      - destruct (ilog2_spec (Qabs q) Hpos) as [H1 _].
        assert (He : (ilog2 (Qabs q) < -1022)%Z).
        { apply (Qpower_lt_compat_l_inv 2); [|reflexivity]. lra. }
        lia.
      - exfalso. apply Hq0. pose proof (Qabs_nonneg q) as H0.
        assert (E : Qabs q == 0) by lra.
        revert E. apply Qabs_case; intros; lra. }
    rewrite Hg.
    setoid_replace (2 ^ (-1074) * (1 # 2)) with (2 ^ (-1075)) using relation Qeq by reflexivity.
    pose proof (Qabs_nonneg q) as H0.
    assert (Hu : 0 < 2 ^ (-53)) by apply pow2_pos.
    assert (Hm : 0 <= Qabs q * 2 ^ (-53))
      by (apply Qmult_le_0_compat; lra).
    lra.
  - pose proof (nearest_rel_error q Hnormal) as H.
    assert (Hu : 0 < 2 ^ (-1075)) by apply pow2_pos. lra.
Qed.

Lemma nearest_range (q : Q) (a b : Z) :
  (-1022 <= a)%Z -> 2 ^ a <= q -> q <= 2 ^ b ->
  2 ^ a <= nearest q /\ nearest q <= 2 ^ b.
Proof.
  intros Ha H1 H2.
  assert (Hq : 0 < q) by (eapply Qlt_le_trans; [apply pow2_pos|exact H1]).
  destruct (ilog2_spec q Hq) as [H3 H4].
  assert (Hea : (a <= ilog2 q)%Z).
  { apply (ilog2_mono (2 ^ a) q (pow2_pos a)) in H1.
    rewrite (ilog2_unique (2 ^ a) a) in H1;
      [exact H1|apply Qle_refl|apply pow2_lt; lia]. }
  assert (Heb : (ilog2 q <= b)%Z).
  { apply (Qpower_le_compat_l_inv 2); [|reflexivity]. lra. }
  split.
  - apply (Qle_trans _ (2 ^ ilog2 q)); [apply pow2_le; exact Hea|].
    apply nearest_ge_pow2; [exact H3|].
    unfold grid. rewrite (Qabs_pos_eq q) by lra. lia.
  - apply nearest_le_pow2; [exact Hq|exact H2|].
    unfold grid. rewrite (Qabs_pos_eq q) by lra. lia.
Qed.

(** *** The Number value *)

Lemma binary64_zero (q : Q) : q == 0 -> binary64 q = Fin 0.
Proof.
  intros H. unfold binary64.
  apply Qeq_bool_iff in H. rewrite H. reflexivity.
Qed.

Lemma binary64_value (q : Q) :
  - 2 ^ 1024 < nearest q -> nearest q < 2 ^ 1024 ->
  exists r, binary64 q = Fin r /\ r == nearest q.
Proof.
  intros H1 H2. unfold binary64.
  destruct (Qeq_bool q 0) eqn:E0.
  - exists 0. split; [reflexivity|].
    apply Qeq_bool_iff in E0. symmetry. apply nearest_zero. exact E0.
  - cbv zeta.
    destruct (Qle_bool (2 ^ 1024) (nearest q)) eqn:E1.
    { apply Qle_bool_iff in E1. lra. }
    destruct (Qle_bool (nearest q) (- 2 ^ 1024)) eqn:E2.
    { apply Qle_bool_iff in E2. lra. }
    exists (Qred (nearest q)). split; [reflexivity|apply Qred_correct].
Qed.

Lemma binary64_comp (x y : Q) : x == y -> binary64 x = binary64 y.
Proof.
  intros H. unfold binary64.
  destruct (Qeq_bool x 0) eqn:Ex.
  - apply Qeq_bool_iff in Ex.
    assert (Ey : Qeq_bool y 0 = true).
    { apply Qeq_bool_iff. rewrite <- H. exact Ex. }
    rewrite Ey. reflexivity.
  - assert (Hx : ~ x == 0) by (apply Qeq_bool_neq; exact Ex).
    assert (Ey : Qeq_bool y 0 = false).
    { destruct (Qeq_bool y 0) eqn:E; [|reflexivity].
      apply Qeq_bool_iff in E. exfalso. apply Hx. rewrite H. exact E. }
    rewrite Ey. cbv zeta.
    pose proof (nearest_comp x y H Hx) as Hn.
    assert (E1 : Qle_bool (2 ^ 1024) (nearest x)
                 = Qle_bool (2 ^ 1024) (nearest y)).
    { destruct (Qle_bool (2 ^ 1024) (nearest x)) eqn:A;
        destruct (Qle_bool (2 ^ 1024) (nearest y)) eqn:B; try reflexivity.
      - apply Qle_bool_iff in A. rewrite Hn in A. apply Qle_bool_iff in A.
        congruence.
      - apply Qle_bool_iff in B. rewrite <- Hn in B. apply Qle_bool_iff in B.
        congruence. }
    assert (E2 : Qle_bool (nearest x) (- 2 ^ 1024)
                 = Qle_bool (nearest y) (- 2 ^ 1024)).
    { destruct (Qle_bool (nearest x) (- 2 ^ 1024)) eqn:A;
        destruct (Qle_bool (nearest y) (- 2 ^ 1024)) eqn:B; try reflexivity.
      - apply Qle_bool_iff in A. rewrite Hn in A. apply Qle_bool_iff in A.
        congruence.
      - apply Qle_bool_iff in B. rewrite <- Hn in B. apply Qle_bool_iff in B.
        congruence. }
    rewrite E1, E2, (Qred_complete _ _ Hn). reflexivity.
Qed.

(** A real number between two powers of two of the normal range has a
    finite Number value between the same powers. *)
Lemma binary64_range (q : Q) (a b : Z) :
  (-1022 <= a)%Z -> (b <= 1023)%Z -> 2 ^ a <= q -> q <= 2 ^ b ->
  exists r, binary64 q = Fin r /\ r == nearest q /\ 2 ^ a <= r /\ r <= 2 ^ b.
Proof.
  intros Ha Hb H1 H2.
  destruct (nearest_range q a b Ha H1 H2) as [H3 H4].
  assert (Hp : 0 < 2 ^ a) by apply pow2_pos.
  assert (Hb' : 2 ^ b < 2 ^ 1024) by (apply pow2_lt; lia).
  assert (Hneg : 0 < 2 ^ 1024) by apply pow2_pos.
  destruct (binary64_value q) as (r & Hr & Hrq); [lra|lra|].
  exists r. split; [exact Hr|]. split; [exact Hrq|].
  rewrite Hrq. split; assumption.
Qed.

(** Doubling is exact in the normal range. *)
Lemma binary64_double (q : Q) (a b : Z) (r : Q) :
  (-1022 <= a)%Z -> (b <= 1022)%Z -> 2 ^ a <= q -> q <= 2 ^ b ->
  binary64 q = Fin r ->
  exists r2, binary64 (2 * q) = Fin r2 /\ r2 == 2 * r.
Proof.
  intros Ha Hb H1 H2 Hr.
  destruct (binary64_range q a b Ha ltac:(lia) H1 H2)
    as (r' & Hr' & Hrq & _).
  rewrite Hr in Hr'. injection Hr' as <-.
  destruct (binary64_range (2 * q) (a + 1) (b + 1) ltac:(lia) ltac:(lia))
    as (r2 & Hr2 & Hr2q & _).
  - rewrite pow2_succ. lra.
  - rewrite pow2_succ. lra.
  - exists r2. split; [exact Hr2|].
    rewrite Hr2q, Hrq. apply nearest_double.
    assert (Hq : 0 < q) by (eapply Qlt_le_trans; [apply pow2_pos|exact H1]).
    rewrite (Qabs_pos_eq q) by lra.
    eapply Qle_trans; [|exact H1]. apply pow2_le. exact Ha.
Qed.

End Binary64.

(** ** The static tables *)

Lemma substance_lookup_inv (s : string) (sd : SubstanceData) :
  SUBSTANCE_BASE_DOSES !! s = Some sd ->
  (s = "psilocybin" /\ sd_baseDose sd = 200%Q /\ sd_unit sd = mg) \/
  (s = "lsd" /\ sd_baseDose sd = 10%Q /\ sd_unit sd = ug) \/
  (s = "amanita" /\ sd_baseDose sd = 100%Q /\ sd_unit sd = mg) \/
  (s = "ketamine" /\ sd_baseDose sd = 10%Q /\ sd_unit sd = mg).
Proof.
  unfold SUBSTANCE_BASE_DOSES.
  rewrite !lookup_insert_Some, lookup_empty.
  intros H; decompose [and or] H; subst; simpl; auto 10; discriminate.
Qed.

Lemma goal_lookup_inv (name : string) (g : Q) :
  GOAL_FACTORS !! name = Some g ->
  (name = "sub_perceptual" /\ g = (1 # 2)%Q) \/
  (name = "standard" /\ g = 1%Q) \/
  (name = "upper_microdose" /\ g = 2%Q).
Proof.
  unfold GOAL_FACTORS.
  rewrite !lookup_insert_Some, lookup_empty.
  intros H; decompose [and or] H; subst; auto; discriminate.
Qed.

Lemma intake_lookup_inv (form : string) (f : Q) :
  INTAKE_FORM_FACTORS !! form = Some f ->
  f = 1%Q \/ f = 10%Q \/ f = 2%Q \/ f = (1 # 100)%Q.
Proof.
  unfold INTAKE_FORM_FACTORS.
  rewrite !lookup_insert_Some, lookup_empty.
  intros H; decompose [and or] H; subst; auto; discriminate.
Qed.

Lemma includes_In (arr : list string) (s : string) :
  includes arr s = true <-> In s arr.
Proof.
  unfold includes. rewrite existsb_exists. split.
  - intros (x & Hx & E). apply String.eqb_eq in E. subst. exact Hx.
  - intros H. exists s. split; [exact H|apply String.eqb_refl].
Qed.

(** No member of [Object.prototype] is hidden by a key of the tables. *)
Lemma prototype_name_no_key (key : string) :
  In key Object_prototype_names ->
  SUBSTANCE_BASE_DOSES !! key = None /\
  GOAL_FACTORS !! key = None /\
  INTAKE_FORM_FACTORS !! key = None.
Proof.
  intros H. simpl in H.
  repeat (destruct H as [<-|H]; [repeat split; reflexivity|]).
  destruct H.
Qed.

Lemma get_Own {A : Type} (tbl : gmap string A) (key : string) (a : A) :
  get tbl key = Own a <-> tbl !! key = Some a.
Proof.
  unfold get. destruct (tbl !! key) as [a'|].
  - split; intros [= ->]; reflexivity.
  - destruct (includes Object_prototype_names key); split; discriminate.
Qed.

Lemma get_Inherited {A : Type} (tbl : gmap string A) (key : string) :
  get tbl key = Inherited <->
  tbl !! key = None /\ In key Object_prototype_names.
Proof.
  unfold get. destruct (tbl !! key) as [a'|].
  - split; [discriminate|intros [[=] _]].
  - destruct (includes Object_prototype_names key) eqn:E.
    + apply includes_In in E. tauto.
    + split; [discriminate|]. intros [_ H]. apply includes_In in H.
      congruence.
Qed.

Lemma get_Missing {A : Type} (tbl : gmap string A) (key : string) :
  get tbl key = Missing <->
  tbl !! key = None /\ ~ In key Object_prototype_names.
Proof.
  unfold get. destruct (tbl !! key) as [a'|].
  - split; [discriminate|intros [[=] _]].
  - destruct (includes Object_prototype_names key) eqn:E.
    + apply includes_In in E. split; [discriminate|tauto].
    + split; [|reflexivity]. intros _. split; [reflexivity|].
      intros H. apply includes_In in H. congruence.
Qed.

(** The literals of the tables, read as Numbers. *)
Lemma literal_base (s : string) (sd : SubstanceData) :
  SUBSTANCE_BASE_DOSES !! s = Some sd ->
  literal (sd_baseDose sd) = Fin (sd_baseDose sd) /\
  (2 ^ 3 <= sd_baseDose sd)%Q /\ (sd_baseDose sd <= 2 ^ 8)%Q.
Proof.
  intros H.
  destruct (substance_lookup_inv s sd H)
    as [(_ & -> & _)|[(_ & -> & _)|[(_ & -> & _)|(_ & -> & _)]]];
    (split; [vm_compute; reflexivity|]); split; vm_compute; discriminate.
Qed.

Lemma literal_goal (name : string) (g : Q) :
  GOAL_FACTORS !! name = Some g -> literal g = Fin g.
Proof.
  intros H.
  destruct (goal_lookup_inv name g H) as [(_ & ->) | [(_ & ->) | (_ & ->)]];
    vm_compute; reflexivity.
Qed.

(** The intake form factor of a form that is no member of
    [Object.prototype]: a positive number, the Number value of the table
    entry or of 1. *)
Lemma intake_form_factor_table (form : string) :
  ~ In form Object_prototype_names ->
  exists f,
    intake_form_factor_of form = Num (Fin f) /\
    literal (table_factor form) = Fin f /\
    (2 ^ (-7) <= f)%Q /\ (f <= 2 ^ 4)%Q /\
    (Qabs (f - table_factor form) <= 2 ^ (-59))%Q.
Proof.
  intros Hno. unfold intake_form_factor_of, table_factor, get.
  destruct (INTAKE_FORM_FACTORS !! form) as [f|] eqn:E.
  - destruct (intake_lookup_inv form f E) as [ -> | [ -> | [ -> | -> ] ] ];
      eexists; (split; [vm_compute; reflexivity|]);
      (split; [vm_compute; reflexivity|]);
      repeat split; vm_compute; discriminate.
  - assert (Hi : includes Object_prototype_names form = false).
    { destruct (includes Object_prototype_names form) eqn:Ei; [|reflexivity].
      apply includes_In in Ei. contradiction. }
    rewrite Hi. eexists. (split; [vm_compute; reflexivity|]).
    (split; [vm_compute; reflexivity|]).
    repeat split; vm_compute; discriminate.
Qed.

Lemma intake_form_factor_inherited (form : string) :
  In form Object_prototype_names ->
  intake_form_factor_of form = Builtin.
Proof.
  intros H. unfold intake_form_factor_of, get.
  destruct (prototype_name_no_key form H) as (_ & _ & ->).
  apply includes_In in H. rewrite H. reflexivity.
Qed.

(** ** What [calculate] returns and when it throws *)

Lemma generateExplanation_throws (s : string) (b : value) (wf sf : number)
    (gf ff : value) (d : number) :
  generateExplanation s b wf sf gf ff d = TypeError <->
  (forall n, gf <> Num n) \/ (forall n, ff <> Num n).
Proof.
  unfold generateExplanation, bind, toFixed.
  destruct gf as [|g|]; destruct ff as [|f|]; split;
    try discriminate; try (intros _; auto; fail);
    try (intros _; left; discriminate);
    try (intros _; right; discriminate).
  intros [H|H]; [destruct (H g)|destruct (H f)]; reflexivity.
Qed.

(** The result of [calculate] when the substance and the goal are keys of
    their tables and the intake form is no member of [Object.prototype]:
    every field is given by the arithmetic of the source. *)
Lemma calculate_returns (params : MicrodoseCalculationParams)
    (sd : SubstanceData) (g : Q) :
  SUBSTANCE_BASE_DOSES !! substance params = Some sd ->
  GOAL_FACTORS !! goal params = Some g ->
  ~ In (intakeForm params) Object_prototype_names ->
  exists r f,
    calculate params = Normal r /\
    literal (table_factor (intakeForm params)) = Fin f /\
    baseDose r = Num (Fin (sd_baseDose sd)) /\
    doseUnit r = Some (sd_unit sd) /\
    weightFactor r = num_div (weight params) (Fin 70) /\
    sensitivityFactor r = sensitivity params /\
    goalFactor r = Num (Fin g) /\
    intakeFormFactor r = Num (Fin f) /\
    calculatedDose r =
      round_dose (substance params)
        (num_mul (num_mul (num_mul (num_mul (Fin (sd_baseDose sd))
                                            (weightFactor r))
                                   (sensitivity params)) (Fin g)) (Fin f)) /\
    recommendations r = generateRecommendations params (calculatedDose r).
Proof.
  intros Hs Hg Hf.
  destruct (intake_form_factor_table _ Hf) as (f & Hif & Hlf & _).
  destruct (literal_base _ _ Hs) as [Hb _].
  pose proof (literal_goal _ _ Hg) as Hlg.
  unfold calculate.
  rewrite (proj2 (get_Own _ _ _) Hs), (proj2 (get_Own _ _ _) Hg).
  cbv zeta. cbn [value_of]. rewrite Hb, Hlg, Hif.
  unfold generateExplanation, toFixed, bind.
  eexists _, f. split; [reflexivity|]. split; [exact Hlf|].
  cbn [baseDose doseUnit weightFactor sensitivityFactor goalFactor
       intakeFormFactor calculatedDose recommendations].
  repeat (split; [reflexivity|]). reflexivity.
Qed.

(** ** Arithmetic on finite numbers *)

Section Arithmetic.

Local Open Scope Q_scope.

Lemma pow2_mult_le (x y : Q) (a c : Z) :
  2 ^ a <= x -> 2 ^ c <= y -> 2 ^ (a + c) <= x * y.
Proof.
  intros Hx Hy. rewrite pow2_add.
  pose proof (pow2_pos a). pose proof (pow2_pos c).
  apply Qmult_le_compat_nonneg; split; lra.
Qed.

Lemma mult_le_pow2 (x y : Q) (b d : Z) :
  0 <= x -> 0 <= y -> x <= 2 ^ b -> y <= 2 ^ d -> x * y <= 2 ^ (b + d).
Proof.
  intros Hx0 Hy0 Hx Hy. rewrite pow2_add.
  apply Qmult_le_compat_nonneg; split; assumption.
Qed.

(** A product in the normal range: finite, between the same powers of two
    as the exact product, and within one part in [2 ^ 53] of it. *)
Lemma num_mul_range (x y : Q) (a b c d : Z) :
  (-1022 <= a + c)%Z -> (b + d <= 1023)%Z ->
  2 ^ a <= x -> x <= 2 ^ b -> 2 ^ c <= y -> y <= 2 ^ d ->
  exists r,
    num_mul (Fin x) (Fin y) = Fin r /\
    2 ^ (a + c) <= r /\ r <= 2 ^ (b + d) /\
    Qabs (r - x * y) <= 2 ^ (b + d - 53).
Proof.
  intros Hac Hbd Hx1 Hx2 Hy1 Hy2.
  pose proof (pow2_pos a) as Pa. pose proof (pow2_pos c) as Pc.
  pose proof (pow2_mult_le x y a c Hx1 Hy1) as Hlo.
  pose proof (mult_le_pow2 x y b d ltac:(lra) ltac:(lra) Hx2 Hy2) as Hhi.
  destruct (binary64_range (x * y) (a + c) (b + d) Hac Hbd Hlo Hhi)
    as (r & Hr & Hrq & H1 & H2).
  exists r. split; [exact Hr|]. split; [exact H1|]. split; [exact H2|].
  rewrite Hrq.
  pose proof (pow2_pos (a + c)) as Pac.
  eapply Qle_trans.
  - apply nearest_rel_error. rewrite (Qabs_pos_eq (x * y)) by lra.
    eapply Qle_trans; [|exact Hlo]. apply pow2_le. exact Hac.
  - rewrite (Qabs_pos_eq (x * y)) by lra.
    replace (b + d - 53)%Z with (b + d + -53)%Z by ring.
    rewrite (pow2_add (b + d) (-53)).
    apply Qmult_le_compat_r; [exact Hhi|apply Qlt_le_weak, pow2_pos].
Qed.

Lemma num_div_range (x y : Q) (a b : Z) :
  (-1022 <= a)%Z -> (b <= 1023)%Z -> ~ y == 0 ->
  2 ^ a <= x / y -> x / y <= 2 ^ b ->
  exists r,
    num_div (Fin x) (Fin y) = Fin r /\
    2 ^ a <= r /\ r <= 2 ^ b /\
    Qabs (r - x / y) <= 2 ^ (b - 53).
Proof.
  intros Ha Hb Hy Hlo Hhi.
  destruct (binary64_range (x / y) a b Ha Hb Hlo Hhi)
    as (r & Hr & Hrq & H1 & H2).
  exists r. split.
  { unfold num_div.
    destruct (Qeq_bool y 0) eqn:E; [|exact Hr].
    apply Qeq_bool_iff in E. contradiction. }
  split; [exact H1|]. split; [exact H2|].
  rewrite Hrq.
  pose proof (pow2_pos a) as Pa.
  eapply Qle_trans.
  - apply nearest_rel_error. rewrite (Qabs_pos_eq (x / y)) by lra.
    eapply Qle_trans; [|exact Hlo]. apply pow2_le. exact Ha.
  - rewrite (Qabs_pos_eq (x / y)) by lra.
    replace (b - 53)%Z with (b + -53)%Z by ring.
    rewrite (pow2_add b (-53)).
    apply Qmult_le_compat_r; [exact Hhi|apply Qlt_le_weak, pow2_pos].
Qed.

(** Doubling one factor doubles a product of the normal range. *)
Lemma num_mul_double (x x2 y r : Q) (a b : Z) :
  (-1022 <= a)%Z -> (b <= 1022)%Z ->
  2 ^ a <= x * y -> x * y <= 2 ^ b ->
  x2 == 2 * x ->
  num_mul (Fin x) (Fin y) = Fin r ->
  exists r2, num_mul (Fin x2) (Fin y) = Fin r2 /\ r2 == 2 * r.
Proof.
  intros Ha Hb Hlo Hhi Hx2 Hr. cbn [num_mul] in *.
  rewrite (binary64_comp (x2 * y) (2 * (x * y))).
  - exact (binary64_double (x * y) a b r Ha Hb Hlo Hhi Hr).
  - rewrite Hx2. ring.
Qed.

Lemma num_div_double (x x2 y r : Q) (a b : Z) :
  (-1022 <= a)%Z -> (b <= 1022)%Z -> ~ y == 0 ->
  2 ^ a <= x / y -> x / y <= 2 ^ b ->
  x2 == 2 * x ->
  num_div (Fin x) (Fin y) = Fin r ->
  exists r2, num_div (Fin x2) (Fin y) = Fin r2 /\ r2 == 2 * r.
Proof.
  intros Ha Hb Hy Hlo Hhi Hx2 Hr. cbn [num_div] in *.
  destruct (Qeq_bool y 0) eqn:E.
  { apply Qeq_bool_iff in E. contradiction. }
  rewrite (binary64_comp (x2 / y) (2 * (x / y))).
  - exact (binary64_double (x / y) a b r Ha Hb Hlo Hhi Hr).
  - rewrite Hx2. unfold Qdiv. ring.
Qed.

(** Rounding keeps the order of the real numbers that do not overflow. *)
Lemma binary64_mono (x y : Q) (b : Z) :
  (0 <= b)%Z -> (b <= 1023)%Z -> 0 <= x -> x <= y -> y <= 2 ^ b ->
  exists r1 r2,
    binary64 x = Fin r1 /\ binary64 y = Fin r2 /\
    0 <= r1 /\ r1 <= r2 /\ r2 <= 2 ^ b.
Proof.
  intros Hb0 Hb Hx Hxy Hy.
  assert (Hpb : 0 < 2 ^ b) by apply pow2_pos.
  assert (Hb' : 2 ^ b < 2 ^ 1024) by (apply pow2_lt; lia).
  assert (Hup : forall z, 0 <= z -> z <= 2 ^ b -> nearest z <= 2 ^ b).
  { intros z Hz0 Hz.
    destruct (Qeq_dec z 0) as [E|E].
    - rewrite (nearest_zero z E). lra.
    - apply nearest_le_pow2; [lra|exact Hz|].
      unfold grid. rewrite (Qabs_pos_eq z) by lra.
      assert (He : (ilog2 z <= b)%Z).
      { destruct (ilog2_spec z ltac:(lra)) as [H1 _].
        apply (Qpower_le_compat_l_inv 2); [|reflexivity]. lra. }
      lia. }
  assert (Hmono : nearest x <= nearest y).
  { destruct (Qeq_dec x 0) as [E|E].
    - rewrite (nearest_zero x E). apply nearest_nonneg. lra.
    - apply nearest_mono; [lra|exact Hxy]. }
  pose proof (nearest_nonneg x Hx) as Hx0.
  pose proof (Hup y ltac:(lra) Hy) as Hy2.
  destruct (binary64_value x) as (r1 & Hr1 & E1); [lra|lra|].
  destruct (binary64_value y) as (r2 & Hr2 & E2); [lra|lra|].
  exists r1, r2. split; [exact Hr1|]. split; [exact Hr2|].
  rewrite E1, E2. auto.
Qed.

Lemma num_mul_mono (x1 x2 y1 y2 : Q) (b d : Z) :
  (0 <= b + d)%Z -> (b + d <= 1023)%Z ->
  0 <= x1 -> x1 <= x2 -> x2 <= 2 ^ b ->
  0 <= y1 -> y1 <= y2 -> y2 <= 2 ^ d ->
  exists r1 r2,
    num_mul (Fin x1) (Fin y1) = Fin r1 /\
    num_mul (Fin x2) (Fin y2) = Fin r2 /\
    0 <= r1 /\ r1 <= r2 /\ r2 <= 2 ^ (b + d).
Proof.
  intros H0 H1 Hx0 Hx Hx2 Hy0 Hy Hy2. cbn [num_mul].
  apply binary64_mono; [exact H0|exact H1| | |].
  - apply Qmult_le_0_compat; assumption.
  - apply Qmult_le_compat_nonneg; split; assumption.
  - apply mult_le_pow2; lra.
Qed.

(** *** [Math.round] *)

Lemma inject_Z_sub_double (b a : Z) :
  inject_Z (b - 2 * a) = (inject_Z b + - (2 * inject_Z a))%Q.
Proof.
  unfold Z.sub. rewrite inject_Z_plus, inject_Z_opp, inject_Z_mult.
  reflexivity.
Qed.

Lemma round_double_bound (y : Q) :
  (-1 <= Qfloor (2 * y + (1 # 2)) - 2 * Qfloor (y + (1 # 2)) <= 1)%Z.
Proof.
  pose proof (Qfloor_le (y + (1 # 2))) as A1.
  pose proof (Qlt_floor (y + (1 # 2))) as A2.
  pose proof (Qfloor_le (2 * y + (1 # 2))) as B1.
  pose proof (Qlt_floor (2 * y + (1 # 2))) as B2.
  rewrite inject_Z_plus in A2, B2. change (inject_Z 1) with 1 in A2, B2.
  set (a := Qfloor (y + (1 # 2))) in *.
  set (b := Qfloor (2 * y + (1 # 2))) in *.
  assert (H1 : - (2) < inject_Z (b - 2 * a)).
  { rewrite inject_Z_sub_double. lra. }
  assert (H2 : inject_Z (b - 2 * a) < 2).
  { rewrite inject_Z_sub_double. lra. }
  change (- (2)) with (inject_Z (-2)) in H1.
  change 2 with (inject_Z 2) in H2.
  rewrite <- Zlt_Qlt in H1, H2. lia.
Qed.

Lemma round_double_strict (y : Q) :
  1 <= y -> (Qfloor (y + (1 # 2)) < Qfloor (2 * y + (1 # 2)))%Z.
Proof.
  intros Hy.
  pose proof (Qfloor_le (y + (1 # 2))) as A1.
  pose proof (Qlt_floor (2 * y + (1 # 2))) as B2.
  rewrite inject_Z_plus in B2. change (inject_Z 1) with 1 in B2.
  rewrite Zlt_Qlt. lra.
Qed.

Lemma round_nonneg (y : Q) : 0 <= y -> (0 <= Qfloor (y + (1 # 2)))%Z.
Proof.
  intros Hy. change 0%Z with (Qfloor 0). apply Qfloor_resp_le. lra.
Qed.

Lemma round_le_pow2 (y : Q) (b : Z) :
  (0 <= b)%Z -> y <= 2 ^ b -> (Qfloor (y + (1 # 2)) <= 2 ^ b)%Z.
Proof.
  intros Hb Hy.
  pose proof (Qfloor_le (y + (1 # 2))) as A1.
  assert (H : inject_Z (Qfloor (y + (1 # 2))) < inject_Z (2 ^ b + 1)).
  { rewrite inject_Z_plus, pow2_inject by exact Hb.
    change (inject_Z 1) with 1. lra. }
  rewrite <- Zlt_Qlt in H. lia.
Qed.

End Arithmetic.

(** ** The dose for parameters of the validated ranges *)

Section ValidRanges.

Local Open Scope Q_scope.

(** Closed powers of two are replaced by their values. *)
Ltac eval_pow2 :=
  repeat match goal with
         | |- context [Qpower 2 (Zpos ?k)] =>
           let v := eval vm_compute in (Qpower 2 (Zpos k)) in
           change (Qpower 2 (Zpos k)) with v
         | |- context [Qpower 2 (Zneg ?k)] =>
           let v := eval vm_compute in (Qpower 2 (Zneg k)) in
           change (Qpower 2 (Zneg k)) with v
         | H : context [Qpower 2 (Zpos ?k)] |- _ =>
           let v := eval vm_compute in (Qpower 2 (Zpos k)) in
           change (Qpower 2 (Zpos k)) with v in H
         | H : context [Qpower 2 (Zneg ?k)] |- _ =>
           let v := eval vm_compute in (Qpower 2 (Zneg k)) in
           change (Qpower 2 (Zneg k)) with v in H
         end.

(** How the error of a factor and the error of a rounding add up. *)
Lemma error_step (p E y Y0 r eps eta delta P Ymax : Q) :
  Qabs (p - E) <= eps -> Qabs (y - Y0) <= eta ->
  0 <= p -> p <= P -> 0 <= Y0 -> Y0 <= Ymax ->
  Qabs (r - p * y) <= delta ->
  Qabs (r - E * Y0) <= delta + P * eta + eps * Ymax.
Proof.
  intros Hp Hy Hp0 HpP HY0 HYm Hr.
  assert (E1 : r - E * Y0 == (r - p * y) + (p * (y - Y0) + (p - E) * Y0))
    by ring.
  rewrite E1.
  eapply Qle_trans; [apply Qabs_triangle|].
  eapply Qle_trans;
    [apply Qplus_le_r; apply Qabs_triangle|].
  rewrite !Qabs_Qmult.
  rewrite (Qabs_pos p) by exact Hp0. rewrite (Qabs_pos Y0) by exact HY0.
  pose proof (Qabs_nonneg (y - Y0)) as A1.
  pose proof (Qabs_nonneg (p - E)) as A2.
  assert (B1 : p * Qabs (y - Y0) <= P * eta)
    by (apply Qmult_le_compat_nonneg; split; assumption).
  assert (B2 : Qabs (p - E) * Y0 <= eps * Ymax)
    by (apply Qmult_le_compat_nonneg; split; assumption).
  lra.
Qed.

Lemma Qabs_zero (x : Q) : Qabs (x - x) <= 0.
Proof.
  setoid_replace (x - x) with 0 using relation Qeq by ring.
  apply Qle_refl.
Qed.

(** Line 28 for parameters of the validated ranges: the product is a
    finite number between [2 ^ -9] and [2 ^ 16], within [2 ^ -33] of the
    exact product of the five factors. *)
Lemma valid_product (base w s g f ft : Q) :
  2 ^ 3 <= base -> base <= 2 ^ 8 ->
  30 <= w -> w <= 200 ->
  sensitivity_floor <= s -> s <= 2 ->
  2 ^ (-1) <= g -> g <= 2 ^ 1 ->
  2 ^ (-7) <= f -> f <= 2 ^ 4 ->
  Qabs (f - ft) <= 2 ^ (-59) -> 0 <= ft -> ft <= 2 ^ 4 ->
  exists wf p,
    num_div (Fin w) (Fin 70) = Fin wf /\
    num_mul (num_mul (num_mul (num_mul (Fin base) (Fin wf)) (Fin s)) (Fin g))
            (Fin f) = Fin p /\
    2 ^ (-9) <= p /\ p <= 2 ^ 16 /\
    Qabs (p - raw_dose base w s g ft) <= 2 ^ (-33).
Proof.
  intros Hb1 Hb2 Hw1 Hw2 Hs1 Hs2 Hg1 Hg2 Hf1 Hf2 Hft Hft0 Hft2.
  assert (Hq1 : 2 ^ (-2) <= w / 70).
  { eval_pow2. unfold Qdiv. change (/ 70) with (1 # 70). lra. }
  assert (Hq2 : w / 70 <= 2 ^ 2).
  { eval_pow2. unfold Qdiv. change (/ 70) with (1 # 70). lra. }
  assert (Hs1' : 2 ^ (-2) <= s).
  { unfold sensitivity_floor in Hs1. eval_pow2. lra. }
  assert (Hs2' : s <= 2 ^ 1) by exact Hs2.
  (* weight / 70 *)
  destruct (num_div_range w 70 (-2) 2 ltac:(lia) ltac:(lia)
              ltac:(discriminate) Hq1 Hq2) as (wf & Ewf & Wa & Wb & We).
  (* baseDose * weightFactor *)
  destruct (num_mul_range base wf 3 8 (-2) 2 ltac:(lia) ltac:(lia)
              Hb1 Hb2 Wa Wb) as (p1 & E1 & A1 & B1 & D1).
  (* ... * sensitivityFactor *)
  destruct (num_mul_range p1 s (3 + -2) (8 + 2) (-2) 1 ltac:(lia) ltac:(lia)
              A1 B1 Hs1' Hs2') as (p2 & E2 & A2 & B2 & D2).
  (* ... * goalFactor *)
  destruct (num_mul_range p2 g (3 + -2 + -2) (8 + 2 + 1) (-1) 1
              ltac:(lia) ltac:(lia) A2 B2 Hg1 Hg2)
    as (p3 & E3 & A3 & B3 & D3).
  (* ... * intakeFormFactor *)
  destruct (num_mul_range p3 f (3 + -2 + -2 + -1) (8 + 2 + 1 + 1) (-7) 4
              ltac:(lia) ltac:(lia) A3 B3 Hf1 Hf2)
    as (p4 & E4 & A4 & B4 & D4).
  exists wf, p4. split; [exact Ewf|]. split.
  { rewrite E1, E2, E3. exact E4. }
  split; [exact A4|]. split; [exact B4|].
  (* the errors *)
  assert (P1 : 0 < 2 ^ (-2)) by apply pow2_pos.
  assert (P2 : 0 < 2 ^ (3 + -2)) by apply pow2_pos.
  assert (P3 : 0 < 2 ^ (3 + -2 + -2)) by apply pow2_pos.
  assert (P4 : 0 < 2 ^ (3 + -2 + -2 + -1)) by apply pow2_pos.
  assert (S0 : 0 <= s) by lra.
  assert (G0 : 0 <= g) by (pose proof (pow2_pos (-1)); lra).
  assert (B0 : 0 <= base) by (pose proof (pow2_pos 3); lra).
  assert (D1' : Qabs (p1 - wf * base) <= 2 ^ (8 + 2 - 53))
    by (rewrite (Qmult_comm wf base); exact D1).
  pose proof (error_step wf (w / 70) base base p1 (2 ^ (2 - 53)) 0
                (2 ^ (8 + 2 - 53)) (2 ^ 2) (2 ^ 8)
                We (Qabs_zero base) ltac:(lra) Wb B0 Hb2 D1') as F1.
  match type of F1 with _ <= ?e => set (e1 := e) in F1 end.
  pose proof (error_step p1 (w / 70 * base) s s p2 e1 0
                (2 ^ (8 + 2 + 1 - 53)) (2 ^ (8 + 2)) (2 ^ 1)
                F1 (Qabs_zero s) ltac:(lra) B1 S0 Hs2' D2) as F2.
  match type of F2 with _ <= ?e => set (e2 := e) in F2 end.
  pose proof (error_step p2 (w / 70 * base * s) g g p3 e2 0
                (2 ^ (8 + 2 + 1 + 1 - 53)) (2 ^ (8 + 2 + 1)) (2 ^ 1)
                F2 (Qabs_zero g) ltac:(lra) B2 G0 Hg2 D3) as F3.
  match type of F3 with _ <= ?e => set (e3 := e) in F3 end.
  pose proof (error_step p3 (w / 70 * base * s * g) f ft p4 e3 (2 ^ (-59))
                (2 ^ (8 + 2 + 1 + 1 + 4 - 53)) (2 ^ (8 + 2 + 1 + 1)) (2 ^ 4)
                F3 Hft ltac:(lra) B3 Hft0 Hft2 D4) as F4.
  setoid_replace (raw_dose base w s g ft)
    with (w / 70 * base * s * g * ft) using relation Qeq
    by (unfold raw_dose; ring).
  eapply Qle_trans; [exact F4|]. vm_compute. discriminate.
Qed.


(** Lines 31-33 on a finite product between [2 ^ -9] and [2 ^ 16]: the
    dose is a whole number of rounding steps, at most half a step away
    from the product (and less than [2 ^ -32] more, for [lsd], by the
    multiplication and the division by 10). *)
Lemma round_dose_steps (sub : string) (p : Q) :
  2 ^ (-9) <= p -> p <= 2 ^ 16 ->
  exists d,
    round_dose sub (Fin p) = dose_of_steps sub (steps sub p) /\
    dose_of_steps sub (steps sub p) = Fin d /\
    (0 <= steps sub p <= 2 ^ 20)%Z /\
    0 <= d /\
    Qabs (d - p)
      <= (if String.eqb sub "lsd" then 1 # 10 else 1) * (1 # 2) + 2 ^ (-32).
Proof.
  intros Hp1 Hp2.
  assert (Hp0 : 0 < 2 ^ (-9)) by apply pow2_pos.
  unfold round_dose, dose_of_steps, steps.
  destruct (String.eqb sub "lsd").
  - (* tenths *)
    assert (T1 : 2 ^ 3 <= 10) by (vm_compute; discriminate).
    assert (T2 : 10 <= 2 ^ 4) by (vm_compute; discriminate).
    destruct (binary64_range (p * 10) (-9 + 3) (16 + 4) ltac:(lia) ltac:(lia))
      as (y & Ey & Eyq & Y1 & Y2).
    { apply pow2_mult_le; assumption. }
    { apply mult_le_pow2; try assumption; lra. }
    change (literal 10) with (Fin 10). cbn [num_mul Math_round].
    rewrite Ey. cbn [Math_round].
    rewrite (Qfloor_comp (y + (1 # 2)) (nearest (p * 10) + (1 # 2)))
      by (rewrite Eyq; reflexivity).
    set (n := Qfloor (nearest (p * 10) + (1 # 2))).
    assert (Hy0 : 0 < 2 ^ (-9 + 3)) by apply pow2_pos.
    assert (Hn0 : (0 <= n)%Z).
    { unfold n. apply round_nonneg. rewrite <- Eyq. lra. }
    assert (Hn2 : (n <= 2 ^ 20)%Z).
    { unfold n. apply (round_le_pow2 _ 20); [lia|]. rewrite <- Eyq.
      exact Y2. }
    assert (Hny : Qabs (inject_Z n - y) <= 1 # 2).
    { unfold n. rewrite <- Eyq.
      pose proof (Qfloor_le (y + (1 # 2))) as A1.
      pose proof (Qlt_floor (y + (1 # 2))) as A2.
      rewrite inject_Z_plus in A2. change (inject_Z 1) with 1 in A2.
      apply Qabs_Qle_condition. lra. }
    assert (Hyp : Qabs (y - p * 10) <= 2 ^ (-33)).
    { change (2 ^ (-33)) with (2 ^ (16 + 4 - 53)). rewrite Eyq.
      eapply Qle_trans.
      - apply nearest_rel_error.
        rewrite (Qabs_pos_eq (p * 10)) by (apply Qmult_le_0_compat; lra).
        apply (Qle_trans _ (2 ^ (-9 + 3)));
          [apply pow2_le; lia|apply pow2_mult_le; assumption].
      - rewrite (Qabs_pos_eq (p * 10)) by (apply Qmult_le_0_compat; lra).
        replace (16 + 4 - 53)%Z with (16 + 4 + -53)%Z by ring.
        rewrite (pow2_add (16 + 4) (-53)).
        apply Qmult_le_compat_r; [|apply Qlt_le_weak, pow2_pos].
        apply mult_le_pow2; try assumption; lra. }
    assert (Hd : exists d,
               num_div (Fin (inject_Z n)) (Fin 10) = Fin d /\ 0 <= d /\
               Qabs (d - inject_Z n / 10) <= 2 ^ (-36)).
    { destruct (Z.eq_dec n 0%Z) as [Hn|Hn].
      - rewrite Hn. exists 0. split; [reflexivity|].
        split; [apply Qle_refl|]. vm_compute. discriminate.
      - assert (Hn1 : 1 <= inject_Z n).
        { change 1 with (inject_Z 1). rewrite <- Zle_Qle. lia. }
        assert (Hn2' : inject_Z n <= 2 ^ 20).
        { rewrite <- (pow2_inject 20) by lia. rewrite <- Zle_Qle.
          exact Hn2. }
        destruct (num_div_range (inject_Z n) 10 (-4) 17 ltac:(lia)
                    ltac:(lia) ltac:(discriminate))
          as (d & Ed & D1 & D2 & De).
        + eval_pow2. unfold Qdiv. change (/ 10) with (1 # 10). lra.
        + eval_pow2. unfold Qdiv. change (/ 10) with (1 # 10).
          eval_pow2. lra.
        + exists d. split; [exact Ed|]. split; [|exact De].
          pose proof (pow2_pos (-4)). lra. }
    destruct Hd as (d & Ed & Hd0 & Hde).
    exists d. split; [reflexivity|]. split; [exact Ed|].
    split; [split; assumption|]. split; [exact Hd0|].
    apply Qabs_Qle_condition in Hny, Hyp, Hde.
    apply Qabs_Qle_condition.
    unfold Qdiv in Hde. change (/ 10) with (1 # 10) in Hde.
    eval_pow2. lra.
  - (* whole numbers *)
    cbn [Math_round].
    set (n := Qfloor (p + (1 # 2))).
    exists (inject_Z n). split; [reflexivity|]. split; [reflexivity|].
    assert (Hn0 : (0 <= n)%Z) by (apply round_nonneg; lra).
    split.
    { split; [exact Hn0|].
      apply (Z.le_trans _ (2 ^ 16)); [|lia].
      apply (round_le_pow2 _ 16); [lia|exact Hp2]. }
    split.
    { change 0 with (inject_Z 0). rewrite <- Zle_Qle. exact Hn0. }
    pose proof (Qfloor_le (p + (1 # 2))) as A1.
    pose proof (Qlt_floor (p + (1 # 2))) as A2.
    rewrite inject_Z_plus in A2. change (inject_Z 1) with 1 in A2.
    fold n in A1, A2.
    apply Qabs_Qle_condition. eval_pow2. lra.
Qed.

End ValidRanges.

(** ** The dose formula *)

Ltac not_in_literals :=
  let F := fresh "F" in
  simpl; intros F;
  repeat (destruct F as [F|F]; [discriminate F|]); exact F.

Lemma unit_step_lsd (s : string) (sd : SubstanceData) :
  SUBSTANCE_BASE_DOSES !! s = Some sd ->
  (sd_unit sd = ug <-> s = "lsd") /\
  unit_step (sd_unit sd) = (if String.eqb s "lsd" then 1 # 10 else 1)%Q.
Proof.
  intros H.
  destruct (substance_lookup_inv s sd H)
    as [(-> & _ & ->)|[(-> & _ & ->)|[(-> & _ & ->)|(-> & _ & ->)]]];
    (split; [split; [discriminate || reflexivity
                    |discriminate || reflexivity]
            |reflexivity]).
Qed.

(** C1, what fails.  The claim reads the formula in exact arithmetic and
    promises a result for every table substance.  For amanita at 36 kg,
    sensitivity 0.875 and the sub-perceptual goal the exact product is
    22.5, which rounds half-up to 23, while the binary64 product is
    22.499999999999996 and [calculate] returns 22; and for the intake form
    ["constructor"] [calculate] returns nothing: it throws. *)
Lemma calculate_formula_counterexample :
  ~ (forall (params : MicrodoseCalculationParams) sd w s g,
       SUBSTANCE_BASE_DOSES !! substance params = Some sd ->
       weight params = Fin w -> sensitivity params = Fin s ->
       GOAL_FACTORS !! goal params = Some g ->
       exists r,
         calculate params = Normal r /\
         num_eq (calculatedDose r)
           (Fin (rounded (substance params)
                   (raw_dose (sd_baseDose sd) w s g
                      (table_factor (intakeForm params)))))) /\
  ~ (forall (params : MicrodoseCalculationParams) sd,
       SUBSTANCE_BASE_DOSES !! substance params = Some sd ->
       exists r, calculate params = Normal r).
Proof.
  split.
  - intros H.
    destruct (H {| gender := "female"; weight := Fin 36;
                   substance := "amanita"; intakeForm := "capsules";
                   sensitivity := Fin (7 # 8); goal := "sub_perceptual";
                   experience := None; currentMedication := None |}
                {| sd_baseDose := 100; sd_unit := mg;
                   sd_description := "Dried Amanita muscaria" |}
                36%Q (7 # 8)%Q (1 # 2)%Q
                eq_refl eq_refl eq_refl eq_refl) as (r & Hr & Hd).
    vm_compute in Hr. injection Hr as <-. vm_compute in Hd.
    discriminate Hd.
  - intros H.
    destruct (H {| gender := "female"; weight := Fin 36;
                   substance := "amanita"; intakeForm := "constructor";
                   sensitivity := Fin (7 # 8); goal := "sub_perceptual";
                   experience := None; currentMedication := None |}
                {| sd_baseDose := 100; sd_unit := mg;
                   sd_description := "Dried Amanita muscaria" |}
                eq_refl) as (r & Hr).
    vm_compute in Hr. discriminate Hr.
Qed.

(** C1, amended.  For a substance and a goal of the tables and an intake
    form that is no member of [Object.prototype], [calculate] returns:
    the base dose and the unit are the table's, the unit is the microgram
    exactly for lsd, and the other factors are the weight divided by 70,
    the sensitivity, the goal factor and the intake form factor (the table
    entry, or 1).  The dose is the binary64 product of the five factors,
    taken from left to right, rounded by [Math.round] to a whole number
    or, for lsd, to tenths.  For a weight in [30, 200] and a sensitivity
    in [0.3, 2.0] it is a finite whole number of rounding steps that
    differs from the exact product by at most half a step and [2 ^ -30]. *)
Theorem calculate_dose_formula (params : MicrodoseCalculationParams)
    (sd : SubstanceData) (g : Q) :
  SUBSTANCE_BASE_DOSES !! substance params = Some sd ->
  GOAL_FACTORS !! goal params = Some g ->
  ~ In (intakeForm params) Object_prototype_names ->
  exists r f,
    calculate params = Normal r /\
    baseDose r = Num (Fin (sd_baseDose sd)) /\
    doseUnit r = Some (sd_unit sd) /\
    (sd_unit sd = ug <-> substance params = "lsd") /\
    weightFactor r = num_div (weight params) (Fin 70) /\
    sensitivityFactor r = sensitivity params /\
    goalFactor r = Num (Fin g) /\
    literal (table_factor (intakeForm params)) = Fin f /\
    intakeFormFactor r = Num (Fin f) /\
    calculatedDose r =
      round_dose (substance params)
        (num_mul (num_mul (num_mul (num_mul (Fin (sd_baseDose sd))
                                            (weightFactor r))
                                   (sensitivityFactor r)) (Fin g)) (Fin f)) /\
    forall w s,
      weight params = Fin w -> (30 <= w)%Q -> (w <= 200)%Q ->
      sensitivity params = Fin s ->
      (sensitivity_floor <= s)%Q -> (s <= 2)%Q ->
      exists (n : Z) (d : Q),
        calculatedDose r = dose_of_steps (substance params) n /\
        calculatedDose r = Fin d /\
        (0 <= n)%Z /\ (0 <= d)%Q /\
        (Qabs (d - raw_dose (sd_baseDose sd) w s g
                     (table_factor (intakeForm params)))
         <= unit_step (sd_unit sd) * (1 # 2) + 2 ^ (-30))%Q.
Proof.
  intros Hs Hg Hf.
  destruct (calculate_returns params sd g Hs Hg Hf)
    as (r & f & Hr & Hlf & Hb & Hu & Hw & Hsf & Hgf & Hif & Hd & _).
  destruct (unit_step_lsd _ _ Hs) as [Hlsd Hstep].
  exists r, f. split; [exact Hr|]. split; [exact Hb|]. split; [exact Hu|].
  split; [exact Hlsd|]. split; [exact Hw|]. split; [exact Hsf|].
  split; [exact Hgf|]. split; [exact Hlf|]. split; [exact Hif|].
  split; [rewrite Hsf; exact Hd|].
  intros w s Ew Hw1 Hw2 Es Hs1 Hs2.
  destruct (literal_base _ _ Hs) as (_ & Hb1 & Hb2).
  destruct (intake_form_factor_table _ Hf)
    as (f' & _ & Hlf' & Hf1 & Hf2 & Hfe).
  rewrite Hlf in Hlf'. injection Hlf' as <-.
  assert (Hg12 : (2 ^ (-1) <= g)%Q /\ (g <= 2 ^ 1)%Q).
  { destruct (goal_lookup_inv _ _ Hg) as [(_ & ->)|[(_ & ->)|(_ & ->)]];
      split; vm_compute; discriminate. }
  assert (Hft : (0 <= table_factor (intakeForm params))%Q /\
                (table_factor (intakeForm params) <= 2 ^ 4)%Q).
  { unfold table_factor.
    destruct (INTAKE_FORM_FACTORS !! intakeForm params) as [t|] eqn:E.
    - destruct (intake_lookup_inv _ _ E) as [ -> | [ -> | [ -> | -> ] ] ];
        split; vm_compute; discriminate.
    - split; vm_compute; discriminate. }
  destruct (valid_product (sd_baseDose sd) w s g f
              (table_factor (intakeForm params))
              Hb1 Hb2 Hw1 Hw2 Hs1 Hs2 (proj1 Hg12) (proj2 Hg12) Hf1 Hf2
              Hfe (proj1 Hft) (proj2 Hft))
    as (wf & p & Ewf & Ep & Hp1 & Hp2 & Hpe).
  destruct (round_dose_steps (substance params) p Hp1 Hp2)
    as (d & Erd & Ed & [Hn0 _] & Hd0 & Hde).
  assert (Hdose : calculatedDose r
                  = dose_of_steps (substance params)
                      (steps (substance params) p)).
  { rewrite Hd, Hw, Ew, Ewf, Es, Ep. exact Erd. }
  exists (steps (substance params) p), d.
  split; [exact Hdose|]. split; [rewrite Hdose; exact Ed|].
  split; [exact Hn0|]. split; [exact Hd0|].
  rewrite Hstep.
  apply Qabs_Qle_condition in Hpe, Hde. apply Qabs_Qle_condition.
  revert Hpe Hde.
  change (2 ^ (-33))%Q with (1 # 8589934592)%Q.
  change (2 ^ (-32))%Q with (1 # 4294967296)%Q.
  change (2 ^ (-30))%Q with (1 # 1073741824)%Q.
  intros Hpe Hde. lra.
Qed.

Lemma calculate_dose_formula_witness :
  exists r f,
    calculate {| gender := "female"; weight := Fin 36; substance := "amanita";
                 intakeForm := "capsules"; sensitivity := Fin (7 # 8);
                 goal := "sub_perceptual"; experience := None;
                 currentMedication := None |} = Normal r /\
    baseDose r = Num (Fin 100) /\
    doseUnit r = Some mg /\
    calculatedDose r = Fin 22 /\
    intakeFormFactor r = Num (Fin f).
Proof.
  destruct (calculate_dose_formula
              {| gender := "female"; weight := Fin 36; substance := "amanita";
                 intakeForm := "capsules"; sensitivity := Fin (7 # 8);
                 goal := "sub_perceptual"; experience := None;
                 currentMedication := None |}
              {| sd_baseDose := 100; sd_unit := mg;
                 sd_description := "Dried Amanita muscaria" |} (1 # 2)%Q
              eq_refl eq_refl ltac:(not_in_literals))
    as (r & f & Hr & Hb & Hu & _ & _ & _ & _ & _ & Hif & Hd & _).
  exists r, f. split; [exact Hr|]. split; [exact Hb|]. split; [exact Hu|].
  split; [|exact Hif].
  vm_compute in Hr. injection Hr as <-. reflexivity.
Defined.

(** ** The intake form factor *)

(** C4, what fails.  The fallback does not look at the substance: lsd with
    the form "truffles", which is no form of lsd, gets the factor 2 of the
    table and not 1.  And a form that is no key of the table does not
    always fall back to 1 in silence: for the form "constructor" the read
    gives the member of [Object.prototype] of that name, which is truthy,
    and [calculate] throws. *)
Lemma intake_fallback_counterexample :
  ~ (forall (params : MicrodoseCalculationParams) r,
       calculate params = Normal r ->
       ~ In (intakeForm params) (substance_intake_forms (substance params)) ->
       num_eq (to_number (intakeFormFactor r)) (Fin 1)) /\
  ~ (forall (params : MicrodoseCalculationParams) sd g,
       SUBSTANCE_BASE_DOSES !! substance params = Some sd ->
       GOAL_FACTORS !! goal params = Some g ->
       INTAKE_FORM_FACTORS !! intakeForm params = None ->
       exists r, calculate params = Normal r /\
                 intakeFormFactor r = Num (Fin 1)).
Proof.
  split.
  - intros H.
    pose (p := {| gender := "male"; weight := Fin 70; substance := "lsd";
                  intakeForm := "truffles"; sensitivity := Fin 1;
                  goal := "standard"; experience := None;
                  currentMedication := None |}).
    destruct (calculate p) as [r|] eqn:E; [|discriminate E].
    specialize (H p r E).
    assert (Hn : ~ In (intakeForm p) (substance_intake_forms (substance p))).
    { simpl. intros [F|[F|[]]]; discriminate F. }
    specialize (H Hn).
    vm_compute in E. injection E as <-. vm_compute in H. discriminate H.
  - intros H.
    destruct (H {| gender := "male"; weight := Fin 70; substance := "lsd";
                   intakeForm := "constructor"; sensitivity := Fin 1;
                   goal := "standard"; experience := None;
                   currentMedication := None |}
                {| sd_baseDose := 10; sd_unit := ug;
                   sd_description := "LSD" |} 1%Q
                eq_refl eq_refl eq_refl) as (r & Hr & _).
    vm_compute in Hr. discriminate Hr.
Qed.

(** C4, amended.  The intake form factor is a static read on the intake
    form alone, whatever the substance: for a substance and a goal of the
    tables and a form that is no member of [Object.prototype],
    [calculate] returns, a form that is a key of the table gets its table
    factor, every other form gets 1, and no error is raised. *)
Theorem intake_form_factor_lookup (params : MicrodoseCalculationParams)
    (sd : SubstanceData) (g : Q) :
  SUBSTANCE_BASE_DOSES !! substance params = Some sd ->
  GOAL_FACTORS !! goal params = Some g ->
  ~ In (intakeForm params) Object_prototype_names ->
  exists r,
    calculate params = Normal r /\
    (INTAKE_FORM_FACTORS !! intakeForm params = None ->
       intakeFormFactor r = Num (Fin 1)) /\
    (forall f, INTAKE_FORM_FACTORS !! intakeForm params = Some f ->
       intakeFormFactor r = Num (literal f)).
Proof.
  intros Hs Hg Hf.
  destruct (calculate_returns params sd g Hs Hg Hf)
    as (r & f & Hr & Hlf & _ & _ & _ & _ & _ & Hif & _).
  exists r. split; [exact Hr|]. rewrite Hif, <- Hlf. unfold table_factor.
  split.
  - intros ->. reflexivity.
  - intros f' ->. reflexivity.
Qed.

Lemma intake_form_factor_lookup_witness :
  exists r,
    calculate {| gender := "other"; weight := Fin 70; substance := "amanita";
                 intakeForm := "tea"; sensitivity := Fin 1;
                 goal := "standard"; experience := None;
                 currentMedication := None |} = Normal r /\
    (INTAKE_FORM_FACTORS !! "tea" = None ->
       intakeFormFactor r = Num (Fin 1)) /\
    (forall f, INTAKE_FORM_FACTORS !! "tea" = Some f ->
       intakeFormFactor r = Num (literal f)).
Proof.
  apply (intake_form_factor_lookup
           {| gender := "other"; weight := Fin 70; substance := "amanita";
              intakeForm := "tea"; sensitivity := Fin 1;
              goal := "standard"; experience := None;
              currentMedication := None |}
           {| sd_baseDose := 100; sd_unit := mg;
              sd_description := "Dried Amanita muscaria" |} 1%Q).
  - reflexivity.
  - reflexivity.
  - not_in_literals.
Defined.

(** ** The goal *)

Section Goal.

Local Open Scope Q_scope.

Lemma num_mul_comm (x y : Q) :
  num_mul (Fin x) (Fin y) = num_mul (Fin y) (Fin x).
Proof. cbn [num_mul]. apply binary64_comp. ring. Qed.

(** The three goals on a product of the validated ranges: the factors 1
    and 2 double the product of the factor one half, exactly. *)
Lemma goal_scaling (p f : Q) :
  2 ^ (-1) <= p -> p <= 2 ^ 11 -> 2 ^ (-7) <= f -> f <= 2 ^ 4 ->
  exists x1 x2 x3,
    num_mul (num_mul (Fin p) (Fin (1 # 2))) (Fin f) = Fin x1 /\
    num_mul (num_mul (Fin p) (Fin 1)) (Fin f) = Fin x2 /\
    num_mul (num_mul (Fin p) (Fin 2)) (Fin f) = Fin x3 /\
    x2 == 2 * x1 /\ x3 == 2 * x2 /\
    2 ^ (-9) <= x1 /\ x1 <= 2 ^ 14.
Proof.
  intros Hp1 Hp2 Hf1 Hf2.
  assert (Hh1 : 2 ^ (-1) <= 1 # 2) by (vm_compute; discriminate).
  assert (Hh2 : (1 # 2) <= 2 ^ (-1)) by (vm_compute; discriminate).
  destruct (num_mul_range p (1 # 2) (-1) 11 (-1) (-1) ltac:(lia) ltac:(lia)
              Hp1 Hp2 Hh1 Hh2) as (h & Eh & H1 & H2 & _).
  (* the products with the goal factor *)
  assert (Hhp : 2 ^ (-2) <= (1 # 2) * p /\ (1 # 2) * p <= 2 ^ 10).
  { revert Hp1 Hp2. change (2 ^ (-1)) with (1 # 2).
    change (2 ^ 11) with 2048. change (2 ^ (-2)) with (1 # 4).
    change (2 ^ 10) with 1024. intros; lra. }
  destruct (num_mul_double (1 # 2) 1 p h (-2) 10 ltac:(lia) ltac:(lia)
              (proj1 Hhp) (proj2 Hhp) ltac:(reflexivity))
    as (q1 & Eq1 & Hq1).
  { rewrite num_mul_comm. exact Eh. }
  assert (H1p : 2 ^ (-1) <= 1 * p /\ 1 * p <= 2 ^ 11) by (split; lra).
  destruct (num_mul_double 1 2 p q1 (-1) 11 ltac:(lia) ltac:(lia)
              (proj1 H1p) (proj2 H1p) ltac:(reflexivity) Eq1)
    as (q2 & Eq2 & Hq2).
  rewrite (num_mul_comm 1 p) in Eq1. rewrite (num_mul_comm 2 p) in Eq2.
  (* the products with the intake form factor *)
  destruct (num_mul_range h f (-1 + -1) (11 + -1) (-7) 4 ltac:(lia)
              ltac:(lia) H1 H2 Hf1 Hf2) as (x1 & Ex1 & X1 & X2 & _).
  assert (R1 : 2 ^ (-9) <= h * f /\ h * f <= 2 ^ 14).
  { split; [apply (pow2_mult_le h f (-2) (-7)); assumption|].
    pose proof (pow2_pos (-1 + -1)). pose proof (pow2_pos (-7)).
    apply (mult_le_pow2 h f 10 4); try assumption; lra. }
  destruct (num_mul_double h q1 f x1 (-9) 14 ltac:(lia) ltac:(lia)
              (proj1 R1) (proj2 R1) Hq1 Ex1) as (x2 & Ex2 & Hx2).
  assert (R2 : 2 ^ (-8) <= q1 * f /\ q1 * f <= 2 ^ 15).
  { destruct R1 as [R1a R1b].
    assert (E : q1 * f == 2 * (h * f)) by (rewrite Hq1; ring).
    rewrite E. revert R1a R1b.
    change (2 ^ (-9)) with (1 # 512). change (2 ^ 14) with 16384.
    change (2 ^ (-8)) with (1 # 256). change (2 ^ 15) with 32768.
    intros; lra. }
  destruct (num_mul_double q1 q2 f x2 (-8) 15 ltac:(lia) ltac:(lia)
              (proj1 R2) (proj2 R2) Hq2 Ex2) as (x3 & Ex3 & Hx3).
  exists x1, x2, x3.
  rewrite Eh, Eq1, Eq2.
  repeat (split; [assumption|]). exact X2.
Qed.

(** The number of rounding steps does not decrease with the product, and
    it increases when a product of at least one step is doubled. *)
Lemma steps_mono (sub : string) (x y : Q) :
  0 < x -> x <= y -> (steps sub x <= steps sub y)%Z.
Proof.
  intros Hx Hxy. unfold steps. destruct (String.eqb sub "lsd").
  - apply Qfloor_resp_le.
    assert (H : nearest (x * 10) <= nearest (y * 10))
      by (apply nearest_mono; lra).
    lra.
  - apply Qfloor_resp_le. lra.
Qed.

Lemma nearest_times_ten_double (x x2 : Q) :
  2 ^ (-1000) <= x -> x2 == 2 * x ->
  nearest (x2 * 10) == 2 * nearest (x * 10).
Proof.
  intros Hx E.
  assert (Hp : 0 < 2 ^ (-1000)) by apply pow2_pos.
  rewrite (nearest_comp (x2 * 10) (2 * (x * 10))).
  - apply nearest_double.
    rewrite (Qabs_pos_eq (x * 10)) by lra.
    apply (Qle_trans _ (2 ^ (-1000))); [apply pow2_le; lia|lra].
  - rewrite E. ring.
  - rewrite E. lra.
Qed.

Lemma steps_double_bound (sub : string) (x x2 : Q) :
  2 ^ (-1000) <= x -> x2 == 2 * x ->
  (-1 <= steps sub x2 - 2 * steps sub x <= 1)%Z.
Proof.
  intros Hx E. unfold steps. destruct (String.eqb sub "lsd").
  - rewrite (Qfloor_comp (nearest (x2 * 10) + (1 # 2))
               (2 * nearest (x * 10) + (1 # 2))).
    + apply round_double_bound.
    + rewrite (nearest_times_ten_double x x2 Hx E). reflexivity.
  - rewrite (Qfloor_comp (x2 + (1 # 2)) (2 * x + (1 # 2)))
      by (rewrite E; reflexivity).
    apply round_double_bound.
Qed.

Lemma steps_double_strict (sub : string) (x x2 : Q) :
  2 ^ (-9) <= x -> x2 == 2 * x -> (2 <= steps sub x)%Z ->
  (steps sub x < steps sub x2)%Z.
Proof.
  intros Hx E. unfold steps.
  assert (Hx' : 2 ^ (-1000) <= x).
  { eapply Qle_trans; [|exact Hx]. apply pow2_le. lia. }
  destruct (String.eqb sub "lsd").
  - intros Hn.
    rewrite (Qfloor_comp (nearest (x2 * 10) + (1 # 2))
               (2 * nearest (x * 10) + (1 # 2)))
      by (rewrite (nearest_times_ten_double x x2 Hx' E); reflexivity).
    apply round_double_strict.
    pose proof (Qfloor_le (nearest (x * 10) + (1 # 2))) as A.
    assert (B : 2 <= inject_Z (Qfloor (nearest (x * 10) + (1 # 2)))).
    { change 2 with (inject_Z 2). rewrite <- Zle_Qle. exact Hn. }
    lra.
  - intros Hn.
    rewrite (Qfloor_comp (x2 + (1 # 2)) (2 * x + (1 # 2)))
      by (rewrite E; reflexivity).
    apply round_double_strict.
    pose proof (Qfloor_le (x + (1 # 2))) as A.
    assert (B : 2 <= inject_Z (Qfloor (x + (1 # 2)))).
    { change 2 with (inject_Z 2). rewrite <- Zle_Qle. exact Hn. }
    lra.
Qed.

(** Tenths of a microgram keep their order, strictly, as Numbers. *)
Lemma tenths_value (n : Z) :
  (0 <= n <= 2 ^ 21)%Z ->
  exists d, binary64 (inject_Z n / 10) = Fin d /\
            Qabs (d - inject_Z n / 10) <= 2 ^ (-30).
Proof.
  intros [Hn0 Hn2].
  assert (Q0 : 0 <= inject_Z n).
  { change 0 with (inject_Z 0). rewrite <- Zle_Qle. exact Hn0. }
  assert (Q2 : inject_Z n <= 2 ^ 21).
  { rewrite <- (pow2_inject 21) by lia. rewrite <- Zle_Qle. exact Hn2. }
  pose proof (nearest_abs_error (inject_Z n / 10)) as He.
  rewrite (Qabs_pos (inject_Z n / 10)) in He.
  2:{ unfold Qdiv. change (/ 10) with (1 # 10). lra. }
  assert (Hb : Qabs (nearest (inject_Z n / 10) - inject_Z n / 10)
               <= 2 ^ (-30)).
  { eapply Qle_trans; [exact He|].
    unfold Qdiv. change (/ 10) with (1 # 10).
    assert (P1 : 2 ^ (-1075) <= 2 ^ (-31)) by (apply pow2_le; lia).
    revert Q2 P1. generalize (2 ^ (-1075)). intros u.
    change (2 ^ 21) with 2097152. change (2 ^ (-31)) with (1 # 2147483648).
    change (2 ^ (-53)) with (1 # 9007199254740992).
    change (2 ^ (-30)) with (1 # 1073741824).
    intros; lra. }
  destruct (binary64_value (inject_Z n / 10)) as (d & Ed & Edq).
  - apply Qabs_Qle_condition in Hb.
    unfold Qdiv in *. change (/ 10) with (1 # 10) in *.
    assert (P : 0 < 2 ^ 1024) by apply pow2_pos.
    revert Hb. change (2 ^ (-30)) with (1 # 1073741824). intros; lra.
  - apply Qabs_Qle_condition in Hb.
    unfold Qdiv in *. change (/ 10) with (1 # 10) in *.
    assert (P : 2 ^ 22 <= 2 ^ 1024) by (apply pow2_le; lia).
    revert Hb Q2 P. change (2 ^ (-30)) with (1 # 1073741824).
    change (2 ^ 21) with 2097152. change (2 ^ 22) with 4194304.
    intros; lra.
  - exists d. split; [exact Ed|]. rewrite Edq. exact Hb.
Qed.

Lemma dose_of_steps_order (sub : string) (n m : Z) :
  (0 <= n)%Z -> (n <= m)%Z -> (m <= 2 ^ 21)%Z ->
  exists a b,
    dose_of_steps sub n = Fin a /\ dose_of_steps sub m = Fin b /\
    a <= b /\ ((n < m)%Z -> a < b) /\
    ((if String.eqb sub "lsd" then 1 # 10 else 1) * 2 <= a -> (2 <= n)%Z).
Proof.
  intros Hn0 Hnm Hm. unfold dose_of_steps.
  destruct (String.eqb sub "lsd").
  - change (literal 10) with (Fin 10). cbn [num_div].
    change (Qeq_bool 10 0) with false. cbv iota.
    destruct (tenths_value n ltac:(lia)) as (a & Ea & Ha).
    destruct (tenths_value m ltac:(lia)) as (b & Eb & Hb).
    exists a, b. split; [exact Ea|]. split; [exact Eb|].
    apply Qabs_Qle_condition in Ha, Hb.
    unfold Qdiv in Ha, Hb. change (/ 10) with (1 # 10) in Ha, Hb.
    revert Ha Hb. change (2 ^ (-30)) with (1 # 1073741824). intros Ha Hb.
    assert (Hstrict : (n < m)%Z -> a < b).
    { intros Hlt.
      assert (H1 : inject_Z n + 1 <= inject_Z m).
      { change 1 with (inject_Z 1). rewrite <- inject_Z_plus, <- Zle_Qle.
        lia. }
      lra. }
    split; [|split; [exact Hstrict|]].
    + destruct (Z.eq_dec n m) as [<-|Hne].
      * rewrite Ea in Eb. injection Eb as <-. apply Qle_refl.
      * apply Qlt_le_weak, Hstrict. lia.
    + intros H2.
      destruct (Z_le_gt_dec 2 n) as [H|H]; [exact H|exfalso].
      assert (H1 : inject_Z n <= 1).
      { change 1 with (inject_Z 1). rewrite <- Zle_Qle. lia. }
      lra.
  - exists (inject_Z n), (inject_Z m).
    split; [reflexivity|]. split; [reflexivity|].
    split; [rewrite <- Zle_Qle; exact Hnm|].
    split; [intros H; rewrite <- Zlt_Qlt; exact H|].
    intros H. change (1 * 2) with (inject_Z 2) in H.
    rewrite <- Zle_Qle in H. exact H.
Qed.

End Goal.

Section GoalRange.

Local Open Scope Q_scope.

(** The product of the base dose, the weight factor and the sensitivity
    for parameters of the validated ranges. *)
Lemma valid_prefix (base w s : Q) :
  2 ^ 3 <= base -> base <= 2 ^ 8 ->
  30 <= w -> w <= 200 ->
  sensitivity_floor <= s -> s <= 2 ->
  exists wf p,
    num_div (Fin w) (Fin 70) = Fin wf /\
    num_mul (num_mul (Fin base) (Fin wf)) (Fin s) = Fin p /\
    2 ^ (-1) <= p /\ p <= 2 ^ 11.
Proof.
  intros Hb1 Hb2 Hw1 Hw2 Hs1 Hs2.
  assert (Hq1 : 2 ^ (-2) <= w / 70).
  { change (2 ^ (-2)) with (1 # 4). unfold Qdiv.
    change (/ 70) with (1 # 70). lra. }
  assert (Hq2 : w / 70 <= 2 ^ 2).
  { change (2 ^ 2) with 4. unfold Qdiv. change (/ 70) with (1 # 70). lra. }
  assert (Hs1' : 2 ^ (-2) <= s).
  { unfold sensitivity_floor in Hs1. change (2 ^ (-2)) with (1 # 4). lra. }
  assert (Hs2' : s <= 2 ^ 1) by exact Hs2.
  destruct (num_div_range w 70 (-2) 2 ltac:(lia) ltac:(lia)
              ltac:(discriminate) Hq1 Hq2) as (wf & Ewf & Wa & Wb & _).
  destruct (num_mul_range base wf 3 8 (-2) 2 ltac:(lia) ltac:(lia)
              Hb1 Hb2 Wa Wb) as (p1 & E1 & A1 & B1 & _).
  destruct (num_mul_range p1 s (3 + -2) (8 + 2) (-2) 1 ltac:(lia) ltac:(lia)
              A1 B1 Hs1' Hs2') as (p2 & E2 & A2 & B2 & _).
  exists wf, p2. split; [exact Ewf|]. split; [rewrite E1; exact E2|].
  split; [exact A2|exact B2].
Qed.

End GoalRange.

(** C6, what fails.  Ketamine at 30 kg with sensitivity 0.3, which
    [validateParams] accepts: the sub-perceptual and the standard goal
    both give the dose 1, since 0.64 and 1.29 round to the same whole
    number.  And parameters that [validateParams] accepts need not have a
    dose at all: with the intake form "constructor" [calculate] throws. *)
Lemma goal_strict_counterexample :
  ~ (forall (params : MicrodoseCalculationParams) r1 r2 d1 d2,
       isValid (validateParams params) = true ->
       calculate (with_goal "sub_perceptual" params) = Normal r1 ->
       calculate (with_goal "standard" params) = Normal r2 ->
       calculatedDose r1 = Fin d1 ->
       calculatedDose r2 = Fin d2 ->
       (d1 < d2)%Q) /\
  ~ (forall params : MicrodoseCalculationParams,
       isValid (validateParams params) = true ->
       exists r, calculate (with_goal "standard" params) = Normal r).
Proof.
  split.
  - intros H.
    pose (p := {| gender := "male"; weight := Fin 30;
                  substance := "ketamine"; intakeForm := "liquid";
                  sensitivity := literal (3 # 10); goal := "standard";
                  experience := None; currentMedication := None |}).
    destruct (calculate (with_goal "sub_perceptual" p)) as [r1|] eqn:E1;
      [|discriminate E1].
    destruct (calculate (with_goal "standard" p)) as [r2|] eqn:E2;
      [|discriminate E2].
    assert (H1 : calculatedDose r1 = Fin 1).
    { vm_compute in E1. injection E1 as <-. reflexivity. }
    assert (H2 : calculatedDose r2 = Fin 1).
    { vm_compute in E2. injection E2 as <-. reflexivity. }
    specialize (H p r1 r2 1%Q 1%Q eq_refl E1 E2 H1 H2).
    revert H. apply Qlt_irrefl.
  - intros H.
    destruct (H {| gender := "male"; weight := Fin 30;
                   substance := "ketamine"; intakeForm := "constructor";
                   sensitivity := Fin 1; goal := "standard";
                   experience := None; currentMedication := None |}
                eq_refl) as (r & Hr).
    vm_compute in Hr. discriminate Hr.
Qed.

(** C6, amended.  For a substance of the table, an intake form that is no
    member of [Object.prototype], a weight in [30, 200] and a sensitivity
    in [0.3, 2.0], [calculate] returns for each of the three goals, with
    the goal factors 0.5 < 1 < 2, the other factors the same for the
    three, and the dose the rounded product of the factors of the result.
    The returned [calculatedDose] is non-decreasing in the goal:
    sub_perceptual <= standard <= upper_microdose.  It is strictly increasing from one goal
    to the next wherever the dose of the lower goal is at least two
    rounding steps (2 mg, or 0.2 µg for lsd); below that the rounding can
    give two goals the same dose. *)
Theorem goal_monotone (params : MicrodoseCalculationParams)
    (sd : SubstanceData) (w s : Q) :
  SUBSTANCE_BASE_DOSES !! substance params = Some sd ->
  ~ In (intakeForm params) Object_prototype_names ->
  weight params = Fin w -> (30 <= w)%Q -> (w <= 200)%Q ->
  sensitivity params = Fin s -> (sensitivity_floor <= s)%Q -> (s <= 2)%Q ->
  exists r1 r2 r3 d1 d2 d3,
    calculate (with_goal "sub_perceptual" params) = Normal r1 /\
    calculate (with_goal "standard" params) = Normal r2 /\
    calculate (with_goal "upper_microdose" params) = Normal r3 /\
    goalFactor r1 = Num (Fin (1 # 2)) /\
    goalFactor r2 = Num (Fin 1) /\
    goalFactor r3 = Num (Fin 2) /\
    Forall (fun r =>
              baseDose r = Num (Fin (sd_baseDose sd)) /\
              weightFactor r = num_div (Fin w) (Fin 70) /\
              sensitivityFactor r = Fin s /\
              intakeFormFactor r
                = intake_form_factor_of (intakeForm params) /\
              calculatedDose r
                = round_dose (substance params)
                    (dose_product (baseDose r) (weightFactor r)
                       (sensitivityFactor r) (goalFactor r)
                       (intakeFormFactor r)))
           [r1; r2; r3] /\
    calculatedDose r1 = Fin d1 /\
    calculatedDose r2 = Fin d2 /\
    calculatedDose r3 = Fin d3 /\
    (d1 <= d2)%Q /\ (d2 <= d3)%Q /\
    ((2 * unit_step (sd_unit sd) <= d1)%Q -> (d1 < d2)%Q) /\
    ((2 * unit_step (sd_unit sd) <= d2)%Q -> (d2 < d3)%Q).
Proof.
  intros Hs Hf Ew Hw1 Hw2 Es Hs1 Hs2.
  destruct (literal_base _ _ Hs) as (_ & Hb1 & Hb2).
  destruct (intake_form_factor_table _ Hf) as (f & Hif & Hlf & Hf1 & Hf2 & _).
  destruct (unit_step_lsd _ _ Hs) as [_ Hstep].
  destruct (valid_prefix (sd_baseDose sd) w s Hb1 Hb2 Hw1 Hw2 Hs1 Hs2)
    as (wf & p & Ewf & Ep & Hp1 & Hp2).
  destruct (goal_scaling p f Hp1 Hp2 Hf1 Hf2)
    as (x1 & x2 & x3 & E1 & E2 & E3 & H21 & H32 & X1 & X2).
  (* the three results *)
  assert (Hres : forall name g x,
            GOAL_FACTORS !! name = Some g ->
            num_mul (num_mul (Fin p) (Fin g)) (Fin f) = Fin x ->
            exists r,
              calculate (with_goal name params) = Normal r /\
              goalFactor r = Num (Fin g) /\
              calculatedDose r
                = round_dose (substance params) (Fin x) /\
              (baseDose r = Num (Fin (sd_baseDose sd)) /\
               weightFactor r = num_div (Fin w) (Fin 70) /\
               sensitivityFactor r = Fin s /\
               intakeFormFactor r
                 = intake_form_factor_of (intakeForm params) /\
               calculatedDose r
                 = round_dose (substance params)
                     (dose_product (baseDose r) (weightFactor r)
                        (sensitivityFactor r) (goalFactor r)
                        (intakeFormFactor r)))).
  { intros name g x Hg Hx.
    destruct (calculate_returns (with_goal name params) sd g Hs Hg Hf)
      as (r & f' & Hr & Hlf' & Hb & _ & Hw & Hsf & Hgf & Hff & Hd & _).
    cbn [with_goal intakeForm weight sensitivity substance] in *.
    rewrite Hlf in Hlf'. injection Hlf' as <-.
    exists r. split; [exact Hr|]. split; [exact Hgf|].
    split; [rewrite Hd, Hw, Ew, Ewf, Es, Ep, Hx; reflexivity|].
    split; [exact Hb|]. split; [rewrite Hw, Ew; reflexivity|].
    split; [rewrite Hsf; exact Es|].
    split; [rewrite Hff, Hif; reflexivity|].
    rewrite Hd. unfold dose_product. rewrite Hb, Hsf, Hgf, Hff.
    reflexivity. }
  destruct (Hres "sub_perceptual" (1 # 2)%Q x1 eq_refl E1)
    as (r1 & Hr1 & Hg1 & Hd1 & Hp1').
  destruct (Hres "standard" 1%Q x2 eq_refl E2)
    as (r2 & Hr2 & Hg2 & Hd2 & Hp2').
  destruct (Hres "upper_microdose" 2%Q x3 eq_refl E3)
    as (r3 & Hr3 & Hg3 & Hd3 & Hp3').
  (* the ranges of the three products *)
  assert (P9 : (0 < 2 ^ (-9))%Q) by apply pow2_pos.
  assert (R2 : (2 ^ (-9) <= x2)%Q /\ (x2 <= 2 ^ 16)%Q).
  { rewrite H21. revert X1 X2. change (2 ^ 14)%Q with 16384%Q.
    change (2 ^ 16)%Q with 65536%Q. intros; split; lra. }
  assert (R3 : (2 ^ (-9) <= x3)%Q /\ (x3 <= 2 ^ 16)%Q).
  { rewrite H32, H21. revert X1 X2. change (2 ^ 14)%Q with 16384%Q.
    change (2 ^ 16)%Q with 65536%Q. intros; split; lra. }
  assert (R1 : (x1 <= 2 ^ 16)%Q).
  { revert X2. change (2 ^ 14)%Q with 16384%Q.
    change (2 ^ 16)%Q with 65536%Q. intros; lra. }
  destruct (round_dose_steps (substance params) x1 X1 R1)
    as (a1 & F1 & G1 & [N1 M1] & _).
  destruct (round_dose_steps (substance params) x2 (proj1 R2) (proj2 R2))
    as (a2 & F2 & G2 & [N2 M2] & _).
  destruct (round_dose_steps (substance params) x3 (proj1 R3) (proj2 R3))
    as (a3 & F3 & G3 & [N3 M3] & _).
  (* the order of the steps *)
  assert (S12 : (steps (substance params) x1
                 <= steps (substance params) x2)%Z).
  { apply steps_mono; [lra|]. rewrite H21. lra. }
  assert (S23 : (steps (substance params) x2
                 <= steps (substance params) x3)%Z).
  { apply steps_mono; [lra|]. rewrite H32. lra. }
  destruct (dose_of_steps_order (substance params) _ _ N1 S12 ltac:(lia))
    as (b1 & b2 & B1 & B2 & L12 & T12 & U1).
  destruct (dose_of_steps_order (substance params) _ _ N2 S23 ltac:(lia))
    as (c2 & c3 & C2 & C3 & L23 & T23 & U2).
  rewrite G1 in B1. injection B1 as <-.
  rewrite G2 in B2. injection B2 as <-.
  rewrite G2 in C2. injection C2 as <-.
  rewrite G3 in C3. injection C3 as <-.
  exists r1, r2, r3, a1, a2, a3.
  split; [exact Hr1|]. split; [exact Hr2|]. split; [exact Hr3|].
  split; [exact Hg1|]. split; [exact Hg2|]. split; [exact Hg3|].
  split.
  { constructor; [exact Hp1'|]. constructor; [exact Hp2'|].
    constructor; [exact Hp3'|constructor]. }
  split; [rewrite Hd1, F1; exact G1|].
  split; [rewrite Hd2, F2; exact G2|].
  split; [rewrite Hd3, F3; exact G3|].
  split; [exact L12|]. split; [exact L23|].
  rewrite Hstep. split.
  - intros H. apply T12.
    apply (steps_double_strict _ x1 x2 X1 H21). apply U1.
    rewrite Qmult_comm. exact H.
  - intros H. apply T23.
    apply (steps_double_strict _ x2 x3 (proj1 R2) H32). apply U2.
    rewrite Qmult_comm. exact H.
Qed.

Lemma goal_monotone_witness :
  exists r1 r2 r3,
    calculate (with_goal "sub_perceptual"
      {| gender := "male"; weight := Fin 80; substance := "psilocybin";
         intakeForm := "truffles"; sensitivity := Fin (3 # 2);
         goal := "standard"; experience := None;
         currentMedication := None |}) = Normal r1 /\
    calculate (with_goal "standard"
      {| gender := "male"; weight := Fin 80; substance := "psilocybin";
         intakeForm := "truffles"; sensitivity := Fin (3 # 2);
         goal := "standard"; experience := None;
         currentMedication := None |}) = Normal r2 /\
    calculate (with_goal "upper_microdose"
      {| gender := "male"; weight := Fin 80; substance := "psilocybin";
         intakeForm := "truffles"; sensitivity := Fin (3 # 2);
         goal := "standard"; experience := None;
         currentMedication := None |}) = Normal r3 /\
    calculatedDose r1 = Fin 343 /\
    calculatedDose r2 = Fin 686 /\
    calculatedDose r3 = Fin 1371.
Proof.
  destruct (goal_monotone
              {| gender := "male"; weight := Fin 80;
                 substance := "psilocybin"; intakeForm := "truffles";
                 sensitivity := Fin (3 # 2); goal := "standard";
                 experience := None; currentMedication := None |}
              {| sd_baseDose := 200; sd_unit := mg;
                 sd_description := "Dried Psilocybin mushrooms" |}
              80%Q (3 # 2)%Q eq_refl ltac:(not_in_literals) eq_refl
              ltac:(vm_compute; discriminate) ltac:(vm_compute; discriminate)
              eq_refl ltac:(vm_compute; discriminate)
              ltac:(vm_compute; discriminate))
    as (r1 & r2 & r3 & d1 & d2 & d3 & H1 & H2 & H3 & _).
  exists r1, r2, r3.
  split; [exact H1|]. split; [exact H2|]. split; [exact H3|].
  vm_compute in H1, H2, H3.
  injection H1 as <-. injection H2 as <-. injection H3 as <-.
  repeat split.
Defined.

Section WeightRange.

Local Open Scope Q_scope.

(** The rounding of a finite positive product, far from overflow. *)
Lemma round_dose_eq (sub : string) (p : Q) :
  2 ^ (-1000) <= p -> p <= 2 ^ 1000 ->
  round_dose sub (Fin p) = dose_of_steps sub (steps sub p).
Proof.
  intros Hp1 Hp2.
  assert (Hp0 : 0 < 2 ^ (-1000)) by apply pow2_pos.
  unfold round_dose, dose_of_steps, steps.
  destruct (String.eqb sub "lsd"); [|reflexivity].
  assert (T1 : 2 ^ 3 <= 10) by (vm_compute; discriminate).
  assert (T2 : 10 <= 2 ^ 4) by (vm_compute; discriminate).
  destruct (binary64_range (p * 10) (-1000 + 3) (1000 + 4)
              ltac:(lia) ltac:(lia))
    as (y & Ey & Eyq & _).
  { apply pow2_mult_le; assumption. }
  { apply mult_le_pow2; try assumption; lra. }
  change (literal 10) with (Fin 10). cbn [num_mul Math_round].
  rewrite Ey. cbn [Math_round].
  rewrite (Qfloor_comp (y + (1 # 2)) (nearest (p * 10) + (1 # 2)))
    by (rewrite Eyq; reflexivity).
  reflexivity.
Qed.

(** One factor more on a product and on its double. *)
Lemma product_step_double (x x2 y : Q) (a b c d : Z) :
  (-1021 <= a + c)%Z -> (b + d <= 1022)%Z ->
  2 ^ a <= x -> x <= 2 ^ b -> 2 ^ c <= y -> y <= 2 ^ d ->
  x2 == 2 * x ->
  exists r r2,
    num_mul (Fin x) (Fin y) = Fin r /\
    num_mul (Fin x2) (Fin y) = Fin r2 /\
    r2 == 2 * r /\ 2 ^ (a + c) <= r /\ r <= 2 ^ (b + d).
Proof.
  intros Hac Hbd Hx1 Hx2 Hy1 Hy2 E.
  destruct (num_mul_range x y a b c d ltac:(lia) ltac:(lia)
              Hx1 Hx2 Hy1 Hy2) as (r & Er & R1 & R2 & _).
  pose proof (pow2_pos a) as Pa. pose proof (pow2_pos c) as Pc.
  destruct (num_mul_double x x2 y r (a + c) (b + d) ltac:(lia) ltac:(lia))
    as (r2 & Er2 & E2); try assumption.
  - apply pow2_mult_le; assumption.
  - apply mult_le_pow2; try assumption; lra.
  - exists r, r2. repeat split; assumption.
Qed.

End WeightRange.

(** C7, what fails.  Psilocybin, dried mushrooms, standard goal,
    sensitivity 1: 37 kg gives 106 mg, 74 kg gives 211 mg.  And not every
    input has a dose to double: with the intake form "constructor"
    [calculate] throws. *)
Lemma weight_doubling_counterexample :
  ~ (forall (params : MicrodoseCalculationParams) w r1 r2 d1 d2,
       weight params = Fin w ->
       calculate params = Normal r1 ->
       calculate (with_weight (Fin (2 * w)) params) = Normal r2 ->
       calculatedDose r1 = Fin d1 ->
       calculatedDose r2 = Fin d2 ->
       (d2 == 2 * d1)%Q) /\
  ~ (forall (params : MicrodoseCalculationParams) sd g,
       SUBSTANCE_BASE_DOSES !! substance params = Some sd ->
       GOAL_FACTORS !! goal params = Some g ->
       exists r, calculate params = Normal r).
Proof.
  split.
  - intros H.
    pose (p := {| gender := "male"; weight := Fin 37;
                  substance := "psilocybin";
                  intakeForm := "dried_mushrooms"; sensitivity := Fin 1;
                  goal := "standard"; experience := None;
                  currentMedication := None |}).
    destruct (calculate p) as [r1|] eqn:E1; [|discriminate E1].
    destruct (calculate (with_weight (Fin (2 * 37)) p)) as [r2|] eqn:E2;
      [|discriminate E2].
    assert (H1 : calculatedDose r1 = Fin 106).
    { vm_compute in E1. injection E1 as <-. reflexivity. }
    assert (H2 : calculatedDose r2 = Fin 211).
    { vm_compute in E2. injection E2 as <-. reflexivity. }
    specialize (H p 37%Q r1 r2 106%Q 211%Q eq_refl E1 E2 H1 H2).
    vm_compute in H. discriminate H.
  - intros H.
    destruct (H {| gender := "male"; weight := Fin 37;
                   substance := "psilocybin"; intakeForm := "constructor";
                   sensitivity := Fin 1; goal := "standard";
                   experience := None; currentMedication := None |}
                {| sd_baseDose := 200; sd_unit := mg;
                   sd_description := "Dried Psilocybin mushrooms" |} 1%Q
                eq_refl eq_refl) as (r & Hr).
    vm_compute in Hr. discriminate Hr.
Qed.

(** C7, amended.  For a substance and a goal of the tables, an intake form
    that is no member of [Object.prototype], and a positive weight and
    sensitivity far from overflow and underflow (between 2^-100 and
    2^100, with no regard to the cap [30, 200]): [calculate] returns for
    the weight and for its double, with the same base dose, sensitivity,
    goal and intake form factors, and doubling the weight doubles the
    weight factor and the product before rounding, exactly.  The returned [calculatedDose] is the rounding of that
    product; counted in rounding steps (1 mg, or 0.1 µg for lsd) the dose
    for the doubled weight differs from twice the step count of the
    original by at most one step. *)
Theorem weight_doubling (params : MicrodoseCalculationParams)
    (sd : SubstanceData) (w s g : Q) :
  SUBSTANCE_BASE_DOSES !! substance params = Some sd ->
  GOAL_FACTORS !! goal params = Some g ->
  ~ In (intakeForm params) Object_prototype_names ->
  weight params = Fin w -> (2 ^ (-100) <= w)%Q -> (w <= 2 ^ 100)%Q ->
  sensitivity params = Fin s -> (2 ^ (-100) <= s)%Q -> (s <= 2 ^ 100)%Q ->
  exists r1 r2 wf p p2 n1 n2,
    calculate params = Normal r1 /\
    calculate (with_weight (Fin (2 * w)) params) = Normal r2 /\
    baseDose r1 = Num (Fin (sd_baseDose sd)) /\
    weightFactor r1 = num_div (Fin w) (Fin 70) /\
    sensitivityFactor r1 = Fin s /\
    goalFactor r1 = Num (Fin g) /\
    intakeFormFactor r1 = intake_form_factor_of (intakeForm params) /\
    baseDose r2 = baseDose r1 /\
    weightFactor r2 = num_div (Fin (2 * w)) (Fin 70) /\
    sensitivityFactor r2 = sensitivityFactor r1 /\
    goalFactor r2 = goalFactor r1 /\
    intakeFormFactor r2 = intakeFormFactor r1 /\
    weightFactor r1 = Fin wf /\
    num_eq (weightFactor r2) (Fin (2 * wf)) /\
    dose_product (baseDose r1) (weightFactor r1) (sensitivityFactor r1)
                 (goalFactor r1) (intakeFormFactor r1) = Fin p /\
    dose_product (baseDose r2) (weightFactor r2) (sensitivityFactor r2)
                 (goalFactor r2) (intakeFormFactor r2) = Fin p2 /\
    (p2 == 2 * p)%Q /\
    calculatedDose r1 = round_dose (substance params) (Fin p) /\
    calculatedDose r2 = round_dose (substance params) (Fin p2) /\
    calculatedDose r1 = dose_of_steps (substance params) n1 /\
    calculatedDose r2 = dose_of_steps (substance params) n2 /\
    -1 <= n2 - 2 * n1 <= 1.
Proof.
  intros Hs Hg Hf Ew Hw1 Hw2 Es Hs1 Hs2.
  destruct (literal_base _ _ Hs) as (_ & Hb1 & Hb2).
  assert (Hgr : (2 ^ (-1) <= g)%Q /\ (g <= 2 ^ 1)%Q).
  { destruct (goal_lookup_inv _ _ Hg) as [(_ & ->) | [(_ & ->) | (_ & ->)]];
      split; vm_compute; discriminate. }
  destruct Hgr as [Hg1 Hg2].
  destruct (calculate_returns params sd g Hs Hg Hf)
    as (r1 & f & Hr1 & Hlf & B1 & _ & W1 & S1 & G1 & I1 & D1 & _).
  destruct (calculate_returns (with_weight (Fin (2 * w)) params) sd g
              Hs Hg Hf)
    as (r2 & f' & Hr2 & Hlf' & B2 & _ & W2 & S2 & G2 & I2 & D2 & _).
  cbn [with_weight intakeForm weight sensitivity substance] in *.
  rewrite Hlf in Hlf'. injection Hlf' as <-.
  destruct (intake_form_factor_table _ Hf)
    as (f0 & Hif0 & Hlf0 & Hf1 & Hf2 & _).
  rewrite Hlf in Hlf0. injection Hlf0 as <-.
  (* the weight factor *)
  assert (P100 : (0 < 2 ^ (-100))%Q) by apply pow2_pos.
  assert (Q1 : (2 ^ (-107) <= w / 70)%Q).
  { apply (Qle_trans _ (2 ^ (-100) / 70)%Q).
    - vm_compute. discriminate.
    - unfold Qdiv. change (/ 70)%Q with (1 # 70)%Q. lra. }
  assert (Q2 : (w / 70 <= 2 ^ 94)%Q).
  { apply (Qle_trans _ (2 ^ 100 / 70)%Q).
    - unfold Qdiv. change (/ 70)%Q with (1 # 70)%Q. lra.
    - vm_compute. discriminate. }
  destruct (num_div_range w 70 (-107) 94 ltac:(lia) ltac:(lia)
              ltac:(discriminate) Q1 Q2) as (wf & Ewf & Wa & Wb & _).
  destruct (num_div_double w (2 * w) 70 wf (-107) 94 ltac:(lia) ltac:(lia)
              ltac:(discriminate) Q1 Q2 ltac:(reflexivity) Ewf)
    as (wf2 & Ewf2 & Hwf2).
  (* the four products *)
  destruct (product_step_double wf wf2 (sd_baseDose sd) (-107) 94 3 8
              ltac:(lia) ltac:(lia) Wa Wb Hb1 Hb2 Hwf2)
    as (a & a2 & Ea & Ea2 & Ha & A1 & A2).
  rewrite (num_mul_comm wf), (num_mul_comm wf2) in *.
  destruct (product_step_double a a2 s (-107 + 3) (94 + 8) (-100) 100
              ltac:(lia) ltac:(lia) A1 A2 Hs1 Hs2 Ha)
    as (b & b2 & Eb & Eb2 & Hb & Bb1 & Bb2).
  destruct (product_step_double b b2 g (-107 + 3 + -100) (94 + 8 + 100)
              (-1) 1 ltac:(lia) ltac:(lia) Bb1 Bb2 Hg1 Hg2 Hb)
    as (c & c2 & Ec & Ec2 & Hc & C1 & C2).
  destruct (product_step_double c c2 f (-107 + 3 + -100 + -1)
              (94 + 8 + 100 + 1) (-7) 4 ltac:(lia) ltac:(lia)
              C1 C2 Hf1 Hf2 Hc)
    as (p & p2 & Ep & Ep2 & Hp & P1 & P2).
  assert (L1 : (2 ^ (-1000) <= p)%Q).
  { eapply Qle_trans; [|exact P1]. apply pow2_le. lia. }
  assert (L2 : (p <= 2 ^ 1000)%Q).
  { eapply Qle_trans; [exact P2|]. apply pow2_le. lia. }
  assert (P1000 : (0 < 2 ^ (-1000))%Q) by apply pow2_pos.
  assert (L3 : (2 ^ (-1000) <= p2)%Q) by (rewrite Hp; lra).
  assert (L4 : (p2 <= 2 ^ 1000)%Q).
  { rewrite Hp. apply (Qle_trans _ (2 * 2 ^ (94 + 8 + 100 + 1 + 4))%Q);
      [lra|]. rewrite <- pow2_succ. apply pow2_le. lia. }
  assert (X1 : dose_product (baseDose r1) (weightFactor r1)
                 (sensitivityFactor r1) (goalFactor r1) (intakeFormFactor r1)
               = Fin p).
  { unfold dose_product. rewrite B1, W1, S1, G1, I1, Ew, Es, Ewf.
    cbn [to_number]. rewrite Ea, Eb, Ec. exact Ep. }
  assert (X2 : dose_product (baseDose r2) (weightFactor r2)
                 (sensitivityFactor r2) (goalFactor r2) (intakeFormFactor r2)
               = Fin p2).
  { unfold dose_product. rewrite B2, W2, S2, G2, I2, Es, Ewf2.
    cbn [to_number]. rewrite Ea2, Eb2, Ec2. exact Ep2. }
  exists r1, r2, wf, p, p2,
    (steps (substance params) p), (steps (substance params) p2).
  split; [exact Hr1|]. split; [exact Hr2|].
  split; [exact B1|]. split; [rewrite W1, Ew; reflexivity|].
  split; [rewrite S1; exact Es|]. split; [exact G1|].
  split; [rewrite I1, Hif0; reflexivity|].
  split; [rewrite B1; exact B2|]. split; [exact W2|].
  split; [rewrite S1; exact S2|]. split; [rewrite G1; exact G2|].
  split; [rewrite I1; exact I2|].
  split; [rewrite W1, Ew; exact Ewf|].
  split; [rewrite W2, Ewf2; exact Hwf2|].
  split; [exact X1|]. split; [exact X2|]. split; [exact Hp|].
  assert (Y1 : calculatedDose r1 = round_dose (substance params) (Fin p)).
  { rewrite D1, W1, Ew, Ewf, Es, Ea, Eb, Ec, Ep. reflexivity. }
  assert (Y2 : calculatedDose r2 = round_dose (substance params) (Fin p2)).
  { rewrite D2, W2, Ewf2, Es, Ea2, Eb2, Ec2, Ep2. reflexivity. }
  split; [exact Y1|]. split; [exact Y2|].
  split; [rewrite Y1; apply round_dose_eq; assumption|].
  split; [rewrite Y2; apply round_dose_eq; assumption|].
  apply steps_double_bound; assumption.
Qed.

Lemma weight_doubling_witness :
  exists r1 r2,
    calculate
      {| gender := "male"; weight := Fin 37; substance := "psilocybin";
         intakeForm := "dried_mushrooms"; sensitivity := Fin 1;
         goal := "standard"; experience := None;
         currentMedication := None |} = Normal r1 /\
    calculate (with_weight (Fin (2 * 37))
      {| gender := "male"; weight := Fin 37; substance := "psilocybin";
         intakeForm := "dried_mushrooms"; sensitivity := Fin 1;
         goal := "standard"; experience := None;
         currentMedication := None |}) = Normal r2 /\
    calculatedDose r1 = Fin 106 /\
    calculatedDose r2 = Fin 211.
Proof.
  destruct (weight_doubling
              {| gender := "male"; weight := Fin 37;
                 substance := "psilocybin"; intakeForm := "dried_mushrooms";
                 sensitivity := Fin 1; goal := "standard";
                 experience := None; currentMedication := None |}
              {| sd_baseDose := 200; sd_unit := mg;
                 sd_description := "Dried Psilocybin mushrooms" |}
              37%Q 1%Q 1%Q eq_refl eq_refl ltac:(not_in_literals) eq_refl
              ltac:(vm_compute; discriminate) ltac:(vm_compute; discriminate)
              eq_refl ltac:(vm_compute; discriminate)
              ltac:(vm_compute; discriminate))
    as (r1 & r2 & wf & p & p2 & n1 & n2 & H1 & H2 & _).
  exists r1, r2.
  split; [exact H1|]. split; [exact H2|].
  vm_compute in H1, H2.
  injection H1 as <-. injection H2 as <-.
  split; reflexivity.
Defined.
(** ** The validator *)

Lemma enum_check (arr : list string) (s : string) :
  ~ In "" arr ->
  if negb (str_truthy s) || negb (includes arr s)
  then ~ In s arr else In s arr.
Proof.
  intros Hne. unfold str_truthy.
  destruct (String.eqb s "") eqn:E0; simpl.
  - apply String.eqb_eq in E0. subst. exact Hne.
  - destruct (includes arr s) eqn:E; simpl.
    + apply includes_In. exact E.
    + intros Hin. apply includes_In in Hin. congruence.
Qed.

Lemma range_check (n : number) (lo hi : Q) :
  (0 < lo)%Q ->
  if negb (num_truthy n) || num_lt n (Fin lo) || num_gt n (Fin hi)
  then ~ (exists q, n = Fin q /\ (lo <= q)%Q /\ (q <= hi)%Q)
  else exists q, n = Fin q /\ (lo <= q)%Q /\ (q <= hi)%Q.
Proof.
  intros Hlo. destruct n as [q| |[|]]; simpl.
  - unfold num_gt, num_lt.
    destruct (Qeq_bool q 0) eqn:E0; simpl.
    { apply Qeq_bool_eq in E0. intros (q' & [= <-] & H1 & _). lra. }
    destruct (Qle_bool lo q) eqn:E1; simpl.
    + destruct (Qle_bool q hi) eqn:E2; simpl.
      * apply Qle_bool_iff in E1, E2. exists q. auto.
      * intros (q' & [= <-] & _ & H2). apply Qle_bool_iff in H2. congruence.
    + intros (q' & [= <-] & H1 & _). apply Qle_bool_iff in H1. congruence.
  - intros (q' & [=] & _).
  - intros (q' & [=] & _).
  - intros (q' & [=] & _).
Qed.

Lemma sensitivity_literal : literal (3 # 10) = Fin sensitivity_floor.
Proof. vm_compute. reflexivity. Qed.

Lemma presence_check (s : string) :
  if negb (str_truthy s) then s = "" else s <> "".
Proof.
  unfold str_truthy. destruct (String.eqb s "") eqn:E; simpl.
  - apply String.eqb_eq. exact E.
  - apply String.eqb_neq. exact E.
Qed.

Ltac settle_in :=
  match goal with
  | |- In _ _ <-> _ =>
    split;
    [ simpl; intros Hin;
      repeat (destruct Hin as [Hin|Hin]; [try discriminate Hin|]);
      try contradiction; try assumption; tauto
    | intros Hbad; try contradiction; simpl; tauto ]
  end.

(** C5, as stated, fails: the validator does not compare the intake form
    with the forms of the substance.  "blotter" is no intake form of
    psilocybin, and the parameters are accepted without any error. *)
Lemma validate_intake_form_counterexample :
  ~ (forall params : MicrodoseCalculationParams,
       ~ intakeForm_in_domain params ->
       isValid (validateParams params) = false /\
       In msg_intakeForm (errors (validateParams params))).
Proof.
  intros H.
  destruct (H {| gender := "female"; weight := Fin 70;
                 substance := "psilocybin"; intakeForm := "blotter";
                 sensitivity := Fin 1; goal := "standard";
                 experience := None; currentMedication := None |})
    as [Hv _].
  - unfold intakeForm_in_domain. not_in_literals.
  - vm_compute in Hv. discriminate Hv.
Qed.

(** C5, amended.  [validateParams] checks gender, substance and goal for
    membership in their enumerations, the weight against [30, 200] and the
    sensitivity against [0.3, 2.0]; of the intake form it checks only that
    it is present (non-empty), not that it belongs to the substance.  The
    six checks are independent: each message is reported exactly when its
    own field fails, the messages come in declaration order and nothing
    else is reported.  For a weight of 250 with every other field passing,
    the result is invalid and the weight message is the only error. *)
Theorem validateParams_checks (params : MicrodoseCalculationParams) :
  let v := validateParams params in
  (In msg_gender (errors v) <-> ~ gender_in_domain params) /\
  (In msg_weight (errors v) <-> ~ weight_in_domain params) /\
  (In msg_substance (errors v) <-> ~ substance_in_domain params) /\
  (In msg_intakeForm (errors v) <-> ~ intakeForm_present params) /\
  (In msg_sensitivity (errors v) <-> ~ sensitivity_in_domain params) /\
  (In msg_goal (errors v) <-> ~ goal_in_domain params) /\
  sublist (errors v) all_messages /\
  (weight params = Fin 250 ->
   gender_in_domain params -> substance_in_domain params ->
   intakeForm_present params -> sensitivity_in_domain params ->
   goal_in_domain params ->
   isValid v = false /\ errors v = [msg_weight]).
Proof.
  pose proof (enum_check ["male"; "female"; "other"] (gender params)
                ltac:(not_in_literals)) as G.
  pose proof (range_check (weight params) 30 200 ltac:(reflexivity)) as W.
  pose proof (enum_check ["psilocybin"; "lsd"; "amanita"; "ketamine"]
                (substance params) ltac:(not_in_literals)) as S.
  pose proof (presence_check (intakeForm params)) as I.
  pose proof (range_check (sensitivity params) sensitivity_floor 2
                ltac:(reflexivity)) as N.
  rewrite <- sensitivity_literal in N.
  pose proof (enum_check ["sub_perceptual"; "standard"; "upper_microdose"]
                (goal params) ltac:(not_in_literals)) as L.
  unfold gender_in_domain, weight_in_domain, substance_in_domain,
    intakeForm_present, sensitivity_in_domain, goal_in_domain.
  unfold validateParams. cbv zeta.
  destruct (negb (str_truthy (gender params)) || _);
  destruct (negb (num_truthy (weight params)) || _ || _);
  destruct (negb (str_truthy (substance params)) || _);
  destruct (negb (str_truthy (intakeForm params)));
  destruct (negb (num_truthy (sensitivity params)) || _ || _);
  destruct (negb (str_truthy (goal params)) || _);
  cbn [push_if app errors isValid length Nat.eqb];
  (split; [settle_in|]); (split; [settle_in|]); (split; [settle_in|]);
  (split; [settle_in|]); (split; [settle_in|]); (split; [settle_in|]);
  (split; [unfold all_messages; repeat constructor|]);
  intros HW HG HS HI HN HL; try contradiction;
  try (split; reflexivity);
  exfalso; destruct W as (q & Hq & _ & Hle); rewrite HW in Hq;
  injection Hq as <-; revert Hle; vm_compute; auto.
Qed.

(** C9.  The validity flag is true exactly when the error list is
    empty. *)
Theorem isValid_iff_no_errors (params : MicrodoseCalculationParams) :
  isValid (validateParams params) = true <->
  errors (validateParams params) = [].
Proof.
  unfold validateParams. cbv zeta. cbn [isValid errors].
  rewrite Nat.eqb_eq. apply length_zero_iff_nil.
Qed.

(** ** Time values *)

Lemma msPerDay_pos : 0 < msPerDay.
Proof. reflexivity. Qed.

Lemma MakeDate_Day_TimeWithinDay (t : Z) :
  MakeDate (Day t) (TimeWithinDay t) = t.
Proof.
  unfold MakeDate, Day, TimeWithinDay.
  pose proof (Z.div_mod t msPerDay) as H.
  pose proof msPerDay_pos. lia.
Qed.

Lemma Day_MakeDate (d t : Z) :
  0 <= t < msPerDay -> Day (MakeDate d t) = d.
Proof.
  intros Ht. unfold Day, MakeDate.
  symmetry. apply (Z.div_unique_pos _ _ d t); [exact Ht|ring].
Qed.

Lemma TimeWithinDay_MakeDate (d t : Z) :
  0 <= t < msPerDay -> TimeWithinDay (MakeDate d t) = t.
Proof.
  intros Ht. unfold TimeWithinDay, MakeDate.
  symmetry. apply (Z.mod_unique_pos _ _ d t); [exact Ht|ring].
Qed.

Lemma setUTCHours_midnight (t : Z) :
  setUTCHours t 0 0 0 0 = Day t * msPerDay.
Proof. unfold setUTCHours, MakeDate, MakeTime. ring. Qed.

(** Midnight of a day that starts [k] whole days after a midnight. *)
Lemma Day_shift (d k : Z) : Day (d * msPerDay + k * msPerDay) = d + k.
Proof.
  replace (d * msPerDay + k * msPerDay) with (MakeDate (d + k) 0)
    by (unfold MakeDate; ring).
  apply Day_MakeDate. pose proof msPerDay_pos. lia.
Qed.

Lemma setDate_next_eq (tz : TimeZone) (t : Z) :
  setDate_next tz t =
  t + msPerDay + LocalTZA_utc tz t
    - LocalTZA_local tz (LocalTime tz t + msPerDay).
Proof.
  unfold setDate_next. cbv zeta.
  replace (MakeDate (Day (LocalTime tz t) + 1) (TimeWithinDay (LocalTime tz t)))
    with (LocalTime tz t + msPerDay).
  - unfold UTC, LocalTime. ring.
  - rewrite <- (MakeDate_Day_TimeWithinDay (LocalTime tz t)) at 1.
    unfold MakeDate. ring.
Qed.

Lemma setDate_next_fixed (offset t : Z) :
  setDate_next (fixed_zone offset) t = t + msPerDay.
Proof. rewrite setDate_next_eq. simpl. ring. Qed.

Lemma setDate_next_bounded (tz : TimeZone) (t : Z) :
  zone_bounded tz -> t + 1 <= setDate_next tz t.
Proof.
  intros (lo & hi & Hw & Hb). rewrite setDate_next_eq.
  pose proof (Hb t) as [H1 _].
  pose proof (Hb (LocalTime tz t + msPerDay)) as [_ H2]. lia.
Qed.

(** The dates of the stored protocol. *)
Lemma make_protocol_dates (id type : string) (startInput c : Z)
    (settings : ProtocolSettings) :
  p_startDate (make_protocol id type startInput c settings)
    = Day startInput * msPerDay /\
  p_endDate (make_protocol id type startInput c settings)
    = Day startInput * msPerDay + c * 7 * msPerDay + (msPerDay - 1).
Proof.
  unfold make_protocol. cbv zeta. cbn [p_startDate p_endDate].
  rewrite setUTCHours_midnight. split; [reflexivity|].
  unfold setUTCHours, setUTCDate_add.
  replace (Day startInput * msPerDay) with (MakeDate (Day startInput) 0)
    by (unfold MakeDate; ring).
  pose proof msPerDay_pos.
  rewrite TimeWithinDay_MakeDate, !Day_MakeDate by lia.
  unfold MakeDate. change (MakeTime 23 59 59 999) with (msPerDay - 1). ring.
Qed.

(** ** The generator loop *)

Section LoopFacts.

Variable tz : TimeZone.
Variable protocol : Protocol.
Variable profile : MicrodoseProfile.
Variables startDate endDate : Z.

(** More fuel does not change a result. *)
Lemma generate_loop_fuel_mono (fuel fuel' : nat) :
  (fuel <= fuel')%nat ->
  forall cur dc evs st r,
    generate_loop tz fuel protocol profile startDate endDate cur dc evs st
      = Some r ->
    generate_loop tz fuel' protocol profile startDate endDate cur dc evs st
      = Some r.
Proof.
  revert fuel'. induction fuel as [|fuel IH]; intros fuel' Hle cur dc evs st r.
  - discriminate.
  - destruct fuel' as [|fuel']; [lia|].
    simpl. destruct (cur <=? endDate); [|auto].
    apply IH. lia.
Qed.

(** Every row the loop appends is an [event_data] row: a property of all
    such rows holds of the whole result. *)
Lemma generate_loop_Forall (P : ProtocolEvent -> Prop) :
  (forall cur, P (event_data tz protocol profile startDate cur)) ->
  forall fuel cur dc evs st evs' st',
    Forall P evs ->
    generate_loop tz fuel protocol profile startDate endDate cur dc evs st
      = Some (evs', st') ->
    Forall P evs'.
Proof.
  intros HP fuel.
  induction fuel as [|fuel IH]; intros cur dc evs st evs' st' Hevs Hrun.
  - discriminate.
  - simpl in Hrun. destruct (cur <=? endDate).
    + eapply IH; [|exact Hrun].
      apply Forall_app. split; [exact Hevs|].
      constructor; [apply HP|constructor].
    + injection Hrun as <- <-. exact Hevs.
Qed.

(** When every step moves the date forward the loop ends. *)
Lemma generate_loop_terminates :
  zone_bounded tz ->
  forall (n : nat) cur dc evs st,
    endDate - cur < Z.of_nat n ->
    exists r,
      generate_loop tz (S n) protocol profile startDate endDate cur dc evs st
        = Some r.
Proof.
  intros Hz n.
  induction n as [|n IH]; intros cur dc evs st Hn.
  - simpl. destruct (cur <=? endDate) eqn:E; [|eauto].
    apply Z.leb_le in E. lia.
  - cbn [generate_loop]. destruct (cur <=? endDate) eqn:E; [|eauto].
    unfold prisma_create. apply IH.
    pose proof (setDate_next_bounded tz cur Hz). lia.
Qed.

End LoopFacts.

Lemma day_rows_succ (tz : TimeZone) (protocol : Protocol)
    (profile : MicrodoseProfile) (startDate first : Z) (n : nat) :
  day_rows tz protocol profile startDate first (S n) =
  event_data tz protocol profile startDate first
    :: day_rows tz protocol profile startDate (first + msPerDay) n.
Proof.
  unfold day_rows. cbn [seq map].
  rewrite <- seq_shift, map_map. f_equal.
  - f_equal. simpl. ring.
  - apply map_ext. intros k. f_equal. lia.
Qed.

Lemma day_rows_length (tz : TimeZone) (protocol : Protocol)
    (profile : MicrodoseProfile) (startDate first : Z) (n : nat) :
  length (day_rows tz protocol profile startDate first n) = n.
Proof. unfold day_rows. rewrite length_map, length_seq. reflexivity. Qed.

Lemma day_rows_lookup (tz : TimeZone) (protocol : Protocol)
    (profile : MicrodoseProfile) (startDate first : Z) (n k : nat) :
  (k < n)%nat ->
  day_rows tz protocol profile startDate first n !! k =
  Some (event_data tz protocol profile startDate
          (first + Z.of_nat k * msPerDay)).
Proof.
  intros Hk. unfold day_rows.
  change (map ?f ?l) with (f <$> l).
  rewrite list_lookup_fmap, lookup_seq_lt by exact Hk. reflexivity.
Qed.

(** In a zone of constant offset every step is exactly one day, and the
    loop produces one row per day until the end date is passed. *)
Lemma generate_loop_fixed (offset : Z) (protocol : Protocol)
    (profile : MicrodoseProfile) (startDate endDate : Z) (n : nat) :
  forall fuel cur dc evs st,
    (n < fuel)%nat ->
    endDate < cur + Z.of_nat n * msPerDay ->
    (n <> 0%nat -> cur + (Z.of_nat n - 1) * msPerDay <= endDate) ->
    generate_loop (fixed_zone offset) fuel protocol profile startDate endDate
      cur dc evs st =
    Some (evs ++ day_rows (fixed_zone offset) protocol profile startDate cur n,
          st ++ day_rows (fixed_zone offset) protocol profile startDate cur n).
Proof.
  pose proof msPerDay_pos as Hpos.
  induction n as [|n IH]; intros fuel cur dc evs st Hfuel Hend Hlast.
  - destruct fuel as [|fuel]; [lia|]. simpl.
    destruct (cur <=? endDate) eqn:E.
    + apply Z.leb_le in E. lia.
    + unfold day_rows. simpl. rewrite !app_nil_r. reflexivity.
  - destruct fuel as [|fuel]; [lia|]. cbn [generate_loop].
    assert (Hle : cur <= endDate) by (specialize (Hlast ltac:(lia)); nia).
    apply Z.leb_le in Hle. rewrite Hle.
    unfold prisma_create. rewrite setDate_next_fixed.
    rewrite IH; [| lia | lia | intros; specialize (Hlast ltac:(lia)); lia].
    rewrite day_rows_succ, <- !app_assoc. reflexivity.
Qed.

(** ** Runs in a zone of constant offset *)

Lemma generate_fixed_zone (offset : Z) (id type : string)
    (startInput c : Z) (settings : ProtocolSettings)
    (profile : MicrodoseProfile) (st : Store) (fuel : nat) :
  0 <= c ->
  (Z.to_nat (c * 7 + 1) < fuel)%nat ->
  generateProtocolEvents (fixed_zone offset) fuel
    (make_protocol id type startInput c settings) profile st =
  Some (day_rows (fixed_zone offset)
          (make_protocol id type startInput c settings) profile
          (Day startInput * msPerDay) (Day startInput * msPerDay)
          (Z.to_nat (c * 7 + 1)),
        st ++ day_rows (fixed_zone offset)
          (make_protocol id type startInput c settings) profile
          (Day startInput * msPerDay) (Day startInput * msPerDay)
          (Z.to_nat (c * 7 + 1))).
Proof.
  intros Hc Hfuel. unfold generateProtocolEvents. cbv zeta.
  destruct (make_protocol_dates id type startInput c settings) as [-> ->].
  pose proof msPerDay_pos as Hpos.
  rewrite (generate_loop_fixed offset _ profile _ _ (Z.to_nat (c * 7 + 1)));
    [reflexivity | exact Hfuel | | ].
  - rewrite Z2Nat.id by lia. lia.
  - intros _. rewrite Z2Nat.id by lia. lia.
Qed.

Lemma days_between_shift (s k : Z) : days_between (s + k * msPerDay) s = k.
Proof.
  unfold days_between.
  replace (s + k * msPerDay - s) with (k * msPerDay) by ring.
  apply Z.div_mul. pose proof msPerDay_pos. lia.
Qed.

Lemma existsb_Zeqb_In (x : Z) (l : list Z) :
  existsb (Z.eqb x) l = true <-> In x l.
Proof.
  rewrite existsb_exists. split.
  - intros (y & Hin & Heq). apply Z.eqb_eq in Heq. subst. exact Hin.
  - intros Hin. exists x. split; [exact Hin|apply Z.eqb_refl].
Qed.

Lemma event_type_dose (tz : TimeZone) (protocol : Protocol)
    (profile : MicrodoseProfile) (startDate cur : Z) :
  e_type (event_data tz protocol profile startDate cur) = "dose" <->
  is_dose_day tz protocol startDate cur = true.
Proof.
  unfold event_data. cbv zeta. cbn [e_type].
  destruct (is_dose_day tz protocol startDate cur); split;
    intros; try reflexivity; discriminate.
Qed.

Lemma event_type_cases (tz : TimeZone) (protocol : Protocol)
    (profile : MicrodoseProfile) (startDate cur : Z) :
  dose_fields_ok profile (event_data tz protocol profile startDate cur).
Proof.
  unfold dose_fields_ok, event_data. cbv zeta.
  cbn [e_type e_substance e_dose e_doseUnit].
  destruct (is_dose_day tz protocol startDate cur);
    (split; [auto|split; intros H; [auto|]]); try discriminate H; auto.
Qed.


(** The loop never dates a row before the start when every step moves
    forward: a property of the rows of such dates holds of the result. *)
Lemma generate_loop_Forall_from (tz : TimeZone) (protocol : Protocol)
    (profile : MicrodoseProfile) (startDate endDate : Z)
    (P : ProtocolEvent -> Prop) :
  zone_bounded tz ->
  (forall cur, startDate <= cur ->
     P (event_data tz protocol profile startDate cur)) ->
  forall fuel cur dc evs st evs' st',
    startDate <= cur ->
    Forall P evs ->
    generate_loop tz fuel protocol profile startDate endDate cur dc evs st
      = Some (evs', st') ->
    Forall P evs'.
Proof.
  intros Hz HP fuel.
  induction fuel as [|fuel IH]; intros cur dc evs st evs' st' Hcur Hevs Hrun.
  - discriminate.
  - simpl in Hrun. destruct (cur <=? endDate).
    + eapply IH; [| |exact Hrun].
      * pose proof (setDate_next_bounded tz cur Hz). lia.
      * apply Forall_app. split; [exact Hevs|].
        constructor; [apply HP; exact Hcur|constructor].
    + injection Hrun as <- <-. exact Hevs.
Qed.

(** In a zone whose steps move forward the generator returns, and what it
    returns does not depend on the fuel. *)
Lemma generate_returns (tz : TimeZone) (protocol : Protocol)
    (profile : MicrodoseProfile) (st : Store) :
  zone_bounded tz ->
  exists evs st',
    generateProtocolEvents tz
      (S (Z.to_nat (p_endDate protocol - p_startDate protocol + 1)))
      protocol profile st = Some (evs, st').
Proof.
  intros Hz.
  destruct (generate_loop_terminates tz protocol profile
              (p_startDate protocol) (p_endDate protocol) Hz
              (Z.to_nat (p_endDate protocol - p_startDate protocol + 1))
              (p_startDate protocol) 0 [] st) as ([evs st'] & Hrun).
  { lia. }
  exists evs, st'. exact Hrun.
Qed.

Lemma generate_deterministic (tz : TimeZone) (protocol : Protocol)
    (profile : MicrodoseProfile) (st : Store) (fuel1 fuel2 : nat) r1 r2 :
  generateProtocolEvents tz fuel1 protocol profile st = Some r1 ->
  generateProtocolEvents tz fuel2 protocol profile st = Some r2 ->
  r1 = r2.
Proof.
  unfold generateProtocolEvents. cbv zeta. intros H1 H2.
  apply (generate_loop_fuel_mono _ _ _ _ _ _ (Nat.max fuel1 fuel2)) in H1;
    [|lia].
  apply (generate_loop_fuel_mono _ _ _ _ _ _ (Nat.max fuel1 fuel2)) in H2;
    [|lia].
  congruence.
Qed.

(** The days of a run in a zone of constant offset: exactly
    [cycleLength * 7 + 1] rows, all appended to the store, the k-th dated
    k days after the start and carrying the weekday of its own date. *)
Lemma generate_fixed_zone_days (offset : Z) (id type : string)
    (startInput c : Z) (settings : ProtocolSettings)
    (profile : MicrodoseProfile) (st : Store) (fuel : nat)
    (evs : list ProtocolEvent) (st' : Store) :
  0 <= c ->
  generateProtocolEvents (fixed_zone offset) fuel
    (make_protocol id type startInput c settings) profile st
    = Some (evs, st') ->
  st' = st ++ evs /\
  Z.of_nat (length evs) = c * 7 + 1 /\
  forall k : nat, Z.of_nat k <= c * 7 ->
    exists e,
      evs !! k = Some e /\
      e_date e = p_startDate (make_protocol id type startInput c settings)
                 + Z.of_nat k * msPerDay /\
      daysSinceStart (e_metadata e) = Z.of_nat k /\
      dayOfWeek (e_metadata e) = getDay (fixed_zone offset) (e_date e).
Proof.
  intros Hc Hrun.
  pose proof (generate_fixed_zone offset id type startInput c settings
                profile st (S (Z.to_nat (c * 7 + 1))) Hc ltac:(lia)) as Hfix.
  pose proof (generate_deterministic _ _ _ _ _ _ _ _ Hrun Hfix) as [= -> ->].
  split; [reflexivity|].
  split; [rewrite day_rows_length, Z2Nat.id; lia|].
  intros k Hk. eexists. split; [apply day_rows_lookup; lia|].
  destruct (make_protocol_dates id type startInput c settings) as [-> _].
  assert (Hdate : setUTCHours (Day startInput * msPerDay
                               + Z.of_nat k * msPerDay) 0 0 0 0
                  = Day startInput * msPerDay + Z.of_nat k * msPerDay).
  { rewrite setUTCHours_midnight, Day_shift. ring. }
  split; [exact Hdate|].
  split; [apply days_between_shift|].
  cbn [e_metadata dayOfWeek e_date event_data]. rewrite Hdate. reflexivity.
Qed.

Lemma days_between_midnight (cur d0 : Z) :
  d0 * msPerDay <= cur ->
  days_between (setUTCHours cur 0 0 0 0) (d0 * msPerDay)
    = days_between cur (d0 * msPerDay) /\
  0 <= days_between cur (d0 * msPerDay).
Proof.
  intros Hle. pose proof msPerDay_pos as Hpos.
  rewrite setUTCHours_midnight. unfold days_between, Day.
  replace (cur / msPerDay * msPerDay - d0 * msPerDay)
    with ((cur / msPerDay - d0) * msPerDay) by ring.
  replace (cur - d0 * msPerDay) with (cur + (- d0) * msPerDay) by ring.
  rewrite Z.div_mul, Z.div_add by lia.
  split; [ring|].
  assert (d0 <= cur / msPerDay) by (apply Z.div_le_lower_bound; lia).
  lia.
Qed.

(** A row of a protocol that starts at a midnight obeys the rule of the
    protocol type, provided that for a custom protocol the local weekday
    of the loop instant is the weekday of the date of the row. *)
Lemma event_data_rule (tz : TimeZone) (protocol : Protocol)
    (profile : MicrodoseProfile) (d0 cur : Z) :
  d0 * msPerDay <= cur ->
  (p_type protocol = "custom" ->
   getDay tz cur = WeekDay (setUTCHours cur 0 0 0 0)) ->
  rule_holds (p_type protocol) (p_settings protocol) (d0 * msPerDay)
    (event_data tz protocol profile (d0 * msPerDay) cur).
Proof.
  intros Hle Hwd. unfold rule_holds. cbv zeta.
  destruct (days_between_midnight cur d0 Hle) as [Hd Hnn].
  destruct (event_type_cases tz protocol profile (d0 * msPerDay) cur)
    as [Hcases _].
  split; [exact Hcases|].
  rewrite event_type_dose.
  cbn [e_date e_metadata daysSinceStart dayOfWeek event_data].
  rewrite Hd.
  split; [exact Hnn|]. split; [reflexivity|].
  unfold is_dose_day. cbv zeta.
  split; [|split].
  - intros ->. change (String.eqb "fadiman" "fadiman") with true. cbv iota.
    rewrite Z.eqb_eq, Z.rem_mod_nonneg by lia. reflexivity.
  - intros ->. change (String.eqb "stamets" "fadiman") with false.
    change (String.eqb "stamets" "stamets") with true. cbv iota.
    rewrite Z.ltb_lt, Z.rem_mod_nonneg by lia. reflexivity.
  - intros Htype. rewrite (Hwd Htype). rewrite Htype.
    change (String.eqb "custom" "fadiman") with false.
    change (String.eqb "custom" "stamets") with false.
    change (String.eqb "custom" "custom") with true. cbv iota. split.
    + intros H.
      destruct (custom (p_settings protocol)) as [cs|]; [|discriminate H].
      destruct (doseDays cs) as [days|] eqn:Ed; [|discriminate H].
      exists cs, days. apply existsb_Zeqb_In in H. auto.
    + intros (cs & days & -> & -> & Hin).
      apply existsb_Zeqb_In. exact Hin.
Qed.

(** In a zone of constant offset from UTC up to a day ahead of it, the
    local weekday of a midnight UTC is the weekday of its date. *)
Lemma getDay_fixed_east (offset d k : Z) :
  0 <= offset < msPerDay ->
  getDay (fixed_zone offset) (d * msPerDay + k * msPerDay)
  = WeekDay (setUTCHours (d * msPerDay + k * msPerDay) 0 0 0 0).
Proof.
  intros Ho. pose proof msPerDay_pos as Hpos.
  unfold getDay, LocalTime, WeekDay. cbn [LocalTZA_utc fixed_zone].
  rewrite setUTCHours_midnight, Day_shift.
  f_equal. f_equal. unfold Day.
  replace (d * msPerDay + k * msPerDay + offset)
    with (offset + (d + k) * msPerDay) by ring.
  rewrite Z.div_add by lia. rewrite (Z.div_small offset) by lia.
  replace ((d + k) * msPerDay) with (0 + (d + k) * msPerDay) by ring.
  rewrite Z.div_add by lia. reflexivity.
Qed.

(** ** The schedule *)

(** C2, at a failing input.  In a process whose zone moves its clocks
    forward inside the range (Europe/Berlin, two-week Fadiman protocol
    starting Monday 25 March 2024, 00:00 UTC), the loop steps by local
    calendar days while the rows are dated by UTC midnight: it returns 16
    events instead of 15, and the seventh and eighth are both dated
    31 March 2024 and both dose days. *)
Theorem generate_dst_duplicate_day :
  exists evs st',
    generateProtocolEvents europe_berlin_2024 100
      (make_protocol "p1" "fadiman" 1711324800000 2 {| custom := None |})
      {| mp_substance := "psilocybin"; mp_calculatedDose := Fin 200;
         mp_doseUnit := "mg" |} [] = Some (evs, st') /\
    length evs = 16%nat /\
    e_date <$> evs !! 6%nat = Some (1711324800000 + 6 * msPerDay) /\
    e_date <$> evs !! 7%nat = Some (1711324800000 + 6 * msPerDay) /\
    e_type <$> evs !! 6%nat = Some "dose" /\
    e_type <$> evs !! 7%nat = Some "dose" /\
    e_date <$> evs !! 15%nat = Some (1711324800000 + 14 * msPerDay).
Proof.
  do 2 eexists. split; [vm_compute; reflexivity|].
  repeat split.
Qed.

(** C3, at a failing input.  A custom protocol with the dose days Monday,
    Wednesday and Friday, starting Monday 25 March 2024, 00:00 UTC, in a
    process five hours west of UTC (America/Bogota): the weekday comes
    from the local [getDay] of the loop instant, which is still Sunday,
    while the row is dated by its UTC day.  The row dated Monday 25 March
    records weekday 0 and is a pause, the row dated Tuesday 26 March
    records weekday 1 and is a dose: the rule of the custom type does not
    hold of either. *)
Theorem custom_weekday_west_of_utc :
  exists evs st' e0 e1,
    generateProtocolEvents (fixed_zone (-18000000)) 100
      (make_protocol "p1" "custom" 1711324800000 2
         {| custom := Some {| doseDays := Some [1; 3; 5];
                              customName := None |} |})
      {| mp_substance := "lsd"; mp_calculatedDose := Fin (5 # 2);
         mp_doseUnit := "ug" |} [] = Some (evs, st') /\
    length evs = 15%nat /\
    evs !! 0%nat = Some e0 /\ evs !! 1%nat = Some e1 /\
    e_date e0 = 1711324800000 /\ WeekDay (e_date e0) = 1 /\
    dayOfWeek (e_metadata e0) = 0 /\ e_type e0 = "pause" /\
    e_date e1 = 1711324800000 + msPerDay /\ WeekDay (e_date e1) = 2 /\
    dayOfWeek (e_metadata e1) = 1 /\ e_type e1 = "dose" /\
    ~ rule_holds "custom"
        {| custom := Some {| doseDays := Some [1; 3; 5];
                             customName := None |} |}
        1711324800000 e0 /\
    ~ rule_holds "custom"
        {| custom := Some {| doseDays := Some [1; 3; 5];
                             customName := None |} |}
        1711324800000 e1.
Proof.
  do 4 eexists. split; [vm_compute; reflexivity|].
  do 11 (split; [reflexivity|]).
  split.
  - intros (_ & _ & _ & _ & _ & H). destruct (H eq_refl) as [_ H2].
    cbn [e_type] in H2.
    assert (Hd : "pause" = "dose"); [|discriminate Hd].
    apply H2. eexists _, [1; 3; 5]. split; [reflexivity|].
    split; [reflexivity|]. left. reflexivity.
  - intros (_ & _ & _ & _ & _ & H). destruct (H eq_refl) as [H1 _].
    destruct (H1 eq_refl) as (cs & days & [= <-] & [= <-] & Hin).
    vm_compute in Hin. decompose [or] Hin; try discriminate; assumption.
Qed.

(** C8.  In every process zone whose offsets stay within a window narrower
    than a day the generator returns, the list it returns does not depend
    on the fuel, and in that list every dose event carries the substance,
    dose and dose unit of the supplied profile while every pause event has
    the three fields empty. *)
Theorem dose_fields_copied (tz : TimeZone) (protocol : Protocol)
    (profile : MicrodoseProfile) (st : Store) :
  zone_bounded tz ->
  exists fuel evs st',
    generateProtocolEvents tz fuel protocol profile st = Some (evs, st') /\
    Forall (dose_fields_ok profile) evs /\
    forall fuel2 evs2 st2,
      generateProtocolEvents tz fuel2 protocol profile st = Some (evs2, st2) ->
      evs2 = evs.
Proof.
  intros Hz.
  destruct (generate_returns tz protocol profile st Hz)
    as (evs & st' & Hrun).
  eexists. exists evs, st'. split; [exact Hrun|]. split.
  - eapply generate_loop_Forall; [|constructor|exact Hrun].
    intros cur. apply event_type_cases.
  - intros fuel2 evs2 st2 Hrun2.
    pose proof (generate_deterministic _ _ _ _ _ _ _ _ Hrun2 Hrun) as [= -> _].
    reflexivity.
Qed.

Lemma dose_fields_copied_witness :
  exists fuel evs st',
    generateProtocolEvents utc_zone fuel
      (make_protocol "p1" "stamets" 1711324800000 2 {| custom := None |})
      {| mp_substance := "psilocybin"; mp_calculatedDose := Fin 200;
         mp_doseUnit := "mg" |} [] = Some (evs, st') /\
    Forall (dose_fields_ok
              {| mp_substance := "psilocybin"; mp_calculatedDose := Fin 200;
                 mp_doseUnit := "mg" |}) evs /\
    forall fuel2 evs2 st2,
      generateProtocolEvents utc_zone fuel2
        (make_protocol "p1" "stamets" 1711324800000 2 {| custom := None |})
        {| mp_substance := "psilocybin"; mp_calculatedDose := Fin 200;
           mp_doseUnit := "mg" |} [] = Some (evs2, st2) ->
      evs2 = evs.
Proof.
  apply (dose_fields_copied utc_zone
           (make_protocol "p1" "stamets" 1711324800000 2 {| custom := None |})
           {| mp_substance := "psilocybin"; mp_calculatedDose := Fin 200;
              mp_doseUnit := "mg" |} []).
  exists 0, 0. split; [reflexivity|]. intros t. simpl. lia.
Defined.


(** ** Concrete runs *)

Example calculate_reference_person :
  exists r,
    calculate {| gender := "male"; weight := Fin 70;
                 substance := "psilocybin"; intakeForm := "dried_mushrooms";
                 sensitivity := Fin 1; goal := "standard";
                 experience := Some "beginner";
                 currentMedication := None |} = Normal r /\
    calculatedDose r = Fin 200 /\ doseUnit r = Some mg /\
    length (recommendations r) = 7%nat.
Proof. eexists. split; [vm_compute; reflexivity|]. repeat split. Qed.

Example calculate_light_lsd :
  exists r,
    calculate {| gender := "female"; weight := Fin 35; substance := "lsd";
                 intakeForm := "blotter"; sensitivity := Fin 1;
                 goal := "sub_perceptual"; experience := None;
                 currentMedication := None |} = Normal r /\
    calculatedDose r = Fin (5 # 2) /\ doseUnit r = Some ug.
Proof. eexists. split; [vm_compute; reflexivity|]. split; reflexivity. Qed.

Example calculate_unknown_substance :
  calculate {| gender := "male"; weight := Fin 70; substance := "caffeine";
               intakeForm := "capsules"; sensitivity := Fin 1;
               goal := "standard"; experience := None;
               currentMedication := None |} = TypeError.
Proof. reflexivity. Qed.

Example calculate_goal_heroic :
  calculate {| gender := "male"; weight := Fin 70; substance := "ketamine";
               intakeForm := "liquid"; sensitivity := Fin 1;
               goal := "heroic"; experience := None;
               currentMedication := None |} = TypeError.
Proof. vm_compute. reflexivity. Qed.

Example calculate_constructor_form :
  calculate {| gender := "male"; weight := Fin 70; substance := "ketamine";
               intakeForm := "constructor"; sensitivity := Fin 1;
               goal := "standard"; experience := None;
               currentMedication := None |} = TypeError.
Proof. vm_compute. reflexivity. Qed.

(** The literal 0.3 is the double just below three tenths; it passes the
    sensitivity check. *)
Example validate_sensitivity_literal :
  validateParams {| gender := "male"; weight := Fin 30;
                    substance := "ketamine"; intakeForm := "liquid";
                    sensitivity := literal (3 # 10); goal := "standard";
                    experience := None; currentMedication := None |}
  = {| isValid := true; errors := [] |}.
Proof. vm_compute. reflexivity. Qed.

Example validate_weight_250 :
  validateParams {| gender := "male"; weight := Fin 250;
                    substance := "psilocybin";
                    intakeForm := "dried_mushrooms"; sensitivity := Fin 1;
                    goal := "standard"; experience := None;
                    currentMedication := None |}
  = {| isValid := false; errors := [msg_weight] |}.
Proof. reflexivity. Qed.

(** 25 March 2024 was a Monday. *)
Example weekday_of_2024_03_25 : getDay utc_zone 1711324800000 = 1.
Proof. reflexivity. Qed.

Example fadiman_two_weeks_utc :
  exists evs st',
    generateProtocolEvents utc_zone 100
      (make_protocol "p1" "fadiman" 1711324800000 2 {| custom := None |})
      {| mp_substance := "psilocybin"; mp_calculatedDose := Fin 200;
         mp_doseUnit := "mg" |} [] = Some (evs, st') /\
    map e_type evs =
      ["dose"; "pause"; "pause"; "dose"; "pause"; "pause"; "dose"; "pause";
       "pause"; "dose"; "pause"; "pause"; "dose"; "pause"; "pause"].
Proof. do 2 eexists. split; [vm_compute; reflexivity|]. reflexivity. Qed.

Example custom_mon_wed_fri_utc :
  exists evs st',
    generateProtocolEvents utc_zone 100
      (make_protocol "p1" "custom" 1711324800000 2
         {| custom := Some {| doseDays := Some [5; 1; 3];
                              customName := None |} |})
      {| mp_substance := "psilocybin"; mp_calculatedDose := Fin 200;
         mp_doseUnit := "mg" |} [] = Some (evs, st') /\
    map (fun e => (dayOfWeek (e_metadata e), e_type e)) evs =
      [(1, "dose"); (2, "pause"); (3, "dose"); (4, "pause"); (5, "dose");
       (6, "pause"); (0, "pause"); (1, "dose"); (2, "pause"); (3, "dose");
       (4, "pause"); (5, "dose"); (6, "pause"); (0, "pause"); (1, "dose")].
Proof. do 2 eexists. split; [vm_compute; reflexivity|]. reflexivity. Qed.

(** * Further properties of the calculator *)

Lemma validateParams_valid_inv (params : MicrodoseCalculationParams) :
  isValid (validateParams params) = true ->
  gender_in_domain params /\ weight_in_domain params /\
  substance_in_domain params /\ intakeForm_present params /\
  sensitivity_in_domain params /\ goal_in_domain params.
Proof.
  pose proof (enum_check ["male"; "female"; "other"] (gender params)
                ltac:(not_in_literals)) as G.
  pose proof (range_check (weight params) 30 200 ltac:(reflexivity)) as W.
  pose proof (enum_check ["psilocybin"; "lsd"; "amanita"; "ketamine"]
                (substance params) ltac:(not_in_literals)) as S.
  pose proof (presence_check (intakeForm params)) as I.
  pose proof (range_check (sensitivity params) sensitivity_floor 2
                ltac:(reflexivity)) as N.
  rewrite <- sensitivity_literal in N.
  pose proof (enum_check ["sub_perceptual"; "standard"; "upper_microdose"]
                (goal params) ltac:(not_in_literals)) as L.
  unfold gender_in_domain, weight_in_domain, substance_in_domain,
    intakeForm_present, sensitivity_in_domain, goal_in_domain.
  unfold validateParams. cbv zeta.
  destruct (negb (str_truthy (gender params)) || _);
  destruct (negb (num_truthy (weight params)) || _ || _);
  destruct (negb (str_truthy (substance params)) || _);
  destruct (negb (str_truthy (intakeForm params)));
  destruct (negb (num_truthy (sensitivity params)) || _ || _);
  destruct (negb (str_truthy (goal params)) || _);
  cbn [push_if app errors isValid length Nat.eqb];
  intros H; try discriminate H; auto 10.
Qed.

Lemma substance_lookup_Some (s : string) :
  In s ["psilocybin"; "lsd"; "amanita"; "ketamine"] <->
  exists sd, SUBSTANCE_BASE_DOSES !! s = Some sd.
Proof.
  split.
  - simpl. intros [<-|[<-|[<-|[<-|[]]]]]; eexists; reflexivity.
  - intros (sd & Hsd).
    destruct (substance_lookup_inv _ _ Hsd)
      as [(-> & _)|[(-> & _)|[(-> & _)|(-> & _)]]]; simpl; auto.
Qed.

Lemma goal_lookup_Some (g : string) :
  In g ["sub_perceptual"; "standard"; "upper_microdose"] <->
  exists q, GOAL_FACTORS !! g = Some q.
Proof.
  split.
  - simpl. intros [<-|[<-|[<-|[]]]]; eexists; reflexivity.
  - intros (q & Hq).
    destruct (goal_lookup_inv _ _ Hq) as [(-> & _)|[(-> & _)|(-> & _)]];
      simpl; auto.
Qed.

Lemma goal_factor_range (name : string) (g : Q) :
  GOAL_FACTORS !! name = Some g -> (2 ^ (-1) <= g)%Q /\ (g <= 2 ^ 1)%Q.
Proof.
  intros Hg.
  destruct (goal_lookup_inv _ _ Hg) as [(_ & ->)|[(_ & ->)|(_ & ->)]];
    split; vm_compute; discriminate.
Qed.

(** An intake form named like a member of [Object.prototype] makes
    [calculate] throw, whatever the other parameters are. *)
Lemma calculate_prototype_form (params : MicrodoseCalculationParams) :
  In (intakeForm params) Object_prototype_names ->
  calculate params = TypeError.
Proof.
  intros H. unfold calculate. cbv zeta.
  rewrite (intake_form_factor_inherited _ H).
  unfold generateExplanation, toFixed, bind.
  destruct (get SUBSTANCE_BASE_DOSES (substance params));
    destruct (value_of (get GOAL_FACTORS (goal params))); reflexivity.
Qed.

(** On the validated ranges [calculate] returns a finite dose that is not
    negative. *)
Lemma calculate_valid (params : MicrodoseCalculationParams)
    (sd : SubstanceData) (g w s : Q) :
  SUBSTANCE_BASE_DOSES !! substance params = Some sd ->
  GOAL_FACTORS !! goal params = Some g ->
  ~ In (intakeForm params) Object_prototype_names ->
  weight params = Fin w -> (30 <= w)%Q -> (w <= 200)%Q ->
  sensitivity params = Fin s -> (sensitivity_floor <= s)%Q -> (s <= 2)%Q ->
  exists r d,
    calculate params = Normal r /\
    doseUnit r = Some (sd_unit sd) /\
    calculatedDose r = Fin d /\ (0 <= d)%Q.
Proof.
  intros Hs Hg Hf Ew Hw1 Hw2 Es Hs1 Hs2.
  destruct (calculate_returns params sd g Hs Hg Hf)
    as (r & f & Hr & Hlf & _ & Hu & Hw & _ & _ & _ & Hd & _).
  destruct (literal_base _ _ Hs) as (_ & Hb1 & Hb2).
  destruct (intake_form_factor_table _ Hf)
    as (f' & _ & Hlf' & Hf1 & Hf2 & _).
  rewrite Hlf in Hlf'. injection Hlf' as <-.
  destruct (goal_factor_range _ _ Hg) as [Hg1 Hg2].
  destruct (valid_product (sd_baseDose sd) w s g f f
              Hb1 Hb2 Hw1 Hw2 Hs1 Hs2 Hg1 Hg2 Hf1 Hf2)
    as (wf & p & Ewf & Ep & Hp1 & Hp2 & _).
  { setoid_replace (f - f)%Q with 0%Q using relation Qeq by ring.
    vm_compute. discriminate. }
  { pose proof (pow2_pos (-7)). lra. }
  { exact Hf2. }
  destruct (round_dose_steps (substance params) p Hp1 Hp2)
    as (d & Erd & Ed & _ & Hd0 & _).
  exists r, d. split; [exact Hr|]. split; [exact Hu|].
  split; [|exact Hd0].
  rewrite Hd, Hw, Ew, Ewf, Es, Ep, Erd. exact Ed.
Qed.

(** Parameters that [validateParams] accepts, with an intake form that
    is no member of [Object.prototype]. *)
Lemma valid_params_dose (params : MicrodoseCalculationParams) :
  isValid (validateParams params) = true ->
  ~ In (intakeForm params) Object_prototype_names ->
  exists r unit d,
    calculate params = Normal r /\
    doseUnit r = Some unit /\
    calculatedDose r = Fin d /\ (0 <= d)%Q.
Proof.
  intros Hv Hf.
  destruct (validateParams_valid_inv params Hv)
    as (_ & (w & Hw & Hw1 & Hw2) & Hs & _ & (s & Hsn & Hs1 & Hs2) & Hg).
  apply substance_lookup_Some in Hs as (sd & Hsd).
  apply goal_lookup_Some in Hg as (g & Hg).
  destruct (calculate_valid params sd g w s Hsd Hg Hf Hw Hw1 Hw2
              Hsn Hs1 Hs2) as (r & d & Hr & Hu & Hd & Hd0).
  exists r, (sd_unit sd), d. auto.
Qed.

(** X1.  Parameters that [validateParams] accepts make [calculate] throw
    exactly when the intake form is named like a member of
    [Object.prototype] ("constructor", "toString", "__proto__", ...); for
    every other intake form it returns a result whose unit is set and
    whose dose is a finite number that is not negative. *)
Theorem validated_params_calculate (params : MicrodoseCalculationParams) :
  isValid (validateParams params) = true ->
  (calculate params = TypeError <->
   In (intakeForm params) Object_prototype_names) /\
  (~ In (intakeForm params) Object_prototype_names ->
   exists r unit d,
     calculate params = Normal r /\
     doseUnit r = Some unit /\
     calculatedDose r = Fin d /\
     (0 <= d)%Q).
Proof.
  intros Hv.
  split; [|apply valid_params_dose; exact Hv]. split.
  - intros Ht.
    destruct (includes Object_prototype_names (intakeForm params)) eqn:E.
    + apply includes_In. exact E.
    + destruct (valid_params_dose params Hv) as (r & _ & _ & Hr & _).
      * intros Hin. apply includes_In in Hin. congruence.
      * congruence.
  - apply calculate_prototype_form.
Qed.

Lemma validated_params_calculate_witness :
  exists r unit d,
    calculate {| gender := "other"; weight := Fin 62; substance := "amanita";
                 intakeForm := "capsules"; sensitivity := Fin (4 # 5);
                 goal := "upper_microdose"; experience := None;
                 currentMedication := Some "" |} = Normal r /\
    doseUnit r = Some unit /\
    calculatedDose r = Fin d /\
    (0 <= d)%Q.
Proof.
  assert (Hv : isValid (validateParams
                 {| gender := "other"; weight := Fin 62;
                    substance := "amanita"; intakeForm := "capsules";
                    sensitivity := Fin (4 # 5); goal := "upper_microdose";
                    experience := None; currentMedication := Some "" |})
               = true) by (vm_compute; reflexivity).
  destruct (validated_params_calculate _ Hv) as [_ H].
  apply H. not_in_literals.
Defined.

(** X2.  [calculate] throws its TypeError in exactly three cases: the
    substance is neither a key of the substance table nor the name of a
    member of [Object.prototype] (the read gives [undefined], whose
    [baseDose] cannot be read); the goal is no key of the goal table
    ([goalFactor.toFixed] is no function); or the intake form is the name
    of a member of [Object.prototype] ([intakeFormFactor.toFixed] is no
    function). *)
Theorem calculate_throws_iff (params : MicrodoseCalculationParams) :
  calculate params = TypeError <->
  (SUBSTANCE_BASE_DOSES !! substance params = None /\
   ~ In (substance params) Object_prototype_names) \/
  GOAL_FACTORS !! goal params = None \/
  In (intakeForm params) Object_prototype_names.
Proof.
  assert (Hgoal : (forall n, value_of (get GOAL_FACTORS (goal params))
                             <> Num n)
                  <-> GOAL_FACTORS !! goal params = None).
  { unfold get. destruct (GOAL_FACTORS !! goal params) as [g|].
    - cbn [value_of]. split; [|discriminate]. intros H.
      destruct (H (literal g)). reflexivity.
    - split; [reflexivity|]. intros _ n.
      destruct (includes Object_prototype_names (goal params));
        cbn [value_of]; discriminate. }
  assert (Hform : (forall n, intake_form_factor_of (intakeForm params)
                             <> Num n)
                  <-> In (intakeForm params) Object_prototype_names).
  { split.
    - intros H.
      destruct (includes Object_prototype_names (intakeForm params)) eqn:E.
      + apply includes_In. exact E.
      + destruct (intake_form_factor_table (intakeForm params))
          as (f & Hf & _).
        * intros Hin. apply includes_In in Hin. congruence.
        * destruct (H _ Hf).
    - intros H n. rewrite (intake_form_factor_inherited _ H). discriminate. }
  assert (Hbind : forall (c : completion (list piece))
                    (k : list piece -> MicrodoseCalculationResult),
             bind c (fun e => Normal (k e)) = TypeError <-> c = TypeError).
  { intros [e|] k; cbn; split; congruence. }
  unfold calculate. cbv zeta.
  destruct (get SUBSTANCE_BASE_DOSES (substance params)) as [sd| |] eqn:E.
  - rewrite Hbind, generateExplanation_throws, Hgoal, Hform.
    apply get_Own in E. split; [tauto|].
    intros [[H _]|H]; [congruence|tauto].
  - rewrite Hbind, generateExplanation_throws, Hgoal, Hform.
    apply get_Inherited in E. tauto.
  - apply get_Missing in E. tauto.
Qed.

Lemma num_mul_NaN_l (b : number) : num_mul NaN b = NaN.
Proof. destruct b; reflexivity. Qed.

(** X3.  A substance named like a member of [Object.prototype] does not
    make [calculate] throw: with a goal of the table and an ordinary
    intake form it returns a result without base dose and without unit,
    whose dose is NaN. *)
Theorem calculate_inherited_substance (params : MicrodoseCalculationParams)
    (g : Q) :
  In (substance params) Object_prototype_names ->
  GOAL_FACTORS !! goal params = Some g ->
  ~ In (intakeForm params) Object_prototype_names ->
  exists r,
    calculate params = Normal r /\
    baseDose r = undefined /\ doseUnit r = None /\
    calculatedDose r = NaN /\
    goalFactor r = Num (Fin g).
Proof.
  intros Hs Hg Hf.
  destruct (prototype_name_no_key _ Hs) as (Hnone & _).
  assert (E : get SUBSTANCE_BASE_DOSES (substance params) = Inherited).
  { apply get_Inherited. auto. }
  destruct (intake_form_factor_table _ Hf) as (f & Hif & _).
  pose proof (literal_goal _ _ Hg) as Hlg.
  assert (Hlsd : String.eqb (substance params) "lsd" = false).
  { apply String.eqb_neq. intros Heq. rewrite Heq in Hs. revert Hs.
    not_in_literals. }
  unfold calculate. cbv zeta. rewrite E.
  rewrite (proj2 (get_Own _ _ _) Hg). cbn [value_of]. rewrite Hlg, Hif.
  unfold generateExplanation, toFixed, bind.
  eexists. split; [reflexivity|].
  cbn [baseDose doseUnit calculatedDose goalFactor].
  split; [reflexivity|]. split; [reflexivity|]. split; [|reflexivity].
  unfold dose_product, round_dose. cbn [to_number].
  rewrite !num_mul_NaN_l, Hlsd. reflexivity.
Qed.

Lemma calculate_inherited_substance_witness :
  exists r,
    calculate {| gender := "male"; weight := Fin 70;
                 substance := "constructor"; intakeForm := "liquid";
                 sensitivity := Fin 1; goal := "standard";
                 experience := None; currentMedication := None |}
      = Normal r /\
    baseDose r = undefined /\ doseUnit r = None /\
    calculatedDose r = NaN /\
    goalFactor r = Num (Fin 1).
Proof.
  apply (calculate_inherited_substance
           {| gender := "male"; weight := Fin 70;
              substance := "constructor"; intakeForm := "liquid";
              sensitivity := Fin 1; goal := "standard";
              experience := None; currentMedication := None |} 1%Q).
  - left. reflexivity.
  - reflexivity.
  - not_in_literals.
Defined.

Section Monotone.

Local Open Scope Q_scope.

(** The rounding of the dose keeps the order of non-negative products. *)
Lemma round_dose_mono (sub : string) (p1 p2 : Q) :
  0 <= p1 -> p1 <= p2 -> p2 <= 2 ^ 1007 ->
  exists d1 d2,
    round_dose sub (Fin p1) = Fin d1 /\ round_dose sub (Fin p2) = Fin d2 /\
    0 <= d1 /\ d1 <= d2.
Proof.
  intros H0 H12 H2. unfold round_dose.
  assert (Hfl : forall x y : Q, 0 <= x -> x <= y ->
            0 <= inject_Z (Qfloor (x + (1 # 2))) /\
            inject_Z (Qfloor (x + (1 # 2)))
              <= inject_Z (Qfloor (y + (1 # 2)))).
  { intros x y Hx Hxy. split.
    - change 0 with (inject_Z 0). rewrite <- Zle_Qle.
      apply round_nonneg. exact Hx.
    - rewrite <- Zle_Qle. apply Qfloor_resp_le. lra. }
  destruct (String.eqb sub "lsd").
  - change (literal 10) with (Fin 10).
    assert (T2 : 10 <= 2 ^ 4) by (vm_compute; discriminate).
    destruct (num_mul_mono p1 p2 10 10 1007 4 ltac:(lia) ltac:(lia)
                H0 H12 H2 ltac:(lra) ltac:(lra) T2)
      as (y1 & y2 & E1 & E2 & Y0 & Y12 & Y2).
    rewrite E1, E2. cbn [Math_round num_div].
    change (Qeq_bool 10 0) with false. cbv iota.
    destruct (Hfl y1 y2 Y0 Y12) as [N0 N12].
    assert (N2 : inject_Z (Qfloor (y2 + (1 # 2))) <= 2 ^ (1007 + 4)).
    { rewrite <- (pow2_inject (1007 + 4)) by lia. rewrite <- Zle_Qle.
      apply round_le_pow2; [lia|exact Y2]. }
    destruct (binary64_mono (inject_Z (Qfloor (y1 + (1 # 2))) / 10)
                (inject_Z (Qfloor (y2 + (1 # 2))) / 10) (1007 + 4)
                ltac:(lia) ltac:(lia))
      as (d1 & d2 & D1 & D2 & A & B & _).
    + unfold Qdiv. change (/ 10) with (1 # 10). lra.
    + unfold Qdiv. change (/ 10) with (1 # 10). lra.
    + pose proof (pow2_pos (1007 + 4)).
      unfold Qdiv. change (/ 10) with (1 # 10). lra.
    + exists d1, d2. auto.
  - cbn [Math_round]. do 2 eexists.
    split; [reflexivity|]. split; [reflexivity|]. apply Hfl; assumption.
Qed.

(** The product of the factors keeps the order of non-negative weights
    and sensitivities. *)
Lemma product_mono (base w1 w2 s1 s2 g f : Q) :
  2 ^ 3 <= base -> base <= 2 ^ 8 ->
  2 ^ (-1) <= g -> g <= 2 ^ 1 -> 2 ^ (-7) <= f -> f <= 2 ^ 4 ->
  0 <= w1 -> w1 <= w2 -> w2 <= 2 ^ 500 ->
  0 <= s1 -> s1 <= s2 -> s2 <= 2 ^ 500 ->
  exists p1 p2,
    num_mul (num_mul (num_mul (num_mul (Fin base)
      (num_div (Fin w1) (Fin 70))) (Fin s1)) (Fin g)) (Fin f) = Fin p1 /\
    num_mul (num_mul (num_mul (num_mul (Fin base)
      (num_div (Fin w2) (Fin 70))) (Fin s2)) (Fin g)) (Fin f) = Fin p2 /\
    0 <= p1 /\ p1 <= p2 /\ p2 <= 2 ^ 1007.
Proof.
  intros Hb1 Hb2 Hg1 Hg2 Hf1 Hf2 Hw0 Hw Hw2 Hs0 Hs Hs2.
  pose proof (pow2_pos 3) as P3. pose proof (pow2_pos (-1)) as Pg.
  pose proof (pow2_pos (-7)) as Pf.
  cbn [num_div]. change (Qeq_bool 70 0) with false. cbv iota.
  destruct (binary64_mono (w1 / 70) (w2 / 70) 494 ltac:(lia) ltac:(lia))
    as (a1 & a2 & A1 & A2 & A0 & A12 & Ab).
  { unfold Qdiv. change (/ 70) with (1 # 70). lra. }
  { unfold Qdiv. change (/ 70) with (1 # 70). lra. }
  { apply (Qle_trans _ (2 ^ 500 / 70)).
    - unfold Qdiv. change (/ 70) with (1 # 70). lra.
    - vm_compute. discriminate. }
  rewrite A1, A2.
  destruct (num_mul_mono base base a1 a2 8 494 ltac:(lia) ltac:(lia)
              ltac:(lra) ltac:(lra) Hb2 A0 A12 Ab)
    as (b1 & b2 & B1 & B2 & B0 & B12 & Bb).
  rewrite B1, B2.
  destruct (num_mul_mono b1 b2 s1 s2 (8 + 494) 500 ltac:(lia) ltac:(lia)
              B0 B12 Bb Hs0 Hs Hs2)
    as (c1 & c2 & C1 & C2 & C0 & C12 & Cb).
  rewrite C1, C2.
  destruct (num_mul_mono c1 c2 g g (8 + 494 + 500) 1 ltac:(lia) ltac:(lia)
              C0 C12 Cb ltac:(lra) ltac:(lra) Hg2)
    as (e1 & e2 & E1 & E2 & E0 & E12 & Eb).
  rewrite E1, E2.
  destruct (num_mul_mono e1 e2 f f (8 + 494 + 500 + 1) 4 ltac:(lia)
              ltac:(lia) E0 E12 Eb ltac:(lra) ltac:(lra) Hf2)
    as (p1 & p2 & P1 & P2 & P0 & P12 & Pb).
  exists p1, p2. auto.
Qed.

End Monotone.

(** X4.  The dose never decreases when the weight or the sensitivity
    grows: for two parameter sets with the same substance and goal of the
    tables and the same intake form, no member of [Object.prototype], and
    with weights and sensitivities between 0 and 2^500, the two results
    differ in the weight factor and the sensitivity factor only, and the
    one with the larger weight and sensitivity gets a dose at least as
    large. *)
Theorem dose_monotone_weight_sensitivity
    (p1 p2 : MicrodoseCalculationParams) (sd : SubstanceData)
    (w1 w2 s1 s2 g : Q) :
  substance p2 = substance p1 ->
  intakeForm p2 = intakeForm p1 ->
  goal p2 = goal p1 ->
  SUBSTANCE_BASE_DOSES !! substance p1 = Some sd ->
  GOAL_FACTORS !! goal p1 = Some g ->
  ~ In (intakeForm p1) Object_prototype_names ->
  weight p1 = Fin w1 -> weight p2 = Fin w2 ->
  sensitivity p1 = Fin s1 -> sensitivity p2 = Fin s2 ->
  (0 <= w1)%Q -> (w1 <= w2)%Q -> (w2 <= 2 ^ 500)%Q ->
  (0 <= s1)%Q -> (s1 <= s2)%Q -> (s2 <= 2 ^ 500)%Q ->
  exists r1 r2 d1 d2,
    calculate p1 = Normal r1 /\ calculate p2 = Normal r2 /\
    calculatedDose r1 = Fin d1 /\ calculatedDose r2 = Fin d2 /\
    (0 <= d1)%Q /\ (d1 <= d2)%Q /\
    baseDose r2 = baseDose r1 /\ goalFactor r2 = goalFactor r1 /\
    intakeFormFactor r2 = intakeFormFactor r1 /\
    weightFactor r1 = num_div (Fin w1) (Fin 70) /\
    weightFactor r2 = num_div (Fin w2) (Fin 70) /\
    sensitivityFactor r1 = Fin s1 /\ sensitivityFactor r2 = Fin s2.
Proof.
  intros Es Ei Eg Hsd Hg Hf Hw1 Hw2 Hs1 Hs2 Hw10 Hw Hwb Hs10 Hs Hsb.
  destruct (calculate_returns p1 sd g Hsd Hg Hf)
    as (r1 & f & Hr1 & Hlf & B1 & _ & W1 & S1 & G1 & I1 & D1 & _).
  destruct (calculate_returns p2 sd g) as
    (r2 & f' & Hr2 & Hlf' & B2 & _ & W2 & S2 & G2 & I2 & D2 & _);
    [rewrite Es; exact Hsd | rewrite Eg; exact Hg | rewrite Ei; exact Hf |].
  rewrite Ei, Hlf in Hlf'. injection Hlf' as <-.
  destruct (literal_base _ _ Hsd) as (_ & Hb1 & Hb2).
  destruct (intake_form_factor_table _ Hf)
    as (f' & _ & Hlf' & Hf1 & Hf2 & _).
  rewrite Hlf in Hlf'. injection Hlf' as <-.
  destruct (goal_factor_range _ _ Hg) as [Hg1 Hg2].
  destruct (product_mono (sd_baseDose sd) w1 w2 s1 s2 g f Hb1 Hb2 Hg1 Hg2
              Hf1 Hf2 Hw10 Hw Hwb Hs10 Hs Hsb)
    as (x1 & x2 & X1 & X2 & X0 & X12 & Xb).
  destruct (round_dose_mono (substance p1) x1 x2 X0 X12 Xb)
    as (d1 & d2 & R1 & R2 & Hd0 & Hd).
  exists r1, r2, d1, d2.
  split; [exact Hr1|]. split; [exact Hr2|].
  split; [rewrite D1, W1, Hw1, Hs1, X1; exact R1|].
  split; [rewrite D2, W2, Hw2, Hs2, Es, X2; exact R2|].
  split; [exact Hd0|]. split; [exact Hd|].
  split; [rewrite B1; exact B2|]. split; [rewrite G1; exact G2|].
  split; [rewrite I1; exact I2|].
  split; [rewrite W1, Hw1; reflexivity|].
  split; [rewrite W2, Hw2; reflexivity|].
  split; [rewrite S1; exact Hs1|rewrite S2; exact Hs2].
Qed.

Lemma dose_monotone_weight_sensitivity_witness :
  exists r1 r2 d1 d2,
    calculate {| gender := "male"; weight := Fin 60; substance := "lsd";
                 intakeForm := "liquid"; sensitivity := Fin 1;
                 goal := "standard"; experience := None;
                 currentMedication := None |} = Normal r1 /\
    calculate {| gender := "female"; weight := Fin 90; substance := "lsd";
                 intakeForm := "liquid"; sensitivity := Fin (3 # 2);
                 goal := "standard"; experience := Some "beginner";
                 currentMedication := None |} = Normal r2 /\
    calculatedDose r1 = Fin d1 /\ calculatedDose r2 = Fin d2 /\
    (0 <= d1)%Q /\ (d1 <= d2)%Q.
Proof.
  destruct (dose_monotone_weight_sensitivity
           {| gender := "male"; weight := Fin 60; substance := "lsd";
              intakeForm := "liquid"; sensitivity := Fin 1;
              goal := "standard"; experience := None;
              currentMedication := None |}
           {| gender := "female"; weight := Fin 90; substance := "lsd";
              intakeForm := "liquid"; sensitivity := Fin (3 # 2);
              goal := "standard"; experience := Some "beginner";
              currentMedication := None |}
           {| sd_baseDose := 10; sd_unit := ug; sd_description := "LSD" |}
           60 90 1 (3 # 2) 1
           eq_refl eq_refl eq_refl eq_refl eq_refl ltac:(not_in_literals)
           eq_refl eq_refl eq_refl eq_refl
           ltac:(vm_compute; discriminate) ltac:(vm_compute; discriminate)
           ltac:(vm_compute; discriminate) ltac:(vm_compute; discriminate)
           ltac:(vm_compute; discriminate) ltac:(vm_compute; discriminate))
    as (r1 & r2 & d1 & d2 & H1 & H2 & H3 & H4 & H5 & H6 & _).
  exists r1, r2, d1, d2. auto 10.
Defined.




(** * Further properties of the generator *)

Lemma event_type_eqb (tz : TimeZone) (protocol : Protocol)
    (profile : MicrodoseProfile) (startDate cur : Z) :
  String.eqb (e_type (event_data tz protocol profile startDate cur)) "dose"
  = is_dose_day tz protocol startDate cur.
Proof.
  unfold event_data. cbv zeta. cbn [e_type].
  destruct (is_dose_day tz protocol startDate cur); reflexivity.
Qed.

Lemma dose_count_day_rows (tz : TimeZone) (protocol : Protocol)
    (profile : MicrodoseProfile) (startDate first : Z) (i n : nat) :
  dose_count
    (map (fun k : nat => event_data tz protocol profile startDate
                           (first + Z.of_nat k * msPerDay)) (seq i n)) =
  length (List.filter
            (fun k : nat => is_dose_day tz protocol startDate
                              (first + Z.of_nat k * msPerDay)) (seq i n)).
Proof.
  unfold dose_count. rewrite filter_map_swap, length_map.
  f_equal. apply filter_ext. intros k. apply event_type_eqb.
Qed.

Lemma cycle_length_cases (c : Z) :
  2 <= c <= 6 -> c = 2 \/ c = 3 \/ c = 4 \/ c = 5 \/ c = 6.
Proof. lia. Qed.

(** X6.  In a process zone of constant offset the inclusive range adds one
    dose day to the whole cycles: a Fadiman protocol of c weeks has
    (7 c) / 3 + 1 dose events and a Stamets protocol 4 c + 1, out of
    7 c + 1 events. *)
Theorem dose_event_counts (offset : Z) (id type : string)
    (startInput c : Z) (settings : ProtocolSettings)
    (profile : MicrodoseProfile) (st : Store) :
  2 <= c <= 6 ->
  exists fuel evs st',
    generateProtocolEvents (fixed_zone offset) fuel
      (make_protocol id type startInput c settings) profile st
      = Some (evs, st') /\
    Z.of_nat (length evs) = c * 7 + 1 /\
    (type = "fadiman" -> Z.of_nat (dose_count evs) = c * 7 / 3 + 1) /\
    (type = "stamets" -> Z.of_nat (dose_count evs) = 4 * c + 1).
Proof.
  intros Hc.
  exists (S (Z.to_nat (c * 7 + 1))). do 2 eexists.
  split; [apply generate_fixed_zone; lia|].
  split; [rewrite day_rows_length, Z2Nat.id; lia|].
  unfold day_rows. rewrite dose_count_day_rows.
  split; intros ->.
  - erewrite filter_ext.
    2:{ intros k. unfold is_dose_day. cbv zeta.
        cbn [p_type make_protocol].
        change (String.eqb "fadiman" "fadiman") with true. cbv iota.
        rewrite days_between_shift. reflexivity. }
    destruct (cycle_length_cases c Hc) as [->|[->|[->|[->| ->]]]];
      reflexivity.
  - erewrite filter_ext.
    2:{ intros k. unfold is_dose_day. cbv zeta.
        cbn [p_type make_protocol].
        change (String.eqb "stamets" "fadiman") with false.
        change (String.eqb "stamets" "stamets") with true. cbv iota.
        rewrite days_between_shift. reflexivity. }
    destruct (cycle_length_cases c Hc) as [->|[->|[->|[->| ->]]]];
      reflexivity.
Qed.

Lemma dose_event_counts_witness :
  exists fuel evs st',
    generateProtocolEvents (fixed_zone 3600000) fuel
      (make_protocol "p1" "stamets" 1711324800000 4 {| custom := None |})
      {| mp_substance := "psilocybin"; mp_calculatedDose := Fin 200;
         mp_doseUnit := "mg" |} []
      = Some (evs, st') /\
    Z.of_nat (length evs) = 4 * 7 + 1 /\
    ("stamets" = "fadiman" -> Z.of_nat (dose_count evs) = 4 * 7 / 3 + 1) /\
    ("stamets" = "stamets" -> Z.of_nat (dose_count evs) = 4 * 4 + 1).
Proof.
  apply (dose_event_counts 3600000 "p1" "stamets" 1711324800000 4
           {| custom := None |}
           {| mp_substance := "psilocybin"; mp_calculatedDose := Fin 200;
              mp_doseUnit := "mg" |} []).
  lia.
Defined.

Lemma generate_loop_app (tz : TimeZone) (protocol : Protocol)
    (profile : MicrodoseProfile) (startDate endDate : Z) :
  forall fuel cur dc evs st evs' st',
    generate_loop tz fuel protocol profile startDate endDate cur dc evs st
      = Some (evs', st') ->
    exists new, evs' = evs ++ new /\ st' = st ++ new.
Proof.
  induction fuel as [|fuel IH]; intros cur dc evs st evs' st' Hrun.
  - discriminate.
  - simpl in Hrun. destruct (cur <=? endDate).
    + apply IH in Hrun as (new & -> & ->).
      eexists. rewrite <- !app_assoc. split; reflexivity.
    + injection Hrun as <- <-. exists []. rewrite !app_nil_r. auto.
Qed.

Lemma WeekDay_range (t : Z) : 0 <= WeekDay t <= 6.
Proof.
  unfold WeekDay. pose proof (Z.mod_pos_bound (Day t + 4) 7). lia.
Qed.

Lemma event_data_well_formed (tz : TimeZone) (protocol : Protocol)
    (profile : MicrodoseProfile) (startDate cur : Z) :
  row_well_formed protocol (event_data tz protocol profile startDate cur).
Proof.
  unfold row_well_formed, event_data. cbv zeta.
  cbn [e_protocolId e_status e_metadata protocolType isDoseDay dayOfWeek
       e_type].
  repeat (split; [reflexivity|]).
  split; [|apply WeekDay_range].
  destruct (is_dose_day tz protocol startDate cur); split;
    intros; try reflexivity; discriminate.
Qed.

(** X7.  The generator only appends to the event table: in every process
    zone whose offsets stay within a window narrower than a day it
    returns, the table afterwards is the table before followed by exactly
    the returned events, and every returned event is scheduled, carries the
    id and the type of the protocol, a weekday index from 0 to 6, and a
    dose-day flag that agrees with its type. *)
Theorem generated_rows_appended (tz : TimeZone) (protocol : Protocol)
    (profile : MicrodoseProfile) (st : Store) :
  zone_bounded tz ->
  exists fuel evs st',
    generateProtocolEvents tz fuel protocol profile st = Some (evs, st') /\
    st' = st ++ evs /\
    Forall (row_well_formed protocol) evs.
Proof.
  intros Hz.
  destruct (generate_returns tz protocol profile st Hz)
    as (evs & st' & Hrun).
  eexists. exists evs, st'. split; [exact Hrun|]. split.
  - apply generate_loop_app in Hrun as (new & Hev & Hst).
    simpl in Hev. subst. reflexivity.
  - eapply generate_loop_Forall; [|constructor|exact Hrun].
    intros cur. apply event_data_well_formed.
Qed.

Lemma generated_rows_appended_witness :
  exists fuel evs st',
    generateProtocolEvents europe_berlin_2024 fuel
      (make_protocol "p1" "fadiman" 1711324800000 2 {| custom := None |})
      {| mp_substance := "psilocybin"; mp_calculatedDose := Fin 200;
         mp_doseUnit := "mg" |} [] = Some (evs, st') /\
    st' = [] ++ evs /\
    Forall (row_well_formed
              (make_protocol "p1" "fadiman" 1711324800000 2
                 {| custom := None |})) evs.
Proof.
  apply (generated_rows_appended europe_berlin_2024
           (make_protocol "p1" "fadiman" 1711324800000 2 {| custom := None |})
           {| mp_substance := "psilocybin"; mp_calculatedDose := Fin 200;
              mp_doseUnit := "mg" |} []).
  exists 3600000, 7200000. split; [reflexivity|].
  intros t. simpl.
  destruct (t <? cet_switch_2024); destruct (t <? cet_switch_2024 + 7200000);
    lia.
Defined.

Lemma dates_sorted_snoc (evs : list ProtocolEvent) (e : ProtocolEvent) :
  dates_sorted evs ->
  Forall (fun e' => e_date e' <= e_date e) evs ->
  dates_sorted (evs ++ [e]).
Proof.
  intros Hs Hall i j e1 e2 Hij H1 H2.
  destruct (decide (j < length evs)%nat) as [Hj|Hj].
  - rewrite lookup_app_l in H1 by lia. rewrite lookup_app_l in H2 by lia.
    exact (Hs i j e1 e2 Hij H1 H2).
  - assert (Hlen : j = length evs).
    { apply lookup_lt_Some in H2. rewrite length_app in H2. simpl in H2. lia. }
    subst j. rewrite list_lookup_middle in H2 by reflexivity.
    injection H2 as <-.
    destruct (decide (i < length evs)%nat) as [Hi|Hi].
    + rewrite lookup_app_l in H1 by lia.
      rewrite Forall_forall in Hall. apply Hall.
      eapply list_elem_of_lookup_2. exact H1.
    + assert (i = length evs) by lia. subst i.
      rewrite list_lookup_middle in H1 by reflexivity.
      injection H1 as <-. lia.
Qed.

Lemma generate_loop_dates (tz : TimeZone) (protocol : Protocol)
    (profile : MicrodoseProfile) (d0 endDate : Z) :
  zone_bounded tz ->
  forall fuel cur dc evs st evs' st',
    d0 * msPerDay <= cur ->
    Forall (fun e => (d0 * msPerDay <= e_date e <= endDate /\
                      e_date e mod msPerDay = 0) /\ e_date e <= cur) evs ->
    dates_sorted evs ->
    generate_loop tz fuel protocol profile (d0 * msPerDay) endDate cur dc
      evs st = Some (evs', st') ->
    Forall (fun e => d0 * msPerDay <= e_date e <= endDate /\
                     e_date e mod msPerDay = 0) evs' /\
    dates_sorted evs'.
Proof.
  intros Hz. pose proof msPerDay_pos as Hpos.
  induction fuel as [|fuel IH];
    intros cur dc evs st evs' st' Hcur Hall Hsorted Hrun.
  - discriminate.
  - simpl in Hrun. destruct (cur <=? endDate) eqn:E.
    + apply Z.leb_le in E.
      pose proof (setDate_next_bounded tz cur Hz) as Hnext.
      assert (Hd : e_date (event_data tz protocol profile (d0 * msPerDay) cur)
                   = cur / msPerDay * msPerDay).
      { unfold event_data. cbv zeta. cbn [e_date].
        rewrite setUTCHours_midnight. reflexivity. }
      assert (Hfloor : cur / msPerDay * msPerDay <= cur).
      { pose proof (Z.mul_div_le cur msPerDay Hpos). lia. }
      assert (Hlow : d0 <= cur / msPerDay)
        by (apply Z.div_le_lower_bound; lia).
      eapply IH; [| | |exact Hrun].
      * lia.
      * apply Forall_app. split.
        -- eapply Forall_impl; [exact Hall|]. simpl. intros e He. lia.
        -- constructor; [|constructor]. cbv beta. rewrite Hd.
           split; [split; [nia|apply Z.mod_mul; lia]|lia].
      * apply dates_sorted_snoc; [exact Hsorted|].
        eapply Forall_impl; [exact Hall|]. cbv beta.
        intros e ((_ & Hmod) & Hle). rewrite Hd.
        apply Z.mod_divide in Hmod; [|lia]. destruct Hmod as (q & Hq).
        rewrite Hq in *.
        assert (q <= cur / msPerDay) by (apply Z.div_le_lower_bound; lia).
        nia.
    + injection Hrun as <- <-. split; [|exact Hsorted].
      eapply Forall_impl; [exact Hall|]. simpl. tauto.
Qed.

(** X8.  In every process zone whose offsets stay within a window narrower
    than a day, clock changes included, every event the generator returns
    for a stored protocol is dated at a midnight UTC between the start and
    the end of the protocol, and the dates never go backwards along the
    list. *)
Theorem event_dates_in_range (tz : TimeZone) (id type : string)
    (startInput c : Z) (settings : ProtocolSettings)
    (profile : MicrodoseProfile) (st : Store) :
  zone_bounded tz ->
  exists fuel evs st',
    generateProtocolEvents tz fuel
      (make_protocol id type startInput c settings) profile st
      = Some (evs, st') /\
    Forall (fun e =>
              p_startDate (make_protocol id type startInput c settings)
                <= e_date e
                <= p_endDate (make_protocol id type startInput c settings) /\
              e_date e mod msPerDay = 0) evs /\
    dates_sorted evs.
Proof.
  intros Hz.
  destruct (generate_returns tz (make_protocol id type startInput c settings)
              profile st Hz) as (evs & st' & Hrun).
  eexists. exists evs, st'. split; [exact Hrun|].
  unfold generateProtocolEvents in Hrun. cbv zeta in Hrun.
  destruct (make_protocol_dates id type startInput c settings) as [Hs He].
  rewrite Hs in *.
  eapply (generate_loop_dates tz _ profile (Day startInput) _ Hz);
    [| | |exact Hrun].
  - lia.
  - constructor.
  - intros i j e1 e2 _ H1. discriminate H1.
Qed.

Lemma event_dates_in_range_witness :
  exists fuel evs st',
    generateProtocolEvents europe_berlin_2024 fuel
      (make_protocol "p1" "stamets" 1711324800000 2 {| custom := None |})
      {| mp_substance := "psilocybin"; mp_calculatedDose := Fin 200;
         mp_doseUnit := "mg" |} [] = Some (evs, st') /\
    Forall (fun e =>
              p_startDate
                (make_protocol "p1" "stamets" 1711324800000 2
                   {| custom := None |})
                <= e_date e
                <= p_endDate
                     (make_protocol "p1" "stamets" 1711324800000 2
                        {| custom := None |}) /\
              e_date e mod msPerDay = 0) evs /\
    dates_sorted evs.
Proof.
  apply (event_dates_in_range europe_berlin_2024 "p1" "stamets"
           1711324800000 2 {| custom := None |}
           {| mp_substance := "psilocybin"; mp_calculatedDose := Fin 200;
              mp_doseUnit := "mg" |} []).
  exists 3600000, 7200000. split; [reflexivity|].
  intros t. simpl.
  destruct (t <? cet_switch_2024); destruct (t <? cet_switch_2024 + 7200000);
    lia.
Defined.

(** ** Weekdays of seven consecutive days *)

Lemma getDay_fixed_shift (offset s0 : Z) (k : nat) :
  getDay (fixed_zone offset) (s0 + Z.of_nat k * msPerDay) =
  (Day (s0 + offset) + 4 + Z.of_nat k) mod 7.
Proof.
  unfold getDay, WeekDay, LocalTime, Day. cbn [LocalTZA_utc fixed_zone].
  replace (s0 + Z.of_nat k * msPerDay + offset)
    with (s0 + offset + Z.of_nat k * msPerDay) by ring.
  rewrite Z.div_add by (pose proof msPerDay_pos; lia).
  f_equal. ring.
Qed.

(** Among seven consecutive days each weekday index occurs once. *)
Lemma count_weekday_window (A : Z) (i : nat) (d : Z) :
  length (List.filter (fun k : nat => (A + Z.of_nat k) mod 7 =? d) (seq i 7))
  = if (0 <=? d) && (d <? 7) then 1%nat else 0%nat.
Proof.
  assert (Hshift : forall j : Z,
            (A + (Z.of_nat i + j)) mod 7 = ((A + Z.of_nat i) mod 7 + j) mod 7).
  { intros j. rewrite Z.add_assoc, Zplus_mod_idemp_l. reflexivity. }
  cbn [seq List.filter].
  rewrite !Nat2Z.inj_succ. unfold Z.succ.
  replace (A + Z.of_nat i) with (A + (Z.of_nat i + 0)) by (f_equal; ring).
  replace (Z.of_nat i + 1 + 1 + 1 + 1 + 1 + 1) with (Z.of_nat i + 6) by ring.
  replace (Z.of_nat i + 1 + 1 + 1 + 1 + 1) with (Z.of_nat i + 5) by ring.
  replace (Z.of_nat i + 1 + 1 + 1 + 1) with (Z.of_nat i + 4) by ring.
  replace (Z.of_nat i + 1 + 1 + 1) with (Z.of_nat i + 3) by ring.
  replace (Z.of_nat i + 1 + 1) with (Z.of_nat i + 2) by ring.
  rewrite !Hshift.
  pose proof (Z.mod_pos_bound (A + Z.of_nat i) 7 ltac:(lia)) as Ha.
  set (a := (A + Z.of_nat i) mod 7) in *.
  assert (Hcases : a = 0 \/ a = 1 \/ a = 2 \/ a = 3 \/ a = 4 \/ a = 5 \/ a = 6)
    by lia.
  destruct (Z.leb_spec 0 d) as [Hd0|Hd0];
    destruct (Z.ltb_spec d 7) as [Hd7|Hd7]; cbn [andb].
  - assert (Hd : d = 0 \/ d = 1 \/ d = 2 \/ d = 3 \/ d = 4 \/ d = 5 \/ d = 6)
      by lia.
    destruct Hcases as [->|[->|[->|[->|[->|[->| ->]]]]]];
      destruct Hd as [->|[->|[->|[->|[->|[->| ->]]]]]]; reflexivity.
  - destruct Hcases as [->|[->|[->|[->|[->|[->| ->]]]]]];
      repeat (match goal with
              | |- context [(?x + ?y) mod 7] =>
                let v := eval vm_compute in ((x + y) mod 7) in
                change ((x + y) mod 7) with v
              end);
      repeat (match goal with
              | |- context [?x =? d] =>
                destruct (Z.eqb_spec x d) as [?|?]; [lia|]
              end); reflexivity.
  - destruct Hcases as [->|[->|[->|[->|[->|[->| ->]]]]]];
      repeat (match goal with
              | |- context [(?x + ?y) mod 7] =>
                let v := eval vm_compute in ((x + y) mod 7) in
                change ((x + y) mod 7) with v
              end);
      repeat (match goal with
              | |- context [?x =? d] =>
                destruct (Z.eqb_spec x d) as [?|?]; [lia|]
              end); reflexivity.
  - lia.
Qed.

Lemma filter_orb_length {A : Type} (p q : A -> bool) (l : list A) :
  (length (List.filter (fun x => p x || q x) l)
   <= length (List.filter p l) + length (List.filter q l))%nat.
Proof.
  induction l as [|x l IH]; simpl; [lia|].
  destruct (p x), (q x); simpl; lia.
Qed.

Lemma filter_imp_length {A : Type} (p q : A -> bool) (l : list A) :
  (forall x, p x = true -> q x = true) ->
  (length (List.filter p l) <= length (List.filter q l))%nat.
Proof.
  intros Hpq. induction l as [|x l IH]; simpl; [lia|].
  destruct (p x) eqn:Ep.
  - rewrite (Hpq x Ep). simpl. lia.
  - destruct (q x); simpl; lia.
Qed.

Lemma count_dose_days_window (A : Z) (i : nat) (days : list Z) :
  (length (List.filter
             (fun k : nat => existsb (Z.eqb ((A + Z.of_nat k) mod 7)) days)
             (seq i 7)) <= length days)%nat /\
  ((exists d, In d days /\ 0 <= d <= 6) ->
   (1 <= length (List.filter
                   (fun k : nat =>
                      existsb (Z.eqb ((A + Z.of_nat k) mod 7)) days)
                   (seq i 7)))%nat).
Proof.
  split.
  - induction days as [|d days IH].
    + simpl. lia.
    + cbn [existsb length].
      etransitivity; [apply filter_orb_length|].
      rewrite count_weekday_window.
      destruct ((0 <=? d) && (d <? 7)); lia.
  - intros (d & Hin & Hd).
    transitivity (length (List.filter
                            (fun k : nat => (A + Z.of_nat k) mod 7 =? d)
                            (seq i 7))).
    + rewrite count_weekday_window.
      destruct (Z.leb_spec 0 d); destruct (Z.ltb_spec d 7); simpl; lia.
    + apply filter_imp_length. intros k Hk.
      apply existsb_Zeqb_In. apply Z.eqb_eq in Hk. rewrite Hk. exact Hin.
Qed.

Lemma check_protocol_settings_custom (settings : ProtocolSettings) :
  check_protocol_settings "custom" settings = None <->
  exists cs days,
    custom settings = Some cs /\ doseDays cs = Some days /\
    (1 <= length days <= 4)%nat.
Proof.
  unfold check_protocol_settings.
  change (String.eqb "custom" "fadiman") with false.
  change (String.eqb "custom" "stamets") with false.
  change (String.eqb "custom" "custom") with true. cbv iota.
  destruct (custom settings) as [cs|].
  - destruct (doseDays cs) as [days|] eqn:Ed.
    + destruct (Nat.eqb_spec (length days) 0) as [H0|H0].
      * split; [discriminate|].
        intros (cs' & days' & [= <-] & Hd & Hlen).
        rewrite Ed in Hd. injection Hd as <-. lia.
      * destruct (Nat.ltb_spec 4 (length days)) as [H4|H4].
        -- split; [discriminate|].
           intros (cs' & days' & [= <-] & Hd & Hlen).
           rewrite Ed in Hd. injection Hd as <-. lia.
        -- split; [|reflexivity]. intros _. exists cs, days.
           repeat split; auto; lia.
    + split; [discriminate|].
      intros (cs' & days' & [= <-] & Hd & _). congruence.
  - split; [discriminate|]. intros (cs' & days' & [=] & _).
Qed.

(** X9.  A custom protocol that passes the check of the [/create] handler
    has between one and four configured dose days and, in a process zone
    of constant offset, at most four dose events among any seven
    consecutive events of its schedule, so at least three rest days a week;
    when one of the configured days is a weekday index from 0 to 6, every
    seven consecutive events contain a dose event. *)
Theorem custom_rest_days (offset : Z) (id : string) (startInput c : Z)
    (settings : ProtocolSettings) (profile : MicrodoseProfile) (st : Store) :
  2 <= c <= 6 ->
  check_protocol_settings "custom" settings = None ->
  exists cs days fuel evs st',
    custom settings = Some cs /\ doseDays cs = Some days /\
    (1 <= length days <= 4)%nat /\
    generateProtocolEvents (fixed_zone offset) fuel
      (make_protocol id "custom" startInput c settings) profile st
      = Some (evs, st') /\
    forall i : nat, (i + 7 <= length evs)%nat ->
      (dose_count (window i 7 evs) <= 4)%nat /\
      (length (window i 7 evs) - dose_count (window i 7 evs) >= 3)%nat /\
      ((exists d, In d days /\ 0 <= d <= 6) ->
       (1 <= dose_count (window i 7 evs))%nat).
Proof.
  intros Hc Hcheck.
  apply check_protocol_settings_custom in Hcheck
    as (cs & days & Hcs & Hdays & Hlen).
  exists cs, days, (S (Z.to_nat (c * 7 + 1))). do 2 eexists.
  split; [exact Hcs|]. split; [exact Hdays|]. split; [exact Hlen|].
  split; [apply generate_fixed_zone; lia|].
  intros i Hi. rewrite day_rows_length in Hi.
  unfold window, day_rows.
  rewrite skipn_map, firstn_map, drop_seq, take_seq.
  replace (7 `min` (Z.to_nat (c * 7 + 1) - i))%nat with 7%nat by lia.
  rewrite length_map, length_seq, dose_count_day_rows.
  erewrite filter_ext.
  2:{ intros k. unfold is_dose_day. cbv zeta.
      cbn [p_type p_settings make_protocol].
      change (String.eqb "custom" "fadiman") with false.
      change (String.eqb "custom" "stamets") with false.
      change (String.eqb "custom" "custom") with true. cbv iota.
      rewrite Hcs, Hdays, getDay_fixed_shift. reflexivity. }
  destruct (count_dose_days_window
              (Day (Day startInput * msPerDay + offset) + 4) (0 + i) days)
    as [Hup Hlow].
  repeat split; [lia|lia|exact Hlow].
Qed.

Lemma custom_rest_days_witness :
  exists cs days fuel evs st',
    custom {| custom := Some {| doseDays := Some [0; 2; 4; 6];
                                customName := Some "alternate" |} |}
      = Some cs /\
    doseDays cs = Some days /\
    (1 <= length days <= 4)%nat /\
    generateProtocolEvents (fixed_zone (-18000000)) fuel
      (make_protocol "p1" "custom" 1711324800000 2
         {| custom := Some {| doseDays := Some [0; 2; 4; 6];
                              customName := Some "alternate" |} |})
      {| mp_substance := "lsd"; mp_calculatedDose := Fin 10;
         mp_doseUnit := "ug" |} []
      = Some (evs, st') /\
    forall i : nat, (i + 7 <= length evs)%nat ->
      (dose_count (window i 7 evs) <= 4)%nat /\
      (length (window i 7 evs) - dose_count (window i 7 evs) >= 3)%nat /\
      ((exists d, In d days /\ 0 <= d <= 6) ->
       (1 <= dose_count (window i 7 evs))%nat).
Proof.
  apply (custom_rest_days (-18000000) "p1" 1711324800000 2
           {| custom := Some {| doseDays := Some [0; 2; 4; 6];
                                customName := Some "alternate" |} |}
           {| mp_substance := "lsd"; mp_calculatedDose := Fin 10;
              mp_doseUnit := "ug" |} []).
  - lia.
  - reflexivity.
Defined.

(** ** The rule of the protocol type, where it holds *)

(** X24.  In a process zone of constant offset from UTC up to a day ahead
    of it (UTC itself included) the generator classifies every day by the
    rule of the protocol type: it returns [cycleLength * 7 + 1] events,
    the k-th dated k days after the start with daysSinceStart k, and an
    event is a dose exactly when daysSinceStart mod 3 = 0 (fadiman),
    daysSinceStart mod 7 < 4 (stamets), or the calendar weekday of its
    date is one of the configured dose days (custom), which is also the
    weekday recorded with the event. *)
Theorem classification_rule_utc_weekday (offset : Z) (id type : string)
    (startInput c : Z) (settings : ProtocolSettings)
    (profile : MicrodoseProfile) (st : Store) :
  0 <= offset < msPerDay ->
  2 <= c <= 6 ->
  exists fuel evs st',
    generateProtocolEvents (fixed_zone offset) fuel
      (make_protocol id type startInput c settings) profile st
      = Some (evs, st') /\
    Z.of_nat (length evs) = c * 7 + 1 /\
    Forall (rule_holds type settings
              (p_startDate (make_protocol id type startInput c settings)))
           evs /\
    forall k : nat, Z.of_nat k <= c * 7 ->
      exists e,
        evs !! k = Some e /\
        e_date e = p_startDate (make_protocol id type startInput c settings)
                   + Z.of_nat k * msPerDay /\
        daysSinceStart (e_metadata e) = Z.of_nat k /\
        dayOfWeek (e_metadata e) = WeekDay (e_date e).
Proof.
  intros Ho Hc.
  pose proof (generate_fixed_zone offset id type startInput c settings
                profile st (S (Z.to_nat (c * 7 + 1))) ltac:(lia) ltac:(lia))
    as Hrun.
  destruct (generate_fixed_zone_days offset id type startInput c settings
              profile st _ _ _ ltac:(lia) Hrun) as (_ & Hlen & Hdays).
  do 3 eexists. split; [exact Hrun|]. split; [exact Hlen|].
  destruct (make_protocol_dates id type startInput c settings) as [Hs _].
  split.
  - rewrite Hs. apply List.Forall_forall. intros e Hin.
    unfold day_rows in Hin. apply List.in_map_iff in Hin as (k & <- & _).
    apply (event_data_rule (fixed_zone offset)
             (make_protocol id type startInput c settings) profile
             (Day startInput)).
    + pose proof msPerDay_pos. nia.
    + intros _. apply getDay_fixed_east. exact Ho.
  - intros k Hk. destruct (Hdays k Hk) as (e & He & Hd & Hn & Hw).
    exists e. split; [exact He|]. split; [exact Hd|]. split; [exact Hn|].
    rewrite Hw, Hd, Hs, (getDay_fixed_east offset _ _ Ho).
    rewrite setUTCHours_midnight, Day_shift. f_equal. ring.
Qed.

Lemma classification_rule_utc_weekday_witness :
  exists fuel evs st',
    generateProtocolEvents (fixed_zone 3600000) fuel
      (make_protocol "p1" "custom" 1711324800000 2
         {| custom := Some {| doseDays := Some [1; 3; 5];
                              customName := None |} |})
      {| mp_substance := "lsd"; mp_calculatedDose := Fin (5 # 2);
         mp_doseUnit := "ug" |} []
      = Some (evs, st') /\
    Z.of_nat (length evs) = 2 * 7 + 1 /\
    Forall (rule_holds "custom"
              {| custom := Some {| doseDays := Some [1; 3; 5];
                                   customName := None |} |}
              (p_startDate
                 (make_protocol "p1" "custom" 1711324800000 2
                    {| custom := Some {| doseDays := Some [1; 3; 5];
                                         customName := None |} |})))
           evs.
Proof.
  destruct (classification_rule_utc_weekday 3600000 "p1" "custom"
              1711324800000 2
              {| custom := Some {| doseDays := Some [1; 3; 5];
                                   customName := None |} |}
              {| mp_substance := "lsd"; mp_calculatedDose := Fin (5 # 2);
                 mp_doseUnit := "ug" |} []
              ltac:(vm_compute; split; [discriminate|reflexivity])
              ltac:(lia))
    as (fuel & evs & st' & Hrun & Hlen & Hall & _).
  exists fuel, evs, st'. split; [exact Hrun|]. split; [exact Hlen|].
  exact Hall.
Defined.

(** X25.  The Fadiman and the Stamets rule do not depend on the zone of
    the process: in every zone whose offsets stay within a window narrower
    than a day, clock changes included, the generator returns and every
    event is a dose exactly when the number of whole days from the start
    to its date is 0 mod 3 (fadiman) or less than 4 mod 7 (stamets), and
    that number is the daysSinceStart recorded with the event. *)
Theorem periodic_rule_every_zone (tz : TimeZone) (id type : string)
    (startInput c : Z) (settings : ProtocolSettings)
    (profile : MicrodoseProfile) (st : Store) :
  zone_bounded tz ->
  type = "fadiman" \/ type = "stamets" ->
  exists fuel evs st',
    generateProtocolEvents tz fuel
      (make_protocol id type startInput c settings) profile st
      = Some (evs, st') /\
    Forall (rule_holds type settings
              (p_startDate (make_protocol id type startInput c settings)))
           evs.
Proof.
  intros Hz Ht.
  destruct (generate_returns tz (make_protocol id type startInput c settings)
              profile st Hz) as (evs & st' & Hrun).
  eexists. exists evs, st'. split; [exact Hrun|].
  destruct (make_protocol_dates id type startInput c settings) as [Hs _].
  rewrite Hs.
  eapply (generate_loop_Forall_from tz _ profile _ _ _ Hz);
    [| |constructor|exact Hrun].
  - rewrite Hs. intros cur Hcur.
    apply (event_data_rule tz (make_protocol id type startInput c settings)
             profile (Day startInput) cur Hcur).
    cbn [p_type make_protocol]. intros ->.
    destruct Ht as [Ht|Ht]; discriminate Ht.
  - lia.
Qed.

Lemma periodic_rule_every_zone_witness :
  exists fuel evs st',
    generateProtocolEvents europe_berlin_2024 fuel
      (make_protocol "p1" "stamets" 1711324800000 2 {| custom := None |})
      {| mp_substance := "psilocybin"; mp_calculatedDose := Fin 200;
         mp_doseUnit := "mg" |} [] = Some (evs, st') /\
    Forall (rule_holds "stamets" {| custom := None |}
              (p_startDate
                 (make_protocol "p1" "stamets" 1711324800000 2
                    {| custom := None |})))
           evs.
Proof.
  apply (periodic_rule_every_zone europe_berlin_2024 "p1" "stamets"
           1711324800000 2 {| custom := None |}
           {| mp_substance := "psilocybin"; mp_calculatedDose := Fin 200;
              mp_doseUnit := "mg" |} []).
  - exists 3600000, 7200000. split; [reflexivity|]. intros t.
    unfold europe_berlin_2024. cbn [LocalTZA_utc LocalTZA_local].
    destruct (t <? cet_switch_2024);
      destruct (t <? cet_switch_2024 + 7200000); lia.
  - right. reflexivity.
Defined.

(** X26.  A custom protocol whose custom settings are missing, or whose
    dose days are missing or empty, does not make the generator fail: in
    every process zone whose offsets stay within a window narrower than a
    day it returns, and every returned event is a pause.  When the offset
    of the zone is constant the list is the full sequence of
    [cycleLength * 7 + 1] events, one per day from the start. *)
Theorem custom_without_dose_days (tz : TimeZone) (id : string)
    (startInput c : Z) (settings : ProtocolSettings)
    (profile : MicrodoseProfile) (st : Store) :
  zone_bounded tz ->
  2 <= c <= 6 ->
  no_dose_days settings ->
  exists fuel evs st',
    generateProtocolEvents tz fuel
      (make_protocol id "custom" startInput c settings) profile st
      = Some (evs, st') /\
    Forall (fun e => e_type e = "pause") evs /\
    forall offset, tz = fixed_zone offset ->
      Z.of_nat (length evs) = c * 7 + 1 /\
      forall k : nat, Z.of_nat k <= c * 7 ->
        e_date <$> evs !! k =
        Some (p_startDate (make_protocol id "custom" startInput c settings)
              + Z.of_nat k * msPerDay).
Proof.
  intros Hz Hc Hset.
  destruct (generate_returns tz
              (make_protocol id "custom" startInput c settings)
              profile st Hz) as (evs & st' & Hrun).
  eexists. exists evs, st'. split; [exact Hrun|]. split.
  - eapply generate_loop_Forall; [|constructor|exact Hrun].
    intros cur. unfold event_data. cbv zeta. cbn [e_type].
    replace (is_dose_day tz
               (make_protocol id "custom" startInput c settings)
               (p_startDate (make_protocol id "custom" startInput c settings))
               cur) with false; [reflexivity|].
    unfold is_dose_day. cbv zeta. cbn [p_type p_settings make_protocol].
    change (String.eqb "custom" "fadiman") with false.
    change (String.eqb "custom" "stamets") with false.
    change (String.eqb "custom" "custom") with true. cbv iota.
    destruct Hset as [->|(cs & -> & [->| ->])]; reflexivity.
  - intros offset ->.
    eapply generate_fixed_zone_days in Hrun as (_ & Hlen & Hdays); [|lia].
    split; [exact Hlen|].
    intros k Hk. destruct (Hdays k Hk) as (e & -> & <- & _). reflexivity.
Qed.

Lemma custom_without_dose_days_witness :
  exists fuel evs st',
    generateProtocolEvents utc_zone fuel
      (make_protocol "p1" "custom" 1711324800000 3
         {| custom := Some {| doseDays := Some []; customName := None |} |})
      {| mp_substance := "amanita"; mp_calculatedDose := Fin 100;
         mp_doseUnit := "mg" |} []
      = Some (evs, st') /\
    Forall (fun e => e_type e = "pause") evs /\
    forall offset, utc_zone = fixed_zone offset ->
      Z.of_nat (length evs) = 3 * 7 + 1 /\
      forall k : nat, Z.of_nat k <= 3 * 7 ->
        e_date <$> evs !! k =
        Some (p_startDate
                (make_protocol "p1" "custom" 1711324800000 3
                   {| custom := Some {| doseDays := Some [];
                                        customName := None |} |})
              + Z.of_nat k * msPerDay).
Proof.
  apply (custom_without_dose_days utc_zone "p1" 1711324800000 3
           {| custom := Some {| doseDays := Some []; customName := None |} |}
           {| mp_substance := "amanita"; mp_calculatedDose := Fin 100;
              mp_doseUnit := "mg" |} []).
  - exists 0, 0. split; [reflexivity|]. intros t. simpl. lia.
  - lia.
  - right. eexists. split; [reflexivity|]. right. reflexivity.
Defined.

(** * The notification service *)

Lemma notify_event_fulfilled (tz : TimeZone) (protocol : ProtocolRow)
    (event : EventRow) (tbl : list Notification) pushed tbl' :
  notify_event tz protocol event tbl = (Fulfilled pushed, tbl') ->
  tbl' = tbl ++ pushed /\
  Forall (notification_ok protocol [event]) pushed /\
  length pushed =
    ((if String.eqb (e_type (row_event event)) "dose" then 1 else 0)
     * enabled_count (pr_notificationSettings protocol))%nat /\
  map (fun n => (n_type n, Some (n_scheduledFor n))) pushed
    = notifications_of tz protocol event.
Proof.
  unfold notify_event, notifications_of, enabled_count, createNotification.
  cbv zeta.
  destruct (String.eqb_spec (e_type (row_event event)) "dose") as [Hd|Hd];
    cbn [andb].
  2:{ intros [= <- <-]. rewrite app_nil_r. repeat split. constructor. }
  assert (Hok : forall ty title d dose,
    (ty = "reminder" \/ ty = "reflection") ->
    (ty = "reminder" ->
     dose = Some (e_substance (row_event event), e_dose (row_event event),
                  e_doseUnit (row_event event))) ->
    notification_ok protocol [event]
      {| n_userId := pr_userId protocol; n_type := ty; n_title := title;
         n_scheduledFor := d; n_status := "scheduled";
         n_metadata := {| nm_eventId := row_id event;
                          nm_protocolId := p_id (pr_protocol protocol);
                          nm_eventType := e_type (row_event event);
                          nm_dose := dose |} |}).
  { intros ty title d dose Hty Hdose. unfold notification_ok. simpl.
    repeat (split; [auto|]). exists event. simpl. auto. }
  destruct (rs_enabled (morningReminder (pr_notificationSettings protocol)));
    destruct (rs_enabled (eveningReflection (pr_notificationSettings protocol)));
    repeat match goal with
           | |- context [reminder_date ?z ?d ?t] =>
             destruct (reminder_date z d t) as [?|]
           end;
    intros [= <- <-]; rewrite <- ?app_assoc, ?app_nil_r;
    (split; [reflexivity|]);
    (split; [repeat constructor; apply Hok; auto; discriminate|]);
    split; reflexivity.
Qed.

Lemma notify_events_fulfilled (tz : TimeZone) (protocol : ProtocolRow)
    (events : list EventRow) :
  forall acc tbl ns tbl',
    notify_events tz protocol events acc tbl = (Fulfilled ns, tbl') ->
    exists new,
      ns = acc ++ new /\ tbl' = tbl ++ new /\
      Forall (notification_ok protocol events) new /\
      length new =
        (dose_count (map row_event events)
         * enabled_count (pr_notificationSettings protocol))%nat /\
      map (fun n => (n_type n, Some (n_scheduledFor n))) new
        = flat_map (notifications_of tz protocol) events.
Proof.
  induction events as [|event rest IH]; intros acc tbl ns tbl' Hrun.
  - injection Hrun as <- <-. exists []. rewrite !app_nil_r.
    repeat split. constructor.
  - cbn [notify_events] in Hrun.
    destruct (notify_event tz protocol event tbl) as [[pushed|] tbl1] eqn:E;
      [|discriminate Hrun].
    apply notify_event_fulfilled in E as (-> & Hok1 & Hlen1 & Hmap1).
    apply IH in Hrun as (new & -> & -> & Hok & Hlen & Hmap).
    exists (pushed ++ new). rewrite <- !app_assoc.
    split; [reflexivity|]. split; [reflexivity|]. split; [|split].
    + apply Forall_app. split.
      * eapply Forall_impl; [exact Hok1|].
        intros n (H1 & H2 & H3 & H4 & ev & Hin & Hrest).
        repeat (split; [assumption|]). exists ev. split; [|exact Hrest].
        destruct Hin as [<-|[]]. left. reflexivity.
      * eapply Forall_impl; [exact Hok|].
        intros n (H1 & H2 & H3 & H4 & ev & Hin & Hrest).
        repeat (split; [assumption|]). exists ev. split; [|exact Hrest].
        right. exact Hin.
    + rewrite length_app, Hlen1, Hlen. unfold dose_count.
      cbn [map List.filter].
      destruct (String.eqb (e_type (row_event event)) "dose");
        cbn [length]; lia.
    + rewrite map_app, Hmap1, Hmap. reflexivity.
Qed.

(** X10.  When both the morning reminder and the evening reflection are
    disabled, or when no event is a dose event, the service creates
    nothing: it returns the empty list and leaves the notification table
    as it was, whatever the time strings of the settings are. *)
Theorem no_notifications (tz : TimeZone) (protocol : ProtocolRow)
    (events : list EventRow) (tbl : list Notification) :
  enabled_count (pr_notificationSettings protocol) = 0%nat \/
  dose_count (map row_event events) = 0%nat ->
  generateProtocolNotifications tz protocol events tbl = (Fulfilled [], tbl).
Proof.
  intros H. unfold generateProtocolNotifications.
  assert (Hev : forall event t,
            In event events ->
            notify_event tz protocol event t = (Fulfilled [], t)).
  { intros event t Hin. unfold notify_event. cbv zeta.
    destruct H as [H|H].
    - unfold enabled_count in H.
      destruct (rs_enabled (morningReminder _));
        destruct (rs_enabled (eveningReflection _)); try discriminate H.
      rewrite !andb_false_r. reflexivity.
    - assert (Hp : String.eqb (e_type (row_event event)) "dose" = false).
      { unfold dose_count in H. apply length_zero_iff_nil in H.
        destruct (String.eqb (e_type (row_event event)) "dose") eqn:E;
          [|reflexivity].
        assert (Hf : In (row_event event)
                       (List.filter
                          (fun e => String.eqb (e_type e) "dose")
                          (map row_event events))).
        { apply filter_In. split; [apply in_map; exact Hin|exact E]. }
        rewrite H in Hf. destruct Hf. }
      rewrite Hp. reflexivity. }
  clear H. revert tbl.
  induction events as [|event rest IH]; intros tbl; [reflexivity|].
  cbn [notify_events]. rewrite Hev by (left; reflexivity).
  apply IH. intros ev t Hin. apply Hev. right. exact Hin.
Qed.

Lemma no_notifications_witness :
  generateProtocolNotifications utc_zone
    {| pr_protocol := make_protocol "p1" "fadiman" 1711324800000 2
                        {| custom := None |};
       pr_userId := "u1"; pr_name := "Spring"; pr_status := "active";
       pr_notificationSettings :=
         {| morningReminder := {| rs_enabled := false; rs_time := "soon" |};
            eveningReflection := {| rs_enabled := false; rs_time := "" |};
            channels := ["email"] |} |}
    [ {| row_id := "e1";
         row_event :=
           event_data utc_zone
             (make_protocol "p1" "fadiman" 1711324800000 2
                {| custom := None |})
             {| mp_substance := "lsd"; mp_calculatedDose := Fin 10;
                mp_doseUnit := "ug" |} 1711324800000 1711324800000 |} ]
    [] = (Fulfilled [], []).
Proof.
  apply no_notifications. left. reflexivity.
Defined.

(** X11.  When the service returns, the notification table is the table
    before followed by exactly the returned notifications; there are as
    many of them as dose events times enabled settings; and each one
    belongs to the user and the protocol, is scheduled, is a reminder or a
    reflection, and points at a dose event of the list, a reminder carrying
    the substance, dose and dose unit of that event.  No notification
    points at a pause event. *)
Theorem notifications_for_dose_events (tz : TimeZone) (protocol : ProtocolRow)
    (events : list EventRow) (tbl : list Notification)
    (ns : list Notification) (tbl' : list Notification) :
  generateProtocolNotifications tz protocol events tbl = (Fulfilled ns, tbl') ->
  tbl' = tbl ++ ns /\
  length ns = (dose_count (map row_event events)
               * enabled_count (pr_notificationSettings protocol))%nat /\
  Forall (notification_ok protocol events) ns.
Proof.
  intros Hrun. unfold generateProtocolNotifications in Hrun.
  apply notify_events_fulfilled in Hrun as (new & -> & -> & Hok & Hlen & _).
  simpl. auto.
Qed.

Lemma notifications_for_dose_events_witness :
  exists ns tbl',
    generateProtocolNotifications (fixed_zone 3600000)
      {| pr_protocol := make_protocol "p1" "fadiman" 1711324800000 2
                          {| custom := None |};
         pr_userId := "u1"; pr_name := "Spring"; pr_status := "active";
         pr_notificationSettings :=
           {| morningReminder := {| rs_enabled := true; rs_time := "08:30" |};
              eveningReflection := {| rs_enabled := true; rs_time := "21:00" |};
              channels := ["email"] |} |}
      [ {| row_id := "e1";
           row_event :=
             event_data (fixed_zone 3600000)
               (make_protocol "p1" "fadiman" 1711324800000 2
                  {| custom := None |})
               {| mp_substance := "lsd"; mp_calculatedDose := Fin 10;
                  mp_doseUnit := "ug" |} 1711324800000 1711324800000 |};
        {| row_id := "e2";
           row_event :=
             event_data (fixed_zone 3600000)
               (make_protocol "p1" "fadiman" 1711324800000 2
                  {| custom := None |})
               {| mp_substance := "lsd"; mp_calculatedDose := Fin 10;
                  mp_doseUnit := "ug" |} 1711324800000 1711411200000 |} ]
      [] = (Fulfilled ns, tbl') /\
    tbl' = [] ++ ns /\
    length ns = 2%nat.
Proof.
  do 2 eexists. split; [vm_compute; reflexivity|].
  match goal with
  | |- ?t = [] ++ ?n /\ _ =>
    destruct (notifications_for_dose_events (fixed_zone 3600000)
      {| pr_protocol := make_protocol "p1" "fadiman" 1711324800000 2
                          {| custom := None |};
         pr_userId := "u1"; pr_name := "Spring"; pr_status := "active";
         pr_notificationSettings :=
           {| morningReminder := {| rs_enabled := true; rs_time := "08:30" |};
              eveningReflection := {| rs_enabled := true; rs_time := "21:00" |};
              channels := ["email"] |} |}
      [ {| row_id := "e1";
           row_event :=
             event_data (fixed_zone 3600000)
               (make_protocol "p1" "fadiman" 1711324800000 2
                  {| custom := None |})
               {| mp_substance := "lsd"; mp_calculatedDose := Fin 10;
                  mp_doseUnit := "ug" |} 1711324800000 1711324800000 |};
        {| row_id := "e2";
           row_event :=
             event_data (fixed_zone 3600000)
               (make_protocol "p1" "fadiman" 1711324800000 2
                  {| custom := None |})
               {| mp_substance := "lsd"; mp_calculatedDose := Fin 10;
                  mp_doseUnit := "ug" |} 1711324800000 1711411200000 |} ]
      [] n t) as (H1 & H2 & _)
  end; [vm_compute; reflexivity|].
  split; [exact H1|exact H2].
Defined.

(** ** Times of day *)

Lemma hhmm_parses_table :
  forallb
    (fun h =>
       forallb
         (fun m =>
            match parseInt_piece (split_colon (hhmm h m)) 0,
                  parseInt_piece (split_colon (hhmm h m)) 1 with
            | Fin (a # b), Fin (c # d) =>
              (a =? Z.of_nat h) && (b =? 1)%positive
              && (c =? Z.of_nat m) && (d =? 1)%positive
            | _, _ => false
            end)
         (seq 0 60))
    (seq 0 24) = true.
Proof. vm_compute. reflexivity. Qed.

(** A time written in the HH:MM format is read back as its hour and its
    minute. *)
Lemma hhmm_parses (h m : nat) :
  (h < 24)%nat -> (m < 60)%nat ->
  parseInt_piece (split_colon (hhmm h m)) 0 = Fin (inject_Z (Z.of_nat h)) /\
  parseInt_piece (split_colon (hhmm h m)) 1 = Fin (inject_Z (Z.of_nat m)).
Proof.
  intros Hh Hm. pose proof hhmm_parses_table as T.
  rewrite forallb_forall in T.
  specialize (T h ltac:(apply in_seq; lia)).
  rewrite forallb_forall in T.
  specialize (T m ltac:(apply in_seq; lia)).
  destruct (parseInt_piece (split_colon (hhmm h m)) 0) as [[a b]| |sa];
    [|discriminate T|discriminate T].
  destruct (parseInt_piece (split_colon (hhmm h m)) 1) as [[c d]| |sc];
    [|discriminate T|discriminate T].
  apply andb_prop in T as [T Hd]. apply andb_prop in T as [T Hc].
  apply andb_prop in T as [Ha Hb].
  apply Z.eqb_eq in Ha, Hc. apply Pos.eqb_eq in Hb, Hd. subst.
  split; reflexivity.
Qed.

Lemma to_integer_inject_Z (z : Z) : to_integer (inject_Z z) = z.
Proof. unfold to_integer, inject_Z. simpl. apply Z.quot_1_r. Qed.

(** X12.  In a process zone of constant offset, a reminder whose time is
    written HH:MM is scheduled on the local calendar day of the date of
    its event, at HH:MM local time. *)
Theorem reminder_local_time (offset eventDate : Z) (h m : nat) :
  (h < 24)%nat -> (m < 60)%nat ->
  - msPerDay < offset < msPerDay ->
  Z.abs eventDate <= 8640000000000000 - 2 * msPerDay ->
  exists s,
    reminder_date (fixed_zone offset) eventDate (hhmm h m) = Some s /\
    Day (LocalTime (fixed_zone offset) s)
      = Day (LocalTime (fixed_zone offset) eventDate) /\
    TimeWithinDay (LocalTime (fixed_zone offset) s)
      = Z.of_nat h * 3600000 + Z.of_nat m * 60000.
Proof.
  intros Hh Hm Ho Ht.
  destruct (hhmm_parses h m Hh Hm) as [Hp0 Hp1].
  unfold reminder_date. cbv zeta. rewrite Hp0, Hp1.
  unfold setHours. cbv zeta. rewrite !to_integer_inject_Z.
  unfold UTC, LocalTime. cbn [LocalTZA_utc LocalTZA_local fixed_zone].
  set (d := Day (eventDate + offset)).
  set (tod := MakeTime (Z.of_nat h) (Z.of_nat m) 0 0).
  assert (Htod : 0 <= tod < msPerDay).
  { unfold tod, MakeTime. change msPerDay with 86400000. lia. }
  assert (Hd : d * msPerDay <= eventDate + offset < d * msPerDay + msPerDay).
  { unfold d, Day. pose proof msPerDay_pos as Hpos.
    pose proof (Z.mul_div_le (eventDate + offset) msPerDay Hpos).
    pose proof (Z.mul_succ_div_gt (eventDate + offset) msPerDay Hpos).
    lia. }
  unfold TimeClip.
  destruct (Z.gtb_spec (Z.abs (MakeDate d tod - offset)) 8640000000000000)
    as [Hbig|Hok].
  { exfalso. unfold MakeDate in Hbig. change msPerDay with 86400000 in *.
    lia. }
  eexists. split; [reflexivity|].
  replace (MakeDate d tod - offset + offset) with (MakeDate d tod) by ring.
  rewrite Day_MakeDate, TimeWithinDay_MakeDate by exact Htod.
  split; [reflexivity|]. unfold tod, MakeTime. ring.
Qed.

Lemma reminder_local_time_witness :
  exists s,
    reminder_date (fixed_zone (-18000000)) 1711324800000 (hhmm 8 30) = Some s /\
    Day (LocalTime (fixed_zone (-18000000)) s)
      = Day (LocalTime (fixed_zone (-18000000)) 1711324800000) /\
    TimeWithinDay (LocalTime (fixed_zone (-18000000)) s)
      = Z.of_nat 8 * 3600000 + Z.of_nat 30 * 60000.
Proof.
  apply (reminder_local_time (-18000000) 1711324800000 8 30);
    [lia | lia | vm_compute; split; reflexivity | vm_compute; discriminate].
Defined.

Lemma split_colon_no_colon (s : string) :
  ~ In ":"%char (String.list_ascii_of_string s) -> split_colon s = [s].
Proof.
  induction s as [|c s IH]; intros Hn; [reflexivity|].
  cbn [split_colon]. cbn [String.list_ascii_of_string In] in Hn.
  destruct (Ascii.eqb_spec c ":"%char) as [->|Hc].
  - exfalso. apply Hn. left. reflexivity.
  - rewrite IH by tauto. reflexivity.
Qed.

(** X13.  A time of day without a colon gives no second piece, so the
    date of the reminder is invalid: when the morning reminder is enabled
    with such a time and some event is a dose event, the service rejects,
    and it has created nothing by then. *)
Theorem malformed_time_rejects (tz : TimeZone) (protocol : ProtocolRow)
    (events : list EventRow) (tbl : list Notification) :
  rs_enabled (morningReminder (pr_notificationSettings protocol)) = true ->
  ~ In ":"%char (String.list_ascii_of_string
                   (rs_time (morningReminder
                               (pr_notificationSettings protocol)))) ->
  (1 <= dose_count (map row_event events))%nat ->
  generateProtocolNotifications tz protocol events tbl = (Rejected, tbl).
Proof.
  intros Hen Hcolon Hdose. unfold generateProtocolNotifications.
  generalize (@nil Notification) as acc.
  induction events as [|event rest IH]; intros acc.
  - unfold dose_count in Hdose. simpl in Hdose. lia.
  - cbn [notify_events].
    destruct (String.eqb (e_type (row_event event)) "dose") eqn:Ed.
    + unfold notify_event. cbv zeta. rewrite Ed, Hen. cbn [andb].
      unfold reminder_date at 1. cbv zeta.
      rewrite split_colon_no_colon by exact Hcolon.
      unfold parseInt_piece at 2. cbn [nth_error].
      unfold setHours.
      destruct (parseInt_piece _ 0); reflexivity.
    + assert (Hp : notify_event tz protocol event tbl = (Fulfilled [], tbl)).
      { unfold notify_event. cbv zeta. rewrite Ed. reflexivity. }
      rewrite Hp. apply IH.
      unfold dose_count in *. cbn [map List.filter] in Hdose.
      rewrite Ed in Hdose. exact Hdose.
Qed.

Lemma malformed_time_rejects_witness :
  generateProtocolNotifications utc_zone
    {| pr_protocol := make_protocol "p1" "fadiman" 1711324800000 2
                        {| custom := None |};
       pr_userId := "u1"; pr_name := "Spring"; pr_status := "active";
       pr_notificationSettings :=
         {| morningReminder := {| rs_enabled := true; rs_time := "0830" |};
            eveningReflection := {| rs_enabled := false; rs_time := "" |};
            channels := ["email"] |} |}
    [ {| row_id := "e1";
         row_event :=
           event_data utc_zone
             (make_protocol "p1" "fadiman" 1711324800000 2
                {| custom := None |})
             {| mp_substance := "lsd"; mp_calculatedDose := Fin 10;
                mp_doseUnit := "ug" |} 1711324800000 1711324800000 |} ]
    [] = (Rejected, []).
Proof.
  apply malformed_time_rejects.
  - reflexivity.
  - simpl. intros [F|[F|[F|[F|[]]]]]; discriminate F.
  - vm_compute. lia.
Defined.

(** * The handlers *)

(** X14.  [POST /create] ends in one of two ways.  Either the handler
    itself answers with an error status, 401 or 400, and then it has
    stored nothing; or it has written the protocol row before it answers,
    with the created protocol or by passing a failure on to the error
    handler of the application.  For an authenticated user with a profile,
    a custom protocol without dose days is always answered 400, whatever
    the fuel, so the generator never runs on such settings through this
    handler. *)
Theorem create_rejections (tz : TimeZone) (fuel : nat) (newId : string)
    (eventIds : nat -> string) (user : option string)
    (body : option ProtocolData) (db : Database) :
  (forall response db',
     create_handler tz fuel newId eventIds user body db
       = Some (response, db') ->
     (exists status error,
        response = Json_error status error /\
        (status = 401 \/ status = 400) /\ db' = db) \/
     ((response = Next_error \/
       exists protocol events ns, response = Created protocol events ns) /\
      exists protocol, db_protocols db' !! newId = Some protocol)) /\
  (forall status error db',
     create_handler tz fuel newId eventIds user body db
       = Some (Json_error status error, db') ->
     db' = db) /\
  (forall userId profile data,
     user = Some userId -> userId <> "" ->
     db_profiles db !! userId = Some profile ->
     body = Some data ->
     pd_type data = "custom" ->
     no_dose_days (pd_settings data) ->
     create_handler tz fuel newId eventIds user body db
       = Some (Json_error 400 "Custom protocol requires dose days", db)).
Proof.
  assert (Hall : forall response db',
     create_handler tz fuel newId eventIds user body db
       = Some (response, db') ->
     (exists status error,
        response = Json_error status error /\
        (status = 401 \/ status = 400) /\ db' = db) \/
     ((response = Next_error \/
       exists protocol events ns, response = Created protocol events ns) /\
      exists protocol, db_protocols db' !! newId = Some protocol)).
  { intros response db'. unfold create_handler.
    destruct user as [userId|];
      [|intros [= <- <-]; left; eauto 6].
    destruct (negb (str_truthy userId));
      [intros [= <- <-]; left; eauto 6|].
    destruct (db_profiles db !! userId) as [profile|];
      [|intros [= <- <-]; left; eauto 6].
    destruct body as [data|]; [|intros [= <- <-]; left; eauto 6].
    destruct (check_protocol_settings (pd_type data) (pd_settings data));
      [intros [= <- <-]; left; eauto 6|].
    cbv zeta.
    destruct (generateProtocolEvents _ _ _ _ _) as [[evs st']|];
      [|discriminate].
    destruct (generateProtocolNotifications _ _ _ _) as [[ns|] tbl];
      intros [= <- <-]; right; cbn [db_protocols];
      (split; [|eexists; apply lookup_insert_eq]); eauto 6. }
  split; [exact Hall|]. split.
  - intros status error db' Hrun.
    destruct (Hall _ _ Hrun)
      as [(_ & _ & _ & _ & ->)|([H|(p & e & n & H)] & _)];
      [reflexivity|discriminate H|discriminate H].
  - intros userId profile data -> Hne Hprof -> Htype Hno.
    unfold create_handler.
    assert (Ht : str_truthy userId = true).
    { unfold str_truthy. apply negb_true_iff.
      apply String.eqb_neq. exact Hne. }
    rewrite Ht, Hprof. cbn [negb].
    unfold check_protocol_settings. rewrite Htype.
    change (String.eqb "custom" "fadiman") with false.
    change (String.eqb "custom" "stamets") with false.
    change (String.eqb "custom" "custom") with true. cbv iota.
    destruct Hno as [->|(cs & -> & [->| ->])]; reflexivity.
Qed.

(** X15.  A protocol is deleted only by its owner, and only when none of
    its events is completed, missed or skipped; every other answer of
    [DELETE /:id] leaves the database as it was. *)
Theorem delete_guard (user : option string) (id : string) (db : Database)
    (response : Response) (db' : Database) :
  delete_handler user id db = (response, db') ->
  (response = Deleted ->
   exists userId protocol,
     user = Some userId /\
     db_protocols db !! id = Some protocol /\
     pr_userId protocol = userId /\
     forall event,
       In event (db_events db) ->
       e_protocolId (row_event event) = id ->
       is_started event = false) /\
  (response <> Deleted -> db' = db).
Proof.
  unfold delete_handler.
  destruct user as [userId|];
    [|intros [= <- <-]; split; [discriminate|reflexivity]].
  destruct (negb (str_truthy userId));
    [intros [= <- <-]; split; [discriminate|reflexivity]|].
  destruct (db_protocols db !! id) as [protocol|] eqn:Hp;
    [|intros [= <- <-]; split; [discriminate|reflexivity]].
  destruct (String.eqb_spec (pr_userId protocol) userId) as [Hu|Hu];
    cbn [negb];
    [|intros [= <- <-]; split; [discriminate|reflexivity]].
  cbv zeta.
  destruct (Nat.ltb_spec 0
              (length (List.filter is_started
                         (List.filter
                            (fun event =>
                               String.eqb (e_protocolId (row_event event)) id)
                            (db_events db))))) as [Hs|Hs];
    [intros [= <- <-]; split; [discriminate|reflexivity]|].
  intros [= <- <-]. split; [|intros H; contradiction H; reflexivity].
  intros _. exists userId, protocol. repeat split; try assumption.
  intros event Hin Hid.
  destruct (is_started event) eqn:E; [|reflexivity].
  exfalso.
  assert (Hf : In event
                 (List.filter is_started
                    (List.filter
                       (fun event =>
                          String.eqb (e_protocolId (row_event event)) id)
                       (db_events db)))).
  { apply filter_In. split; [|exact E].
    apply filter_In. split; [exact Hin|].
    apply String.eqb_eq. exact Hid. }
  destruct (List.filter is_started _); [destruct Hf|simpl in Hs; lia].
Qed.

Lemma delete_guard_witness :
  (fst (delete_handler (Some "u0") "p0" example_db) = Deleted ->
   exists userId protocol,
     Some "u0" = Some userId /\
     db_protocols example_db !! "p0" = Some protocol /\
     pr_userId protocol = userId /\
     forall event,
       In event (db_events example_db) ->
       e_protocolId (row_event event) = "p0" ->
       is_started event = false) /\
  (fst (delete_handler (Some "u0") "p0" example_db) <> Deleted ->
   snd (delete_handler (Some "u0") "p0" example_db) = example_db).
Proof.
  apply (delete_guard (Some "u0") "p0" example_db
           (fst (delete_handler (Some "u0") "p0" example_db))
           (snd (delete_handler (Some "u0") "p0" example_db))).
  vm_compute. reflexivity.
Defined.

(** ** What a successful creation stores *)

Lemma event_rows_events (eventIds : nat -> string) (evs : list ProtocolEvent) :
  map row_event (event_rows eventIds evs) = evs.
Proof.
  unfold event_rows. revert eventIds.
  induction evs as [|e evs IH]; intros eventIds; [reflexivity|].
  rewrite imap_cons. cbn [map row_event]. f_equal. apply IH.
Qed.

Lemma event_rows_ids (eventIds : nat -> string) (evs : list ProtocolEvent)
    (x : string) :
  In x (map row_id (event_rows eventIds evs)) -> exists k, x = eventIds k.
Proof.
  unfold event_rows. revert eventIds.
  induction evs as [|e evs IH]; intros eventIds; [intros []|].
  rewrite imap_cons. cbn [map row_id In].
  intros [<-|Hin]; [eauto|].
  apply IH in Hin as (k & ->). exists (S k). reflexivity.
Qed.

Lemma event_rows_Forall (eventIds : nat -> string)
    (evs : list ProtocolEvent) (P : ProtocolEvent -> Prop) :
  Forall P evs ->
  Forall (fun event => P (row_event event)) (event_rows eventIds evs).
Proof.
  intros H. rewrite <- (event_rows_events eventIds evs) in H.
  induction (event_rows eventIds evs) as [|r rows IH]; [constructor|].
  cbn [map] in H. apply Forall_cons in H as [H1 H2].
  constructor; auto.
Qed.

Lemma create_created (tz : TimeZone) (fuel : nat) (newId : string)
    (eventIds : nat -> string) (user : option string)
    (body : option ProtocolData) (db : Database)
    (protocol : ProtocolRow) (events : list EventRow)
    (ns : list Notification) (db1 : Database) :
  create_handler tz fuel newId eventIds user body db
    = Some (Created protocol events ns, db1) ->
  exists userId data profile evs st',
    user = Some userId /\ body = Some data /\
    userId <> "" /\
    db_profiles db !! userId = Some profile /\
    check_protocol_settings (pd_type data) (pd_settings data) = None /\
    protocol =
      {| pr_protocol :=
           make_protocol newId (pd_type data) (pd_startDate data)
             (pd_cycleLength data) (pd_settings data);
         pr_userId := userId; pr_name := pd_name data;
         pr_status := "active";
         pr_notificationSettings := pd_notificationSettings data |} /\
    generateProtocolEvents tz fuel (pr_protocol protocol) profile
      (map row_event (db_events db)) = Some (evs, st') /\
    events = event_rows eventIds evs /\
    generateProtocolNotifications tz protocol events (db_notifications db)
      = (Fulfilled ns, db_notifications db1) /\
    db_profiles db1 = db_profiles db /\
    db_protocols db1 = <[newId := protocol]> (db_protocols db) /\
    db_events db1 = db_events db ++ events /\
    db_journal db1 = db_journal db /\
    db_activities db1 =
      db_activities db ++
      [{| a_userId := userId; a_type := "protocol_created";
          a_title := "Protocol created"; a_protocolId := newId;
          a_protocolType := pd_type data |}].
Proof.
  unfold create_handler.
  destruct user as [userId|]; [|discriminate].
  destruct (str_truthy userId) eqn:Ht; cbn [negb]; [|discriminate].
  destruct (db_profiles db !! userId) as [profile|] eqn:Hp; [|discriminate].
  destruct body as [data|]; [|discriminate].
  destruct (check_protocol_settings (pd_type data) (pd_settings data)) eqn:Hc;
    [discriminate|].
  cbv zeta.
  destruct (generateProtocolEvents _ _ _ _ _) as [[evs st']|] eqn:Hg;
    [|discriminate].
  destruct (generateProtocolNotifications _ _ _ _) as [[ns'|] tbl] eqn:Hn;
    [|discriminate].
  intros [= <- <- <- <-].
  exists userId, data, profile, evs, st'.
  repeat (split; [reflexivity|]).
  split.
  { intros ->. discriminate Ht. }
  repeat (split; [first [reflexivity|assumption]|]).
  reflexivity.
Qed.

Lemma filter_all {A : Type} (p : A -> bool) (l : list A) :
  Forall (fun x => p x = true) l -> List.filter p l = l.
Proof.
  induction 1 as [|x l Hx _ IH]; [reflexivity|].
  simpl. rewrite Hx, IH. reflexivity.
Qed.

Lemma filter_none {A : Type} (p : A -> bool) (l : list A) :
  Forall (fun x => p x = false) l -> List.filter p l = [].
Proof.
  induction 1 as [|x l Hx _ IH]; [reflexivity|].
  simpl. rewrite Hx, IH. reflexivity.
Qed.

Lemma generated_rows_Forall (tz : TimeZone) (fuel : nat)
    (protocol : Protocol) (profile : MicrodoseProfile) (st : Store)
    (evs : list ProtocolEvent) (st' : Store) :
  generateProtocolEvents tz fuel protocol profile st = Some (evs, st') ->
  Forall (fun e => row_well_formed protocol e /\ dose_fields_ok profile e) evs.
Proof.
  intros Hrun.
  eapply generate_loop_Forall; [|constructor|exact Hrun].
  intros cur. split; [apply event_data_well_formed|apply event_type_cases].
Qed.

(** X16.  Creating a protocol and then deleting it is a round trip on the
    data: when no row refers to the ids that the new rows are given, the
    profile, protocol, event, journal and notification tables after the
    deletion are the ones before the creation; only the activity log
    keeps the two entries of the requests. *)
Theorem create_then_delete (tz : TimeZone) (fuel : nat) (newId : string)
    (eventIds : nat -> string) (userId : string) (data : ProtocolData)
    (db : Database) (protocol : ProtocolRow) (events : list EventRow)
    (ns : list Notification) (db1 : Database) :
  ids_fresh newId eventIds userId db ->
  create_handler tz fuel newId eventIds (Some userId) (Some data) db
    = Some (Created protocol events ns, db1) ->
  exists db2,
    delete_handler (Some userId) newId db1 = (Deleted, db2) /\
    db_profiles db2 = db_profiles db /\
    db_protocols db2 = db_protocols db /\
    db_events db2 = db_events db /\
    db_journal db2 = db_journal db /\
    db_notifications db2 = db_notifications db /\
    db_activities db2 =
      db_activities db ++
      [{| a_userId := userId; a_type := "protocol_created";
          a_title := "Protocol created"; a_protocolId := newId;
          a_protocolType := pd_type data |};
       {| a_userId := userId; a_type := "protocol_deleted";
          a_title := "Protocol deleted"; a_protocolId := newId;
          a_protocolType := pd_type data |}].
Proof.
  intros (Hfp & Hfe & Hfn & Hfj) Hcreate.
  apply create_created in Hcreate
    as (u & d & profile & evs & st' & [= <-] & [= <-] & Hne & Hprof & Hcheck
        & Hprot & Hgen & Hev & Hnot & E1 & E2 & E3 & E4 & E5).
  assert (Hrows : Forall (fun event =>
                    e_protocolId (row_event event) = newId /\
                    e_status (row_event event) = "scheduled") events).
  { subst events.
    apply (event_rows_Forall eventIds evs
             (fun e => e_protocolId e = newId /\ e_status e = "scheduled")).
    eapply Forall_impl; [exact (generated_rows_Forall _ _ _ _ _ _ _ Hgen)|].
    intros e ((Hid & Hst & _) & _). rewrite Hprot in Hid.
    cbn [pr_protocol p_id make_protocol] in Hid. auto. }
  unfold generateProtocolNotifications in Hnot.
  apply notify_events_fulfilled in Hnot as (new & Hns & Htbl & Hok & _ & _).
  simpl in Hns. subst new.
  unfold delete_handler.
  assert (Ht : str_truthy userId = true).
  { unfold str_truthy. apply negb_true_iff. apply String.eqb_neq. exact Hne. }
  rewrite Ht, E2, lookup_insert_eq. cbn [negb].
  assert (Huser : String.eqb (pr_userId protocol) userId = true).
  { rewrite Hprot. apply String.eqb_refl. }
  rewrite Huser. cbn [negb]. cbv zeta.
  assert (Hold_ne : Forall (fun event =>
            String.eqb (e_protocolId (row_event event)) newId = false)
            (db_events db)).
  { eapply Forall_impl; [exact Hfe|]. intros ev H.
    apply String.eqb_neq. exact H. }
  assert (Hnew_eq : Forall (fun event =>
            String.eqb (e_protocolId (row_event event)) newId = true) events).
  { eapply Forall_impl; [exact Hrows|]. intros ev [H _].
    apply String.eqb_eq. exact H. }
  assert (Hmine :
    List.filter
      (fun event => String.eqb (e_protocolId (row_event event)) newId)
      (db_events db1) = events).
  { rewrite E3, List.filter_app, (filter_none _ _ Hold_ne), (filter_all _ _ Hnew_eq).
    reflexivity. }
  rewrite Hmine.
  assert (Hstarted : List.filter is_started events = []).
  { apply filter_none. eapply Forall_impl; [exact Hrows|].
    intros ev [_ Hst]. unfold is_started. cbv zeta. rewrite Hst.
    reflexivity. }
  rewrite Hstarted. cbn [length Nat.ltb Nat.leb].
  eexists. split; [reflexivity|].
  cbn [db_profiles db_protocols db_events db_journal db_notifications
       db_activities].
  split; [exact E1|].
  split; [apply delete_insert_id; exact Hfp|].
  split.
  { rewrite E3, List.filter_app.
    rewrite (filter_all _ (db_events db)), (filter_none _ events).
    - apply app_nil_r.
    - eapply Forall_impl; [exact Hnew_eq|]. intros ev ->. reflexivity.
    - eapply Forall_impl; [exact Hold_ne|]. intros ev ->. reflexivity. }
  split.
  { rewrite E4. destruct (length (map row_id events)); [reflexivity|].
    apply filter_all. eapply Forall_impl; [exact Hfj|].
    intros entry Hk. unfold includes.
    destruct (existsb (String.eqb (j_eventId entry)) (map row_id events))
      eqn:E; [|reflexivity].
    exfalso. apply existsb_exists in E as (x & Hin & Heq).
    apply String.eqb_eq in Heq. subst x. rewrite Hev in Hin.
    apply event_rows_ids in Hin as (k & Hk'). exact (Hk k Hk'). }
  split.
  { rewrite Htbl, List.filter_app.
    rewrite (filter_all _ (db_notifications db)), (filter_none _ ns).
    - apply app_nil_r.
    - eapply Forall_impl; [exact Hok|].
      intros n (Hu & _ & Hp & _). rewrite Hu, Hp, Hprot.
      cbn [pr_userId pr_protocol p_id make_protocol].
      rewrite !String.eqb_refl. reflexivity.
    - eapply Forall_impl; [exact Hfn|]. intros n Hn.
      apply String.eqb_neq in Hn. rewrite Hn, andb_false_r. reflexivity. }
  rewrite E5, <- app_assoc. cbn [app]. rewrite Hprot. reflexivity.
Qed.

Lemma create_then_delete_witness :
  ids_fresh "p1" example_event_ids "u1" example_db /\
  exists protocol events ns db1,
    create_handler utc_zone 100 "p1" example_event_ids (Some "u1")
      (Some example_data) example_db
      = Some (Created protocol events ns, db1) /\
    exists db2,
      delete_handler (Some "u1") "p1" db1 = (Deleted, db2) /\
      db_profiles db2 = db_profiles example_db /\
      db_protocols db2 = db_protocols example_db /\
      db_events db2 = db_events example_db /\
      db_journal db2 = db_journal example_db /\
      db_notifications db2 = db_notifications example_db /\
      db_activities db2 =
        db_activities example_db ++
        [{| a_userId := "u1"; a_type := "protocol_created";
            a_title := "Protocol created"; a_protocolId := "p1";
            a_protocolType := pd_type example_data |};
         {| a_userId := "u1"; a_type := "protocol_deleted";
            a_title := "Protocol deleted"; a_protocolId := "p1";
            a_protocolType := pd_type example_data |}].
Proof.
  assert (Hf : ids_fresh "p1" example_event_ids "u1" example_db).
  { split; [vm_compute; reflexivity|].
    repeat split; repeat constructor; simpl; try discriminate. }
  split; [exact Hf|].
  do 4 eexists. split; [vm_compute; reflexivity|].
  eapply (create_then_delete utc_zone 100 "p1" example_event_ids "u1"
            example_data example_db _ _ _ _ Hf).
  vm_compute. reflexivity.
Defined.

(** ** What a deletion removes *)

(** X17.  A successful [DELETE /:id] removes the protocol, exactly the
    events of that protocol, exactly the journal entries of those events
    and exactly the notifications of the user for that protocol; profiles,
    other protocols and every other row stay, and one activity is
    logged. *)
Theorem delete_isolation (user : option string) (id : string)
    (db db' : Database) :
  delete_handler user id db = (Deleted, db') ->
  db_profiles db' = db_profiles db /\
  db_protocols db' !! id = None /\
  (forall other, other <> id ->
     db_protocols db' !! other = db_protocols db !! other) /\
  (forall event,
     In event (db_events db') <->
     In event (db_events db) /\ e_protocolId (row_event event) <> id) /\
  (forall entry,
     In entry (db_journal db') <->
     In entry (db_journal db) /\
     ~ exists event,
         In event (db_events db) /\
         e_protocolId (row_event event) = id /\
         row_id event = j_eventId entry) /\
  (forall n,
     In n (db_notifications db') <->
     In n (db_notifications db) /\
     ~ (Some (n_userId n) = user /\ nm_protocolId (n_metadata n) = id)) /\
  length (db_activities db') = S (length (db_activities db)).
Proof.
  unfold delete_handler.
  destruct user as [userId|]; [|discriminate].
  destruct (negb (str_truthy userId)); [discriminate|].
  destruct (db_protocols db !! id) as [protocol|] eqn:Hp; [|discriminate].
  destruct (negb (String.eqb (pr_userId protocol) userId)); [discriminate|].
  cbv zeta.
  destruct (0 <? _)%nat; [discriminate|].
  intros [= <-].
  cbn [db_profiles db_protocols db_events db_journal db_notifications
       db_activities].
  split; [reflexivity|].
  split; [apply lookup_delete_eq|].
  split; [intros other Hne; apply lookup_delete_ne; congruence|].
  split; [|split; [|split]].
  - intros event. rewrite filter_In, negb_true_iff, String.eqb_neq.
    reflexivity.
  - intros entry.
    assert (Hinc :
      includes
        (map row_id
           (List.filter
              (fun event => String.eqb (e_protocolId (row_event event)) id)
              (db_events db))) (j_eventId entry) = true <->
      exists event,
        In event (db_events db) /\
        e_protocolId (row_event event) = id /\
        row_id event = j_eventId entry).
    { unfold includes. rewrite existsb_exists. split.
      - intros (x & Hin & Heq). apply String.eqb_eq in Heq. subst x.
        apply in_map_iff in Hin as (event & Hid & Hin).
        apply filter_In in Hin as [Hin Hprot].
        apply String.eqb_eq in Hprot. eauto.
      - intros (event & Hin & Hprot & Hid).
        exists (j_eventId entry). split; [|apply String.eqb_refl].
        apply in_map_iff. exists event. split; [exact Hid|].
        apply filter_In. split; [exact Hin|].
        apply String.eqb_eq. exact Hprot. }
    destruct (Nat.ltb_spec 0
                (length (map row_id
                   (List.filter
                      (fun event =>
                         String.eqb (e_protocolId (row_event event)) id)
                      (db_events db))))) as [Hlen|Hlen].
    + rewrite filter_In, negb_true_iff, <- Hinc, not_true_iff_false.
      reflexivity.
    + split; [|tauto]. intros Hin. split; [exact Hin|].
      rewrite <- Hinc. unfold includes.
      destruct (map row_id _); [simpl; discriminate|simpl in Hlen; lia].
  - intros n. rewrite filter_In, negb_true_iff, andb_false_iff.
    rewrite !String.eqb_neq.
    assert (Heq : Some (n_userId n) = Some userId <-> n_userId n = userId)
      by (split; congruence).
    rewrite Heq.
    destruct (String.string_dec (n_userId n) userId);
      destruct (String.string_dec (nm_protocolId (n_metadata n)) id); tauto.
  - rewrite length_app. simpl. lia.
Qed.

Lemma delete_isolation_witness :
  delete_handler (Some "u1") "p1" example_created_db
    = (Deleted, snd (delete_handler (Some "u1") "p1" example_created_db)) /\
  db_protocols (snd (delete_handler (Some "u1") "p1" example_created_db))
    !! "p1" = None.
Proof.
  assert (Hrun : delete_handler (Some "u1") "p1" example_created_db
                 = (Deleted,
                    snd (delete_handler (Some "u1") "p1" example_created_db)))
    by (vm_compute; reflexivity).
  split; [exact Hrun|].
  destruct (delete_isolation (Some "u1") "p1" example_created_db
              (snd (delete_handler (Some "u1") "p1" example_created_db))
              Hrun) as (_ & Hgone & _).
  exact Hgone.
Defined.

(** ** From the calculator to the events *)

Lemma save_profile_saved (user : option string)
    (body : option MicrodoseCalculationParams) (db : Database)
    (profile : MicrodoseProfile) (result : MicrodoseCalculationResult)
    (db' : Database) :
  save_profile_handler user body db = (Saved profile result, db') ->
  exists userId params unit,
    user = Some userId /\ body = Some params /\ userId <> "" /\
    isValid (validateParams params) = true /\
    calculate params = Normal result /\
    doseUnit result = Some unit /\
    profile = {| mp_substance := substance params;
                 mp_calculatedDose := calculatedDose result;
                 mp_doseUnit := unit_name unit |} /\
    db' = {| db_profiles := <[userId := profile]> (db_profiles db);
             db_protocols := db_protocols db;
             db_events := db_events db;
             db_journal := db_journal db;
             db_notifications := db_notifications db;
             db_activities := db_activities db |}.
Proof.
  unfold save_profile_handler.
  destruct user as [userId|]; [|discriminate].
  destruct body as [params|]; [|discriminate].
  destruct (str_truthy userId) eqn:Ht; cbn [negb]; [|discriminate].
  destruct (isValid (validateParams params)) eqn:Hv; cbn [negb];
    [|discriminate].
  destruct (calculate params) as [result'|] eqn:Hc; [|discriminate].
  destruct (doseUnit result') as [unit|] eqn:Hu; [|discriminate].
  cbv zeta. intros [= <- <- <-].
  exists userId, params, unit.
  split; [reflexivity|]. split; [reflexivity|].
  split; [intros ->; discriminate Ht|].
  split; [exact Hv|]. split; [exact Hc|]. split; [exact Hu|].
  split; reflexivity.
Qed.

(** X18.  [POST /save-profile] answers 401 to a request without a user,
    whatever the body is.  It answers with an error status, or passes a
    failure on to the error handler of the application, and leaves the
    database as it was; or it stores the profile of the user and nothing
    else, and then the dose of the stored profile is the one [calculate]
    returns for the parameters, a finite number that is not negative.
    The TypeError of [calculate] reaches the error handler exactly when
    parameters that [validateParams] accepts have an intake form named
    like a member of [Object.prototype]: the schema and the validation
    ask no more of the intake form than to be a non-empty string. *)
Theorem save_profile_outcomes (user : option string)
    (body : option MicrodoseCalculationParams) (db : Database)
    (response : Response) (db' : Database) :
  save_profile_handler user body db = (response, db') ->
  (user = None -> response = Json_error 401 "Authentication required") /\
  (response = Next_error <->
   exists userId params,
     user = Some userId /\ userId <> "" /\ body = Some params /\
     isValid (validateParams params) = true /\
     In (intakeForm params) Object_prototype_names) /\
  (response = Next_error -> db' = db) /\
  ((exists status error, response = Json_error status error) -> db' = db) /\
  (forall profile result,
     response = Saved profile result ->
     exists userId params unit d,
       user = Some userId /\ body = Some params /\
       ~ In (intakeForm params) Object_prototype_names /\
       calculate params = Normal result /\
       calculatedDose result = Fin d /\ (0 <= d)%Q /\
       doseUnit result = Some unit /\
       db_profiles db' !! userId = Some profile /\
       mp_substance profile = substance params /\
       mp_calculatedDose profile = Fin d /\
       mp_doseUnit profile = unit_name unit /\
       (forall other, other <> userId ->
          db_profiles db' !! other = db_profiles db !! other) /\
       db_protocols db' = db_protocols db /\
       db_events db' = db_events db /\
       db_journal db' = db_journal db /\
       db_notifications db' = db_notifications db /\
       db_activities db' = db_activities db).
Proof.
  intros Hrun. split; [|split; [|split; [|split]]].
  - intros ->. cbn in Hrun. injection Hrun as <- _. reflexivity.
  - revert Hrun. unfold save_profile_handler.
    destruct user as [userId|];
      [|intros [= <- _]; split; [discriminate|];
        intros (u & p & [=] & _)].
    destruct body as [params|];
      [|intros [= <- _]; split; [discriminate|];
        intros (u & p & _ & _ & [=] & _)].
    destruct (str_truthy userId) eqn:Ht; cbn [negb];
      [|intros [= <- _]; split; [discriminate|];
        intros (u & p & [= <-] & Hne & _); exfalso; apply Hne;
        unfold str_truthy in Ht; apply negb_false_iff in Ht;
        apply String.eqb_eq in Ht; exact Ht].
    destruct (isValid (validateParams params)) eqn:Hv; cbn [negb];
      [|intros [= <- _]; split; [discriminate|];
        intros (u & p & _ & _ & [= <-] & Hv' & _); congruence].
    destruct (includes Object_prototype_names (intakeForm params)) eqn:E.
    + apply includes_In in E.
      rewrite (calculate_prototype_form params E).
      intros [= <- _]. split; [|reflexivity]. intros _.
      exists userId, params. repeat split; try assumption.
      intros ->. discriminate Ht.
    + assert (Hf : ~ In (intakeForm params) Object_prototype_names).
      { intros Hin. apply includes_In in Hin. congruence. }
      destruct (valid_params_dose params Hv Hf)
        as (r & unit & d & -> & -> & _).
      cbv zeta. intros [= <- _]. split; [discriminate|].
      intros (u & p & _ & _ & [= <-] & _ & Hin). contradiction.
  - intros ->. revert Hrun. unfold save_profile_handler.
    destruct user as [userId|]; [|discriminate].
    destruct body as [params|]; [|discriminate].
    destruct (negb (str_truthy userId)); [discriminate|].
    destruct (negb (isValid (validateParams params))); [discriminate|].
    destruct (calculate params) as [result|]; [|intros [= <-]; reflexivity].
    destruct (doseUnit result); [discriminate|intros [= <-]; reflexivity].
  - intros (status & error & ->). revert Hrun. unfold save_profile_handler.
    destruct user as [userId|]; [|intros [= _ _ <-]; reflexivity].
    destruct body as [params|]; [|intros [= _ _ <-]; reflexivity].
    destruct (negb (str_truthy userId)); [intros [= _ _ <-]; reflexivity|].
    destruct (negb (isValid (validateParams params)));
      [intros [= _ _ <-]; reflexivity|].
    destruct (calculate params) as [result|]; [|discriminate].
    destruct (doseUnit result); discriminate.
  - intros profile result ->.
    apply save_profile_saved in Hrun
      as (userId & params & unit & -> & -> & Hne & Hv & Hc & Hu & Hprof & ->).
    assert (Hf : ~ In (intakeForm params) Object_prototype_names).
    { intros Hin. rewrite (calculate_prototype_form params Hin) in Hc.
      discriminate Hc. }
    destruct (valid_params_dose params Hv Hf)
      as (r & unit' & d & Hc' & _ & Hd & Hd0).
    rewrite Hc in Hc'. injection Hc' as <-.
    exists userId, params, unit, d.
    cbn [db_profiles db_protocols db_events db_journal db_notifications
         db_activities].
    split; [reflexivity|]. split; [reflexivity|]. split; [exact Hf|].
    split; [exact Hc|].
    split; [exact Hd|]. split; [exact Hd0|]. split; [exact Hu|].
    split; [apply lookup_insert_eq|].
    rewrite Hprof. cbn [mp_substance mp_calculatedDose mp_doseUnit].
    split; [reflexivity|]. split; [exact Hd|]. split; [reflexivity|].
    split; [|repeat split].
    intros other Hne'. apply lookup_insert_ne. congruence.
Qed.

Lemma save_profile_outcomes_witness :
  fst (save_profile_handler (Some "u2")
         (Some {| gender := "other"; weight := Fin 62;
                  substance := "amanita"; intakeForm := "constructor";
                  sensitivity := Fin (4 # 5); goal := "upper_microdose";
                  experience := None; currentMedication := Some "" |})
         example_db) = Next_error /\
  fst (save_profile_handler (Some "u2") (Some example_params) example_db)
    <> Next_error.
Proof.
  split.
  - reflexivity.
  - assert (Hrun : save_profile_handler (Some "u2") (Some example_params)
                     example_db
                   = (fst (save_profile_handler (Some "u2")
                             (Some example_params) example_db),
                      snd (save_profile_handler (Some "u2")
                             (Some example_params) example_db)))
      by (vm_compute; reflexivity).
    destruct (save_profile_outcomes _ _ _ _ _ Hrun) as (_ & Hiff & _).
    intros H. apply Hiff in H as (u & p & _ & _ & [= <-] & _ & Hin).
    revert Hin. not_in_literals.
Defined.

(** X19.  The dose travels unchanged from the calculator to the calendar:
    after [POST /save-profile] has stored the profile, every dose event
    that [POST /create] generates for the same user carries the substance
    of the parameters and the dose and unit that [calculate] returned,
    every other event carries none, and every reminder repeats them. *)
Theorem saved_dose_reaches_events (tz : TimeZone) (fuel : nat)
    (newId : string) (eventIds : nat -> string) (user : option string)
    (params : MicrodoseCalculationParams) (body : option ProtocolData)
    (db db1 db2 : Database) (profile : MicrodoseProfile)
    (result : MicrodoseCalculationResult) (protocol : ProtocolRow)
    (events : list EventRow) (ns : list Notification) :
  save_profile_handler user (Some params) db = (Saved profile result, db1) ->
  create_handler tz fuel newId eventIds user body db1
    = Some (Created protocol events ns, db2) ->
  calculate params = Normal result /\
  exists unit,
  doseUnit result = Some unit /\
  Forall (fun event =>
            (e_type (row_event event) = "dose" /\
             e_substance (row_event event) = Some (substance params) /\
             e_dose (row_event event) = Some (calculatedDose result) /\
             e_doseUnit (row_event event) = Some (unit_name unit)) \/
            (e_type (row_event event) = "pause" /\
             e_substance (row_event event) = None /\
             e_dose (row_event event) = None /\
             e_doseUnit (row_event event) = None)) events /\
  Forall (fun n =>
            n_type n = "reminder" ->
            nm_dose (n_metadata n) =
              Some (Some (substance params), Some (calculatedDose result),
                    Some (unit_name unit))) ns.
Proof.
  intros Hsave Hcreate.
  apply save_profile_saved in Hsave
    as (userId & params' & unit & -> & [= <-] & Hne & Hv & Hc & Hu & Hprof
        & ->).
  apply create_created in Hcreate
    as (u & data & profile' & evs & st' & [= <-] & -> & _ & Hlook & _
        & Hprot & Hgen & Hev & Hnot & _).
  cbn [db_profiles] in Hlook. rewrite lookup_insert_eq in Hlook.
  injection Hlook as <-.
  assert (Hrows : Forall (fun event => dose_fields_ok profile (row_event event))
                    events).
  { subst events.
    apply (event_rows_Forall eventIds evs (dose_fields_ok profile)).
    eapply Forall_impl; [exact (generated_rows_Forall _ _ _ _ _ _ _ Hgen)|].
    intros e [_ H]. exact H. }
  assert (Hfields : forall event,
            dose_fields_ok profile (row_event event) ->
            e_type (row_event event) = "dose" ->
            e_substance (row_event event) = Some (substance params) /\
            e_dose (row_event event) = Some (calculatedDose result) /\
            e_doseUnit (row_event event) = Some (unit_name unit)).
  { intros event (_ & Hd & _) Ht. specialize (Hd Ht).
    rewrite Hprof in Hd. exact Hd. }
  split; [exact Hc|]. exists unit. split; [exact Hu|]. split.
  - eapply Forall_impl; [exact Hrows|].
    intros event Hok. pose proof Hok as ([Ht|Ht] & Hd & Hp).
    + left. split; [exact Ht|]. apply Hfields; assumption.
    + right. split; [exact Ht|]. exact (Hp Ht).
  - unfold generateProtocolNotifications in Hnot.
    apply notify_events_fulfilled in Hnot as (new & Hns & _ & Hok & _).
    simpl in Hns. subst new.
    eapply Forall_impl; [exact Hok|].
    intros n (_ & _ & _ & _ & event & Hin & Ht & _ & Hdose) Hr.
    rewrite (Hdose Hr).
    assert (Hf : dose_fields_ok profile (row_event event)).
    { rewrite List.Forall_forall in Hrows. apply Hrows. exact Hin. }
    destruct (Hfields event Hf Ht) as (-> & -> & ->). reflexivity.
Qed.

Lemma saved_dose_reaches_events_witness :
  exists profile result db1 protocol events ns db2,
    save_profile_handler (Some "u1") (Some example_params) example_db
      = (Saved profile result, db1) /\
    create_handler utc_zone 100 "p1" example_event_ids (Some "u1")
      (Some example_data) db1 = Some (Created protocol events ns, db2) /\
    calculate example_params = Normal result.
Proof.
  do 7 eexists.
  split; [vm_compute; reflexivity|].
  split; [vm_compute; reflexivity|].
  eapply (saved_dose_reaches_events utc_zone 100 "p1" example_event_ids
            (Some "u1") example_params (Some example_data) example_db);
    vm_compute; reflexivity.
Defined.

(** ** A failure of the notification service *)

Lemma notify_event_rejected (tz : TimeZone) (protocol : ProtocolRow)
    (event : EventRow) (tbl tbl' : list Notification) :
  notify_event tz protocol event tbl = (Rejected, tbl') ->
  e_type (row_event event) = "dose" /\
  exists new, tbl' = tbl ++ new /\ (length new <= 1)%nat.
Proof.
  unfold notify_event, createNotification. cbv zeta.
  destruct (String.eqb_spec (e_type (row_event event)) "dose") as [Hd|Hd];
    cbn [andb]; [|discriminate].
  intros Hrun. split; [exact Hd|]. revert Hrun.
  destruct (rs_enabled (morningReminder _));
    destruct (rs_enabled (eveningReflection _));
    repeat match goal with
           | |- context [reminder_date ?a ?b ?c] =>
             destruct (reminder_date a b c)
           end;
    intros [= <-];
    first [ exists []; rewrite app_nil_r; split; [reflexivity|simpl; lia]
          | eexists [_]; split; [reflexivity|simpl; lia] ].
Qed.

Lemma notify_events_rejected (tz : TimeZone) (protocol : ProtocolRow)
    (events : list EventRow) :
  forall acc tbl tbl',
    notify_events tz protocol events acc tbl = (Rejected, tbl') ->
    (1 <= dose_count (map row_event events))%nat /\
    exists new, tbl' = tbl ++ new.
Proof.
  induction events as [|event rest IH]; intros acc tbl tbl' Hrun;
    [discriminate Hrun|].
  cbn [notify_events] in Hrun.
  destruct (notify_event tz protocol event tbl) as [[pushed|] tbl1] eqn:E.
  - apply notify_event_fulfilled in E as (-> & _).
    apply IH in Hrun as (Hc & new & ->). split.
    + unfold dose_count in *. cbn [map List.filter].
      destruct (String.eqb _ "dose"); simpl; lia.
    + exists (pushed ++ new). symmetry. apply app_assoc.
  - injection Hrun as <-.
    apply notify_event_rejected in E as (Hd & new & -> & _). split.
    + unfold dose_count. cbn [map List.filter]. rewrite Hd.
      change (String.eqb "dose" "dose") with true. simpl. lia.
    + exists new. reflexivity.
Qed.

(** X20.  [POST /create] does not undo what it has stored when the
    notification service fails: the request ends in the error handler, yet
    the protocol and all its events are in the database, together with the
    notifications created before the failure; no activity is logged. *)
Theorem create_failure_keeps_rows (tz : TimeZone) (fuel : nat)
    (newId : string) (eventIds : nat -> string) (user : option string)
    (body : option ProtocolData) (db db' : Database) :
  create_handler tz fuel newId eventIds user body db
    = Some (Next_error, db') ->
  exists protocol evs new,
    db_protocols db' = <[newId := protocol]> (db_protocols db) /\
    Some (pr_userId protocol) = user /\
    db_events db' = db_events db ++ event_rows eventIds evs /\
    Forall (row_well_formed (pr_protocol protocol)) evs /\
    (1 <= dose_count evs)%nat /\
    db_notifications db' = db_notifications db ++ new /\
    db_activities db' = db_activities db /\
    db_profiles db' = db_profiles db /\
    db_journal db' = db_journal db.
Proof.
  unfold create_handler.
  destruct user as [userId|]; [|discriminate].
  destruct (negb (str_truthy userId)); [discriminate|].
  destruct (db_profiles db !! userId) as [profile|]; [|discriminate].
  destruct body as [data|]; [|discriminate].
  destruct (check_protocol_settings (pd_type data) (pd_settings data));
    [discriminate|].
  cbv zeta.
  destruct (generateProtocolEvents _ _ _ _ _) as [[evs st']|] eqn:Hgen;
    [|discriminate].
  destruct (generateProtocolNotifications _ _ _ _) as [[ns|] tbl] eqn:Hnot;
    [discriminate|].
  intros [= <-].
  unfold generateProtocolNotifications in Hnot.
  apply notify_events_rejected in Hnot as (Hc & new & ->).
  rewrite event_rows_events in Hc.
  eexists _, evs, new.
  cbn [db_profiles db_protocols db_events db_journal db_notifications
       db_activities pr_userId pr_protocol].
  repeat (split; [reflexivity|]).
  split; [|repeat split; exact Hc].
  eapply Forall_impl; [exact (generated_rows_Forall _ _ _ _ _ _ _ Hgen)|].
  intros e [H _]. exact H.
Qed.

Lemma create_failure_keeps_rows_witness :
  create_handler utc_zone 100 "p1" example_event_ids (Some "u1")
    (Some example_malformed_data) example_db
    = Some (Next_error, example_failed_db) /\
  exists protocol evs new,
    db_protocols example_failed_db
      = <[ "p1" := protocol ]> (db_protocols example_db) /\
    Some (pr_userId protocol) = Some "u1" /\
    db_events example_failed_db
      = db_events example_db ++ event_rows example_event_ids evs /\
    Forall (row_well_formed (pr_protocol protocol)) evs /\
    (1 <= dose_count evs)%nat /\
    db_notifications example_failed_db = db_notifications example_db ++ new /\
    db_activities example_failed_db = db_activities example_db /\
    db_profiles example_failed_db = db_profiles example_db /\
    db_journal example_failed_db = db_journal example_db.
Proof.
  split; [vm_compute; reflexivity|].
  apply (create_failure_keeps_rows utc_zone 100 "p1" example_event_ids
           (Some "u1") (Some example_malformed_data) example_db
           example_failed_db).
  vm_compute. reflexivity.
Defined.

(** * The notification table of the service *)

Lemma getPending_In (now : Z) (userId : string) (tbl : list NotificationRow)
    (r : NotificationRow) :
  In r (getPendingNotifications now userId tbl) <->
  In r tbl /\ is_pending userId now r = true.
Proof.
  unfold getPendingNotifications. rewrite <- filter_In.
  pose proof (merge_sort_Permutation scheduled_before
                (List.filter (is_pending userId now) tbl)) as Hp.
  split; intros Hin.
  - exact (Permutation_in r Hp Hin).
  - exact (Permutation_in r (Permutation_sym Hp) Hin).
Qed.

Lemma is_pending_sent (userId : string) (now t : Z) (r : NotificationRow) :
  is_pending userId t (sent_row now r) = false.
Proof.
  unfold is_pending, nr_status, sent_row. cbn [nr_notification n_status].
  change (String.eqb "sent" "scheduled") with false.
  rewrite andb_false_r. reflexivity.
Qed.

Lemma scheduled_before_trans : Transitive scheduled_before.
Proof. unfold scheduled_before. intros a b c. lia. Qed.

Lemma scheduled_before_total : Total scheduled_before.
Proof. unfold scheduled_before. intros a b. lia. Qed.

(** X21.  [getPendingNotifications] returns exactly the notifications of
    the user that are still scheduled and due, the earliest first; once
    [markAsSent] has marked a notification it is pending for nobody at any
    time, every other notification is pending exactly as before, and
    [markAsSent] rejects and changes nothing when no row has the id. *)
Theorem mark_as_sent_pending (now : Z) (notificationId : string)
    (tbl : list NotificationRow) :
  (forall t userId,
     StronglySorted scheduled_before (getPendingNotifications t userId tbl) /\
     forall r,
       In r (getPendingNotifications t userId tbl) <->
       In r tbl /\ n_userId (nr_notification r) = userId /\
       nr_status r = "scheduled" /\ nr_scheduledFor r <= t) /\
  match markAsSent now notificationId tbl with
  | (Rejected, tbl') =>
    tbl' = tbl /\ forall r, In r tbl -> nr_id r <> notificationId
  | (Fulfilled row, tbl') =>
    nr_id row = notificationId /\
    nr_status row = "sent" /\
    nr_sentAt row = Some now /\
    In row tbl' /\
    length tbl' = length tbl /\
    forall t userId r,
      In r (getPendingNotifications t userId tbl') <->
      In r (getPendingNotifications t userId tbl) /\
      nr_id r <> notificationId
  end.
Proof.
  split.
  - intros t userId. split.
    + apply (@StronglySorted_merge_sort _ scheduled_before _
               scheduled_before_trans scheduled_before_total).
    + intros r. rewrite getPending_In. unfold is_pending.
      rewrite !andb_true_iff, !String.eqb_eq, Z.leb_le. tauto.
  - unfold markAsSent.
    destruct (List.find _ tbl) as [found|] eqn:Hfind.
    + apply find_some in Hfind as [Hin Hid]. apply String.eqb_eq in Hid.
      split; [exact Hid|]. split; [reflexivity|]. split; [reflexivity|].
      split.
      { apply in_map_iff. exists found. split; [|exact Hin].
        rewrite Hid, String.eqb_refl. reflexivity. }
      split; [apply length_map|].
      intros t userId r. rewrite !getPending_In, in_map_iff. split.
      * intros [(x & Hx & Hxin) Hp].
        destruct (String.eqb_spec (nr_id x) notificationId) as [He|He].
        -- subst r. rewrite is_pending_sent in Hp. discriminate Hp.
        -- subst r. auto.
      * intros [[Hrin Hp] Hne]. split; [|exact Hp].
        exists r. split; [|exact Hrin].
        apply String.eqb_neq in Hne. rewrite Hne. reflexivity.
    + split; [reflexivity|]. intros r Hin Hid.
      apply (find_none _ _ Hfind) in Hin.
      rewrite Hid, String.eqb_refl in Hin. discriminate Hin.
Qed.

Lemma setDate_back_eq (tz : TimeZone) (t n : Z) :
  setDate_back tz t n =
  t - n * msPerDay + LocalTZA_utc tz t
    - LocalTZA_local tz (LocalTime tz t - n * msPerDay).
Proof.
  unfold setDate_back. cbv zeta.
  replace (MakeDate (Day (LocalTime tz t) - n) (TimeWithinDay (LocalTime tz t)))
    with (LocalTime tz t - n * msPerDay).
  - unfold UTC, LocalTime. ring.
  - rewrite <- (MakeDate_Day_TimeWithinDay (LocalTime tz t)) at 1.
    unfold MakeDate. ring.
Qed.

Lemma cleanup_In (tz : TimeZone) (now daysOld : Z)
    (tbl : list NotificationRow) (r : NotificationRow) :
  In r (snd (cleanupOldNotifications tz now daysOld tbl)) <->
  In r tbl /\ is_old (setDate_back tz now daysOld) r = false.
Proof.
  unfold cleanupOldNotifications. cbv zeta. cbn [snd].
  rewrite filter_In, negb_true_iff. reflexivity.
Qed.

Lemma is_old_status (cutoffDate : Z) (r : NotificationRow) :
  is_old cutoffDate r = true ->
  nr_createdAt r < cutoffDate /\
  (nr_status r = "sent" \/ nr_status r = "delivered" \/
   nr_status r = "failed").
Proof.
  unfold is_old. rewrite andb_true_iff, Z.ltb_lt. intros [Hlt Hinc].
  split; [exact Hlt|].
  apply includes_In in Hinc. simpl in Hinc.
  destruct Hinc as [H|[H|[H|[]]]]; auto.
Qed.

(** X22.  [cleanupOldNotifications] deletes only notifications that were
    sent, delivered or failed, and reports how many: the rows left and the
    count add up to the table, and the pending notifications of every user
    at every time are the same rows before and after. *)
Theorem cleanup_keeps_pending (tz : TimeZone) (now daysOld : Z)
    (tbl : list NotificationRow) :
  (length tbl =
     fst (cleanupOldNotifications tz now daysOld tbl)
     + length (snd (cleanupOldNotifications tz now daysOld tbl)))%nat /\
  (forall r,
     In r tbl ->
     ~ In r (snd (cleanupOldNotifications tz now daysOld tbl)) ->
     nr_status r = "sent" \/ nr_status r = "delivered" \/
     nr_status r = "failed") /\
  (forall t userId r,
     In r (getPendingNotifications t userId
             (snd (cleanupOldNotifications tz now daysOld tbl))) <->
     In r (getPendingNotifications t userId tbl)).
Proof.
  split; [|split].
  - unfold cleanupOldNotifications. cbv zeta. cbn [fst snd].
    induction tbl as [|r rest IH]; [reflexivity|].
    cbn [List.filter length].
    destruct (is_old _ r); cbn [negb length]; lia.
  - intros r Hin Hgone. rewrite cleanup_In in Hgone.
    destruct (is_old (setDate_back tz now daysOld) r) eqn:E.
    + apply is_old_status in E. tauto.
    + exfalso. apply Hgone. split; [exact Hin|reflexivity].
  - intros t userId r. rewrite !getPending_In, cleanup_In. split.
    + tauto.
    + intros [Hin Hp]. split; [|exact Hp]. split; [exact Hin|].
      destruct (is_old (setDate_back tz now daysOld) r) eqn:E;
        [|reflexivity].
      apply is_old_status in E as [_ Hs].
      unfold is_pending in Hp. rewrite !andb_true_iff in Hp.
      destruct Hp as [[_ Hsch] _]. apply String.eqb_eq in Hsch.
      rewrite Hsch in Hs. destruct Hs as [H|[H|H]]; discriminate H.
Qed.

(** X23.  The cutoff of [cleanupOldNotifications] is taken on the local
    calendar, so it is [daysOld] days before now only up to the change of
    the offset of the zone: a notification created within the last
    [daysOld - 1] days is always kept, a sent, delivered or failed one
    created more than [daysOld + 1] days ago is always deleted, and in a
    zone with a fixed offset the cutoff is exactly [daysOld] days. *)
Theorem cleanup_cutoff (tz : TimeZone) (now daysOld : Z)
    (tbl : list NotificationRow) (r : NotificationRow) :
  zone_bounded tz ->
  In r tbl ->
  (now - (daysOld - 1) * msPerDay <= nr_createdAt r ->
   In r (snd (cleanupOldNotifications tz now daysOld tbl))) /\
  (nr_createdAt r <= now - (daysOld + 1) * msPerDay ->
   includes ["sent"; "delivered"; "failed"] (nr_status r) = true ->
   ~ In r (snd (cleanupOldNotifications tz now daysOld tbl))) /\
  (forall offset, setDate_back (fixed_zone offset) now daysOld
                  = now - daysOld * msPerDay).
Proof.
  intros (lo & hi & Hw & Hb) Hin.
  pose proof (setDate_back_eq tz now daysOld) as Hcut.
  pose proof (Hb now) as [H1 _].
  pose proof (Hb (LocalTime tz now - daysOld * msPerDay)) as [_ H2].
  split; [|split].
  - intros Hnew. apply cleanup_In. split; [exact Hin|].
    unfold is_old. apply andb_false_iff. left. apply Z.ltb_ge. lia.
  - intros Hold Hst Hkept. apply cleanup_In in Hkept as [_ Hno].
    unfold is_old in Hno. rewrite Hst, andb_true_r in Hno.
    apply Z.ltb_ge in Hno. lia.
  - intros offset. rewrite setDate_back_eq. simpl. ring.
Qed.

Lemma cleanup_cutoff_witness :
  zone_bounded europe_berlin_2024 /\
  In (example_row "n3" "sent" (example_now - msPerDay) (example_now - 1000))
     example_rows /\
  In (example_row "n3" "sent" (example_now - msPerDay) (example_now - 1000))
     (snd (cleanupOldNotifications europe_berlin_2024 example_now 30
             example_rows)) /\
  ~ In (example_row "n2" "sent" (example_now - 40 * msPerDay)
          (example_now - 39 * msPerDay))
       (snd (cleanupOldNotifications europe_berlin_2024 example_now 30
               example_rows)).
Proof.
  assert (Hz : zone_bounded europe_berlin_2024).
  { exists 3600000, 7200000. split; [reflexivity|].
    intros t. simpl.
    destruct (t <? cet_switch_2024);
      destruct (t <? cet_switch_2024 + 7200000); lia. }
  assert (H3 : In (example_row "n3" "sent" (example_now - msPerDay)
                     (example_now - 1000)) example_rows)
    by (right; right; left; reflexivity).
  assert (H2 : In (example_row "n2" "sent" (example_now - 40 * msPerDay)
                     (example_now - 39 * msPerDay)) example_rows)
    by (right; left; reflexivity).
  split; [exact Hz|]. split; [exact H3|]. split.
  - destruct (cleanup_cutoff europe_berlin_2024 example_now 30 example_rows
                _ Hz H3) as (Hkeep & _ & _).
    apply Hkeep. vm_compute. discriminate.
  - destruct (cleanup_cutoff europe_berlin_2024 example_now 30 example_rows
                _ Hz H2) as (_ & Hdrop & _).
    apply Hdrop; [vm_compute; discriminate|reflexivity].
Defined.
